(** * Exim's GnuTLS glue (src/tls-gnu.c): a shallow embedding

    The C functions of [tls-gnu.c] are written as Rocq functions over explicit
    state.  The GnuTLS engine, the operating system and the rest of Exim are
    collaborators: what they answer to each call is an input of the model
    (an oracle record or a script of answers), never something the model
    decides.

    Conventions:
    - the state block [exim_gnutls_state_st] is a record with the fields of
      the C struct; a function that works on [state_server], [state_client]
      or [*current_global_tls_state] takes the block and returns it;
    - the globals of Exim that the file reads and writes are one record,
      which also carries the trace of what the run did to the outside: engine
      calls, file operations, log lines, SMTP output, alarms;
    - [int], [unsigned int] and [size_t] values are integers, with the
      conversions written out where the C code converts;
    - [DEBUG] output is left out;
    - the file is taken as compiled against GnuTLS 2.12 or later (channel
      binding, security-parameter constants and [gnutls_rnd] present) and
      with DKIM. *)

From Stdlib Require Import ZArith List Bool Lia.
From Stdlib.Strings Require Import String Ascii Byte.
From Stdlib Require Import DecimalString.
Import ListNotations.
Open Scope string_scope.
Open Scope list_scope.
Open Scope Z_scope.

(** ** C integer types *)

Module CInt.

Definition INT_MAX : Z := 2147483647.
Definition UINT_MODULUS : Z := 2 ^ 32.

(** Conversion to [unsigned int]: reduction modulo 2^32. *)
Definition to_uint (z : Z) : Z := z mod UINT_MODULUS.

(** Conversion to [int] on a two's-complement machine. *)
Definition to_int (z : Z) : Z := (z + 2 ^ 31) mod UINT_MODULUS - 2 ^ 31.

(** [size_t] of an LP64 platform. *)
Definition SIZE_MODULUS : Z := 2 ^ 64.
Definition to_size_t (z : Z) : Z := z mod SIZE_MODULUS.

(** A [uschar] read as an [int]. *)
Definition uschar_val (b : byte) : Z := Z.of_N (Byte.to_N b).

Definition EOF : Z := -1.

End CInt.
Import CInt.

(** ** Randomness helper: [vaguely_random_number] *)

Module Random.

(** The two sources of numbers: [gnutls_rnd (GNUTLS_RND_NONCE, smallbuf, len)]
    answers a return code and the bytes it left in [smallbuf]; the fallback
    generator lives in another file of Exim. *)
Record entropy : Type := {
  gnutls_rnd : Z -> Z * list byte;
  vaguely_random_number_fallback : Z -> Z
}.

Definition sizeof_r : Z := 4.

(** [for (r = max, i = 0; r; ++i) r >>= 1;]  The fuel is the width of [r]. *)
Fixpoint shift_count (fuel : nat) (r i : Z) : Z :=
  match fuel with
  | O => i
  | S k => if r =? 0 then i else shift_count k (Z.shiftr r 1) (i + 1)
  end.

Definition needed_len_of (max : Z) : Z :=
  let i := shift_count 32 (to_uint max) 0 in
  let i := (i + 7) / 8 in
  if i <? sizeof_r then i else sizeof_r.

(** [for (p = smallbuf; needed_len; --needed_len, ++p) { r *= 256; r += *p; }]
    A byte of [smallbuf] the source left unlisted reads as zero. *)
Fixpoint accumulate (needed_len : nat) (p : list byte) (r : Z) : Z :=
  match needed_len with
  | O => r
  | S n =>
      let r := to_uint (r * 256) in
      let r := to_uint (r + uschar_val (hd "000"%byte p)) in
      accumulate n (tl p) r
  end.

(** The result, and the lengths of the requests made to [gnutls_rnd]. *)
Definition vaguely_random_number (E : entropy) (max : Z) : Z * list Z :=
  if max <=? 1 then (0, [])
  else
    let needed_len := needed_len_of max in
    let '(i, smallbuf) := gnutls_rnd E needed_len in
    if i <? 0 then (vaguely_random_number_fallback E max, [needed_len])
    else
      let r := accumulate (Z.to_nat needed_len) smallbuf 0 in
      (to_int (r mod to_uint max), [needed_len]).

End Random.


(** ** The GnuTLS engine, as far as this file talks to it *)

Module Engine.

(** Values of [<gnutls/gnutls.h>]. *)
Definition GNUTLS_E_SUCCESS : Z := 0.
Definition GNUTLS_E_FATAL_ALERT_RECEIVED : Z := -12.
Definition GNUTLS_E_AGAIN : Z := -28.
Definition GNUTLS_E_SHORT_MEMORY_BUFFER : Z := -51.
Definition GNUTLS_E_INTERRUPTED : Z := -52.
Definition GNUTLS_CERT_INVALID : Z := 2.
Definition GNUTLS_CERT_REVOKED : Z := 32.
Definition GNUTLS_CRT_X509 : Z := 1.

(** A session object of the engine: its answers to the queries of this file,
    and, for the calls that are repeated (handshake steps, record reads and
    writes), the answers still to come, in order.  A handshake step comes
    with whether the alarm signal arrived while it ran. *)
Record gnutls_session : Type := {
  protocol_name : string;
  cipher_suite_name : string;
  cipher_key_size : Z;
  certificate_get_peers : option (list (list byte));
  certificate_type : Z;
  certificate_type_name : string;
  x509_crt_init_rc : Z;
  x509_crt_import : list byte -> Z;
  x509_crt_get_dn_sizing : list byte -> Z * Z;
  x509_crt_get_dn : list byte -> Z * string;
  certificate_verify_peers2 : Z * Z;
  channel_binding_b64 : Z * string;
  handshake_script : list (Z * bool);
  recv_script : list (Z * list byte);
  send_script : list Z
}.

Definition set_handshake_script (v : list (Z * bool)) (s : gnutls_session)
  : gnutls_session :=
  {| protocol_name := protocol_name s;
     cipher_suite_name := cipher_suite_name s;
     cipher_key_size := cipher_key_size s;
     certificate_get_peers := certificate_get_peers s;
     certificate_type := certificate_type s;
     certificate_type_name := certificate_type_name s;
     x509_crt_init_rc := x509_crt_init_rc s;
     x509_crt_import := x509_crt_import s;
     x509_crt_get_dn_sizing := x509_crt_get_dn_sizing s;
     x509_crt_get_dn := x509_crt_get_dn s;
     certificate_verify_peers2 := certificate_verify_peers2 s;
     channel_binding_b64 := channel_binding_b64 s;
     handshake_script := v;
     recv_script := recv_script s;
     send_script := send_script s |}.

Definition set_recv_script (v : list (Z * list byte)) (s : gnutls_session)
  : gnutls_session :=
  {| protocol_name := protocol_name s;
     cipher_suite_name := cipher_suite_name s;
     cipher_key_size := cipher_key_size s;
     certificate_get_peers := certificate_get_peers s;
     certificate_type := certificate_type s;
     certificate_type_name := certificate_type_name s;
     x509_crt_init_rc := x509_crt_init_rc s;
     x509_crt_import := x509_crt_import s;
     x509_crt_get_dn_sizing := x509_crt_get_dn_sizing s;
     x509_crt_get_dn := x509_crt_get_dn s;
     certificate_verify_peers2 := certificate_verify_peers2 s;
     channel_binding_b64 := channel_binding_b64 s;
     handshake_script := handshake_script s;
     recv_script := v;
     send_script := send_script s |}.

Definition set_send_script (v : list Z) (s : gnutls_session)
  : gnutls_session :=
  {| protocol_name := protocol_name s;
     cipher_suite_name := cipher_suite_name s;
     cipher_key_size := cipher_key_size s;
     certificate_get_peers := certificate_get_peers s;
     certificate_type := certificate_type s;
     certificate_type_name := certificate_type_name s;
     x509_crt_init_rc := x509_crt_init_rc s;
     x509_crt_import := x509_crt_import s;
     x509_crt_get_dn_sizing := x509_crt_get_dn_sizing s;
     x509_crt_get_dn := x509_crt_get_dn s;
     certificate_verify_peers2 := certificate_verify_peers2 s;
     channel_binding_b64 := channel_binding_b64 s;
     handshake_script := handshake_script s;
     recv_script := recv_script s;
     send_script := v |}.

(** A credential set, and what has been loaded into it. *)
Record credentials : Type := {
  key_file : option (string * string);
  trust_file : option string;
  crl_file : option string;
  dh_params : bool
}.

Definition empty_credentials : credentials :=
  {| key_file := None; trust_file := None; crl_file := None;
     dh_params := false |}.

(** The calls whose order and number the properties below speak of.  The
    look-ups of the name or the key size of an algorithm
    ([gnutls_protocol_get_name], [gnutls_cipher_suite_get_name],
    [gnutls_cipher_get_key_size], [gnutls_certificate_type_get_name]) are
    not among them: they take no session, and what they answer is a field
    of the session record. *)
Inductive engine_call : Type :=
| Cipher_get | Protocol_get_version | Mac_get | Kx_get
| Certificate_get_peers | Certificate_type_get
| X509_crt_init | X509_crt_import | X509_crt_get_dn
| Certificate_verify_peers2
| Alert_send_bad_certificate
| Certificate_server_set_request (req : string)
| Handshake_set_post_client_hello_function
| Transport_set_ptr (fd_recv fd_send : Z)
| Dh_set_prime_bits (bits : Z)
| Handshake
| Record_recv (len : Z)
| Record_send (offset len : Z)
| Session_channel_binding
| Dh_params_init
| Dh_params_import_pkcs3
| Dh_params_generate2 (bits : Z)
| Dh_params_export_pkcs3
| Deinit.

End Engine.
Import Engine.

(** ** The session state container and Exim's globals *)

Inductive peer_verify_requirement : Type :=
| VERIFY_NONE | VERIFY_OPTIONAL | VERIFY_REQUIRED.

Definition is_required (v : peer_verify_requirement) : bool :=
  match v with VERIFY_REQUIRED => true | _ => false end.

Record host_item : Type := { name : string; address : string }.

(** Exim's return codes (macros.h). *)
Definition OK : Z := 0.
Definition DEFER : Z := 1.
Definition FAIL : Z := 2.

Record exim_gnutls_state_st : Type := {
  session : option gnutls_session;
  x509_cred : option credentials;
  priority_cache : option string;
  verify_requirement : peer_verify_requirement;
  fd_in : Z;
  fd_out : Z;
  peer_cert_verified : bool;
  trigger_sni_changes : bool;
  have_set_peerdn : bool;
  host : option host_item;
  peerdn : option string;
  ciphersuite : option string;
  received_sni : option string;
  tls_certificate : option string;
  tls_privatekey : option string;
  tls_sni : option string;
  tls_verify_certificates : option string;
  tls_crl : option string;
  tls_require_ciphers : option string;
  exp_tls_certificate : option string;
  exp_tls_privatekey : option string;
  exp_tls_sni : option string;
  exp_tls_verify_certificates : option string;
  exp_tls_crl : option string;
  exp_tls_require_ciphers : option string;
  xfer_buffer : list byte;
  xfer_buffer_lwm : Z;
  xfer_buffer_hwm : Z;
  xfer_eof : Z;
  xfer_error : Z
}.

Definition exim_gnutls_state_init : exim_gnutls_state_st :=
  {| session := None; x509_cred := None; priority_cache := None;
     verify_requirement := VERIFY_NONE; fd_in := -1; fd_out := -1;
     peer_cert_verified := false; trigger_sni_changes := false;
     have_set_peerdn := false;
     host := None; peerdn := None; ciphersuite := None; received_sni := None;
     tls_certificate := None; tls_privatekey := None; tls_sni := None;
     tls_verify_certificates := None; tls_crl := None;
     tls_require_ciphers := None;
     exp_tls_certificate := None; exp_tls_privatekey := None;
     exp_tls_sni := None; exp_tls_verify_certificates := None;
     exp_tls_crl := None; exp_tls_require_ciphers := None;
     xfer_buffer := []; xfer_buffer_lwm := 0; xfer_buffer_hwm := 0;
     xfer_eof := 0; xfer_error := 0 |}.

Definition set_session (v : option gnutls_session) (st : exim_gnutls_state_st)
  : exim_gnutls_state_st :=
  {| session := v; x509_cred := x509_cred st;
     priority_cache := priority_cache st;
     verify_requirement := verify_requirement st; fd_in := fd_in st;
     fd_out := fd_out st; peer_cert_verified := peer_cert_verified st;
     trigger_sni_changes := trigger_sni_changes st;
     have_set_peerdn := have_set_peerdn st; host := host st;
     peerdn := peerdn st; ciphersuite := ciphersuite st;
     received_sni := received_sni st; tls_certificate := tls_certificate st;
     tls_privatekey := tls_privatekey st; tls_sni := tls_sni st;
     tls_verify_certificates := tls_verify_certificates st;
     tls_crl := tls_crl st; tls_require_ciphers := tls_require_ciphers st;
     exp_tls_certificate := exp_tls_certificate st;
     exp_tls_privatekey := exp_tls_privatekey st;
     exp_tls_sni := exp_tls_sni st;
     exp_tls_verify_certificates := exp_tls_verify_certificates st;
     exp_tls_crl := exp_tls_crl st;
     exp_tls_require_ciphers := exp_tls_require_ciphers st;
     xfer_buffer := xfer_buffer st; xfer_buffer_lwm := xfer_buffer_lwm st;
     xfer_buffer_hwm := xfer_buffer_hwm st; xfer_eof := xfer_eof st;
     xfer_error := xfer_error st |}.

Definition set_x509_cred (v : option credentials) (st : exim_gnutls_state_st)
  : exim_gnutls_state_st :=
  {| session := session st; x509_cred := v;
     priority_cache := priority_cache st;
     verify_requirement := verify_requirement st; fd_in := fd_in st;
     fd_out := fd_out st; peer_cert_verified := peer_cert_verified st;
     trigger_sni_changes := trigger_sni_changes st;
     have_set_peerdn := have_set_peerdn st; host := host st;
     peerdn := peerdn st; ciphersuite := ciphersuite st;
     received_sni := received_sni st; tls_certificate := tls_certificate st;
     tls_privatekey := tls_privatekey st; tls_sni := tls_sni st;
     tls_verify_certificates := tls_verify_certificates st;
     tls_crl := tls_crl st; tls_require_ciphers := tls_require_ciphers st;
     exp_tls_certificate := exp_tls_certificate st;
     exp_tls_privatekey := exp_tls_privatekey st;
     exp_tls_sni := exp_tls_sni st;
     exp_tls_verify_certificates := exp_tls_verify_certificates st;
     exp_tls_crl := exp_tls_crl st;
     exp_tls_require_ciphers := exp_tls_require_ciphers st;
     xfer_buffer := xfer_buffer st; xfer_buffer_lwm := xfer_buffer_lwm st;
     xfer_buffer_hwm := xfer_buffer_hwm st; xfer_eof := xfer_eof st;
     xfer_error := xfer_error st |}.

Definition set_verify_requirement (v : peer_verify_requirement) (st : exim_gnutls_state_st)
  : exim_gnutls_state_st :=
  {| session := session st; x509_cred := x509_cred st;
     priority_cache := priority_cache st; verify_requirement := v;
     fd_in := fd_in st; fd_out := fd_out st;
     peer_cert_verified := peer_cert_verified st;
     trigger_sni_changes := trigger_sni_changes st;
     have_set_peerdn := have_set_peerdn st; host := host st;
     peerdn := peerdn st; ciphersuite := ciphersuite st;
     received_sni := received_sni st; tls_certificate := tls_certificate st;
     tls_privatekey := tls_privatekey st; tls_sni := tls_sni st;
     tls_verify_certificates := tls_verify_certificates st;
     tls_crl := tls_crl st; tls_require_ciphers := tls_require_ciphers st;
     exp_tls_certificate := exp_tls_certificate st;
     exp_tls_privatekey := exp_tls_privatekey st;
     exp_tls_sni := exp_tls_sni st;
     exp_tls_verify_certificates := exp_tls_verify_certificates st;
     exp_tls_crl := exp_tls_crl st;
     exp_tls_require_ciphers := exp_tls_require_ciphers st;
     xfer_buffer := xfer_buffer st; xfer_buffer_lwm := xfer_buffer_lwm st;
     xfer_buffer_hwm := xfer_buffer_hwm st; xfer_eof := xfer_eof st;
     xfer_error := xfer_error st |}.

Definition set_fd_in (v : Z) (st : exim_gnutls_state_st)
  : exim_gnutls_state_st :=
  {| session := session st; x509_cred := x509_cred st;
     priority_cache := priority_cache st;
     verify_requirement := verify_requirement st; fd_in := v;
     fd_out := fd_out st; peer_cert_verified := peer_cert_verified st;
     trigger_sni_changes := trigger_sni_changes st;
     have_set_peerdn := have_set_peerdn st; host := host st;
     peerdn := peerdn st; ciphersuite := ciphersuite st;
     received_sni := received_sni st; tls_certificate := tls_certificate st;
     tls_privatekey := tls_privatekey st; tls_sni := tls_sni st;
     tls_verify_certificates := tls_verify_certificates st;
     tls_crl := tls_crl st; tls_require_ciphers := tls_require_ciphers st;
     exp_tls_certificate := exp_tls_certificate st;
     exp_tls_privatekey := exp_tls_privatekey st;
     exp_tls_sni := exp_tls_sni st;
     exp_tls_verify_certificates := exp_tls_verify_certificates st;
     exp_tls_crl := exp_tls_crl st;
     exp_tls_require_ciphers := exp_tls_require_ciphers st;
     xfer_buffer := xfer_buffer st; xfer_buffer_lwm := xfer_buffer_lwm st;
     xfer_buffer_hwm := xfer_buffer_hwm st; xfer_eof := xfer_eof st;
     xfer_error := xfer_error st |}.

Definition set_fd_out (v : Z) (st : exim_gnutls_state_st)
  : exim_gnutls_state_st :=
  {| session := session st; x509_cred := x509_cred st;
     priority_cache := priority_cache st;
     verify_requirement := verify_requirement st; fd_in := fd_in st;
     fd_out := v; peer_cert_verified := peer_cert_verified st;
     trigger_sni_changes := trigger_sni_changes st;
     have_set_peerdn := have_set_peerdn st; host := host st;
     peerdn := peerdn st; ciphersuite := ciphersuite st;
     received_sni := received_sni st; tls_certificate := tls_certificate st;
     tls_privatekey := tls_privatekey st; tls_sni := tls_sni st;
     tls_verify_certificates := tls_verify_certificates st;
     tls_crl := tls_crl st; tls_require_ciphers := tls_require_ciphers st;
     exp_tls_certificate := exp_tls_certificate st;
     exp_tls_privatekey := exp_tls_privatekey st;
     exp_tls_sni := exp_tls_sni st;
     exp_tls_verify_certificates := exp_tls_verify_certificates st;
     exp_tls_crl := exp_tls_crl st;
     exp_tls_require_ciphers := exp_tls_require_ciphers st;
     xfer_buffer := xfer_buffer st; xfer_buffer_lwm := xfer_buffer_lwm st;
     xfer_buffer_hwm := xfer_buffer_hwm st; xfer_eof := xfer_eof st;
     xfer_error := xfer_error st |}.

Definition set_peer_cert_verified (v : bool) (st : exim_gnutls_state_st)
  : exim_gnutls_state_st :=
  {| session := session st; x509_cred := x509_cred st;
     priority_cache := priority_cache st;
     verify_requirement := verify_requirement st; fd_in := fd_in st;
     fd_out := fd_out st; peer_cert_verified := v;
     trigger_sni_changes := trigger_sni_changes st;
     have_set_peerdn := have_set_peerdn st; host := host st;
     peerdn := peerdn st; ciphersuite := ciphersuite st;
     received_sni := received_sni st; tls_certificate := tls_certificate st;
     tls_privatekey := tls_privatekey st; tls_sni := tls_sni st;
     tls_verify_certificates := tls_verify_certificates st;
     tls_crl := tls_crl st; tls_require_ciphers := tls_require_ciphers st;
     exp_tls_certificate := exp_tls_certificate st;
     exp_tls_privatekey := exp_tls_privatekey st;
     exp_tls_sni := exp_tls_sni st;
     exp_tls_verify_certificates := exp_tls_verify_certificates st;
     exp_tls_crl := exp_tls_crl st;
     exp_tls_require_ciphers := exp_tls_require_ciphers st;
     xfer_buffer := xfer_buffer st; xfer_buffer_lwm := xfer_buffer_lwm st;
     xfer_buffer_hwm := xfer_buffer_hwm st; xfer_eof := xfer_eof st;
     xfer_error := xfer_error st |}.

Definition set_trigger_sni_changes (v : bool) (st : exim_gnutls_state_st)
  : exim_gnutls_state_st :=
  {| session := session st; x509_cred := x509_cred st;
     priority_cache := priority_cache st;
     verify_requirement := verify_requirement st; fd_in := fd_in st;
     fd_out := fd_out st; peer_cert_verified := peer_cert_verified st;
     trigger_sni_changes := v; have_set_peerdn := have_set_peerdn st;
     host := host st; peerdn := peerdn st; ciphersuite := ciphersuite st;
     received_sni := received_sni st; tls_certificate := tls_certificate st;
     tls_privatekey := tls_privatekey st; tls_sni := tls_sni st;
     tls_verify_certificates := tls_verify_certificates st;
     tls_crl := tls_crl st; tls_require_ciphers := tls_require_ciphers st;
     exp_tls_certificate := exp_tls_certificate st;
     exp_tls_privatekey := exp_tls_privatekey st;
     exp_tls_sni := exp_tls_sni st;
     exp_tls_verify_certificates := exp_tls_verify_certificates st;
     exp_tls_crl := exp_tls_crl st;
     exp_tls_require_ciphers := exp_tls_require_ciphers st;
     xfer_buffer := xfer_buffer st; xfer_buffer_lwm := xfer_buffer_lwm st;
     xfer_buffer_hwm := xfer_buffer_hwm st; xfer_eof := xfer_eof st;
     xfer_error := xfer_error st |}.

Definition set_have_set_peerdn (v : bool) (st : exim_gnutls_state_st)
  : exim_gnutls_state_st :=
  {| session := session st; x509_cred := x509_cred st;
     priority_cache := priority_cache st;
     verify_requirement := verify_requirement st; fd_in := fd_in st;
     fd_out := fd_out st; peer_cert_verified := peer_cert_verified st;
     trigger_sni_changes := trigger_sni_changes st; have_set_peerdn := v;
     host := host st; peerdn := peerdn st; ciphersuite := ciphersuite st;
     received_sni := received_sni st; tls_certificate := tls_certificate st;
     tls_privatekey := tls_privatekey st; tls_sni := tls_sni st;
     tls_verify_certificates := tls_verify_certificates st;
     tls_crl := tls_crl st; tls_require_ciphers := tls_require_ciphers st;
     exp_tls_certificate := exp_tls_certificate st;
     exp_tls_privatekey := exp_tls_privatekey st;
     exp_tls_sni := exp_tls_sni st;
     exp_tls_verify_certificates := exp_tls_verify_certificates st;
     exp_tls_crl := exp_tls_crl st;
     exp_tls_require_ciphers := exp_tls_require_ciphers st;
     xfer_buffer := xfer_buffer st; xfer_buffer_lwm := xfer_buffer_lwm st;
     xfer_buffer_hwm := xfer_buffer_hwm st; xfer_eof := xfer_eof st;
     xfer_error := xfer_error st |}.

Definition set_peerdn (v : option string) (st : exim_gnutls_state_st)
  : exim_gnutls_state_st :=
  {| session := session st; x509_cred := x509_cred st;
     priority_cache := priority_cache st;
     verify_requirement := verify_requirement st; fd_in := fd_in st;
     fd_out := fd_out st; peer_cert_verified := peer_cert_verified st;
     trigger_sni_changes := trigger_sni_changes st;
     have_set_peerdn := have_set_peerdn st; host := host st; peerdn := v;
     ciphersuite := ciphersuite st; received_sni := received_sni st;
     tls_certificate := tls_certificate st;
     tls_privatekey := tls_privatekey st; tls_sni := tls_sni st;
     tls_verify_certificates := tls_verify_certificates st;
     tls_crl := tls_crl st; tls_require_ciphers := tls_require_ciphers st;
     exp_tls_certificate := exp_tls_certificate st;
     exp_tls_privatekey := exp_tls_privatekey st;
     exp_tls_sni := exp_tls_sni st;
     exp_tls_verify_certificates := exp_tls_verify_certificates st;
     exp_tls_crl := exp_tls_crl st;
     exp_tls_require_ciphers := exp_tls_require_ciphers st;
     xfer_buffer := xfer_buffer st; xfer_buffer_lwm := xfer_buffer_lwm st;
     xfer_buffer_hwm := xfer_buffer_hwm st; xfer_eof := xfer_eof st;
     xfer_error := xfer_error st |}.

Definition set_ciphersuite (v : option string) (st : exim_gnutls_state_st)
  : exim_gnutls_state_st :=
  {| session := session st; x509_cred := x509_cred st;
     priority_cache := priority_cache st;
     verify_requirement := verify_requirement st; fd_in := fd_in st;
     fd_out := fd_out st; peer_cert_verified := peer_cert_verified st;
     trigger_sni_changes := trigger_sni_changes st;
     have_set_peerdn := have_set_peerdn st; host := host st;
     peerdn := peerdn st; ciphersuite := v; received_sni := received_sni st;
     tls_certificate := tls_certificate st;
     tls_privatekey := tls_privatekey st; tls_sni := tls_sni st;
     tls_verify_certificates := tls_verify_certificates st;
     tls_crl := tls_crl st; tls_require_ciphers := tls_require_ciphers st;
     exp_tls_certificate := exp_tls_certificate st;
     exp_tls_privatekey := exp_tls_privatekey st;
     exp_tls_sni := exp_tls_sni st;
     exp_tls_verify_certificates := exp_tls_verify_certificates st;
     exp_tls_crl := exp_tls_crl st;
     exp_tls_require_ciphers := exp_tls_require_ciphers st;
     xfer_buffer := xfer_buffer st; xfer_buffer_lwm := xfer_buffer_lwm st;
     xfer_buffer_hwm := xfer_buffer_hwm st; xfer_eof := xfer_eof st;
     xfer_error := xfer_error st |}.

Definition set_tls_privatekey (v : option string) (st : exim_gnutls_state_st)
  : exim_gnutls_state_st :=
  {| session := session st; x509_cred := x509_cred st;
     priority_cache := priority_cache st;
     verify_requirement := verify_requirement st; fd_in := fd_in st;
     fd_out := fd_out st; peer_cert_verified := peer_cert_verified st;
     trigger_sni_changes := trigger_sni_changes st;
     have_set_peerdn := have_set_peerdn st; host := host st;
     peerdn := peerdn st; ciphersuite := ciphersuite st;
     received_sni := received_sni st; tls_certificate := tls_certificate st;
     tls_privatekey := v; tls_sni := tls_sni st;
     tls_verify_certificates := tls_verify_certificates st;
     tls_crl := tls_crl st; tls_require_ciphers := tls_require_ciphers st;
     exp_tls_certificate := exp_tls_certificate st;
     exp_tls_privatekey := exp_tls_privatekey st;
     exp_tls_sni := exp_tls_sni st;
     exp_tls_verify_certificates := exp_tls_verify_certificates st;
     exp_tls_crl := exp_tls_crl st;
     exp_tls_require_ciphers := exp_tls_require_ciphers st;
     xfer_buffer := xfer_buffer st; xfer_buffer_lwm := xfer_buffer_lwm st;
     xfer_buffer_hwm := xfer_buffer_hwm st; xfer_eof := xfer_eof st;
     xfer_error := xfer_error st |}.

Definition set_exp_tls_certificate (v : option string) (st : exim_gnutls_state_st)
  : exim_gnutls_state_st :=
  {| session := session st; x509_cred := x509_cred st;
     priority_cache := priority_cache st;
     verify_requirement := verify_requirement st; fd_in := fd_in st;
     fd_out := fd_out st; peer_cert_verified := peer_cert_verified st;
     trigger_sni_changes := trigger_sni_changes st;
     have_set_peerdn := have_set_peerdn st; host := host st;
     peerdn := peerdn st; ciphersuite := ciphersuite st;
     received_sni := received_sni st; tls_certificate := tls_certificate st;
     tls_privatekey := tls_privatekey st; tls_sni := tls_sni st;
     tls_verify_certificates := tls_verify_certificates st;
     tls_crl := tls_crl st; tls_require_ciphers := tls_require_ciphers st;
     exp_tls_certificate := v; exp_tls_privatekey := exp_tls_privatekey st;
     exp_tls_sni := exp_tls_sni st;
     exp_tls_verify_certificates := exp_tls_verify_certificates st;
     exp_tls_crl := exp_tls_crl st;
     exp_tls_require_ciphers := exp_tls_require_ciphers st;
     xfer_buffer := xfer_buffer st; xfer_buffer_lwm := xfer_buffer_lwm st;
     xfer_buffer_hwm := xfer_buffer_hwm st; xfer_eof := xfer_eof st;
     xfer_error := xfer_error st |}.

Definition set_exp_tls_privatekey (v : option string) (st : exim_gnutls_state_st)
  : exim_gnutls_state_st :=
  {| session := session st; x509_cred := x509_cred st;
     priority_cache := priority_cache st;
     verify_requirement := verify_requirement st; fd_in := fd_in st;
     fd_out := fd_out st; peer_cert_verified := peer_cert_verified st;
     trigger_sni_changes := trigger_sni_changes st;
     have_set_peerdn := have_set_peerdn st; host := host st;
     peerdn := peerdn st; ciphersuite := ciphersuite st;
     received_sni := received_sni st; tls_certificate := tls_certificate st;
     tls_privatekey := tls_privatekey st; tls_sni := tls_sni st;
     tls_verify_certificates := tls_verify_certificates st;
     tls_crl := tls_crl st; tls_require_ciphers := tls_require_ciphers st;
     exp_tls_certificate := exp_tls_certificate st; exp_tls_privatekey := v;
     exp_tls_sni := exp_tls_sni st;
     exp_tls_verify_certificates := exp_tls_verify_certificates st;
     exp_tls_crl := exp_tls_crl st;
     exp_tls_require_ciphers := exp_tls_require_ciphers st;
     xfer_buffer := xfer_buffer st; xfer_buffer_lwm := xfer_buffer_lwm st;
     xfer_buffer_hwm := xfer_buffer_hwm st; xfer_eof := xfer_eof st;
     xfer_error := xfer_error st |}.

Definition set_exp_tls_verify_certificates (v : option string) (st : exim_gnutls_state_st)
  : exim_gnutls_state_st :=
  {| session := session st; x509_cred := x509_cred st;
     priority_cache := priority_cache st;
     verify_requirement := verify_requirement st; fd_in := fd_in st;
     fd_out := fd_out st; peer_cert_verified := peer_cert_verified st;
     trigger_sni_changes := trigger_sni_changes st;
     have_set_peerdn := have_set_peerdn st; host := host st;
     peerdn := peerdn st; ciphersuite := ciphersuite st;
     received_sni := received_sni st; tls_certificate := tls_certificate st;
     tls_privatekey := tls_privatekey st; tls_sni := tls_sni st;
     tls_verify_certificates := tls_verify_certificates st;
     tls_crl := tls_crl st; tls_require_ciphers := tls_require_ciphers st;
     exp_tls_certificate := exp_tls_certificate st;
     exp_tls_privatekey := exp_tls_privatekey st;
     exp_tls_sni := exp_tls_sni st; exp_tls_verify_certificates := v;
     exp_tls_crl := exp_tls_crl st;
     exp_tls_require_ciphers := exp_tls_require_ciphers st;
     xfer_buffer := xfer_buffer st; xfer_buffer_lwm := xfer_buffer_lwm st;
     xfer_buffer_hwm := xfer_buffer_hwm st; xfer_eof := xfer_eof st;
     xfer_error := xfer_error st |}.

Definition set_exp_tls_crl (v : option string) (st : exim_gnutls_state_st)
  : exim_gnutls_state_st :=
  {| session := session st; x509_cred := x509_cred st;
     priority_cache := priority_cache st;
     verify_requirement := verify_requirement st; fd_in := fd_in st;
     fd_out := fd_out st; peer_cert_verified := peer_cert_verified st;
     trigger_sni_changes := trigger_sni_changes st;
     have_set_peerdn := have_set_peerdn st; host := host st;
     peerdn := peerdn st; ciphersuite := ciphersuite st;
     received_sni := received_sni st; tls_certificate := tls_certificate st;
     tls_privatekey := tls_privatekey st; tls_sni := tls_sni st;
     tls_verify_certificates := tls_verify_certificates st;
     tls_crl := tls_crl st; tls_require_ciphers := tls_require_ciphers st;
     exp_tls_certificate := exp_tls_certificate st;
     exp_tls_privatekey := exp_tls_privatekey st;
     exp_tls_sni := exp_tls_sni st;
     exp_tls_verify_certificates := exp_tls_verify_certificates st;
     exp_tls_crl := v;
     exp_tls_require_ciphers := exp_tls_require_ciphers st;
     xfer_buffer := xfer_buffer st; xfer_buffer_lwm := xfer_buffer_lwm st;
     xfer_buffer_hwm := xfer_buffer_hwm st; xfer_eof := xfer_eof st;
     xfer_error := xfer_error st |}.

Definition set_xfer_buffer (v : list byte) (st : exim_gnutls_state_st)
  : exim_gnutls_state_st :=
  {| session := session st; x509_cred := x509_cred st;
     priority_cache := priority_cache st;
     verify_requirement := verify_requirement st; fd_in := fd_in st;
     fd_out := fd_out st; peer_cert_verified := peer_cert_verified st;
     trigger_sni_changes := trigger_sni_changes st;
     have_set_peerdn := have_set_peerdn st; host := host st;
     peerdn := peerdn st; ciphersuite := ciphersuite st;
     received_sni := received_sni st; tls_certificate := tls_certificate st;
     tls_privatekey := tls_privatekey st; tls_sni := tls_sni st;
     tls_verify_certificates := tls_verify_certificates st;
     tls_crl := tls_crl st; tls_require_ciphers := tls_require_ciphers st;
     exp_tls_certificate := exp_tls_certificate st;
     exp_tls_privatekey := exp_tls_privatekey st;
     exp_tls_sni := exp_tls_sni st;
     exp_tls_verify_certificates := exp_tls_verify_certificates st;
     exp_tls_crl := exp_tls_crl st;
     exp_tls_require_ciphers := exp_tls_require_ciphers st;
     xfer_buffer := v; xfer_buffer_lwm := xfer_buffer_lwm st;
     xfer_buffer_hwm := xfer_buffer_hwm st; xfer_eof := xfer_eof st;
     xfer_error := xfer_error st |}.

Definition set_xfer_buffer_lwm (v : Z) (st : exim_gnutls_state_st)
  : exim_gnutls_state_st :=
  {| session := session st; x509_cred := x509_cred st;
     priority_cache := priority_cache st;
     verify_requirement := verify_requirement st; fd_in := fd_in st;
     fd_out := fd_out st; peer_cert_verified := peer_cert_verified st;
     trigger_sni_changes := trigger_sni_changes st;
     have_set_peerdn := have_set_peerdn st; host := host st;
     peerdn := peerdn st; ciphersuite := ciphersuite st;
     received_sni := received_sni st; tls_certificate := tls_certificate st;
     tls_privatekey := tls_privatekey st; tls_sni := tls_sni st;
     tls_verify_certificates := tls_verify_certificates st;
     tls_crl := tls_crl st; tls_require_ciphers := tls_require_ciphers st;
     exp_tls_certificate := exp_tls_certificate st;
     exp_tls_privatekey := exp_tls_privatekey st;
     exp_tls_sni := exp_tls_sni st;
     exp_tls_verify_certificates := exp_tls_verify_certificates st;
     exp_tls_crl := exp_tls_crl st;
     exp_tls_require_ciphers := exp_tls_require_ciphers st;
     xfer_buffer := xfer_buffer st; xfer_buffer_lwm := v;
     xfer_buffer_hwm := xfer_buffer_hwm st; xfer_eof := xfer_eof st;
     xfer_error := xfer_error st |}.

Definition set_xfer_buffer_hwm (v : Z) (st : exim_gnutls_state_st)
  : exim_gnutls_state_st :=
  {| session := session st; x509_cred := x509_cred st;
     priority_cache := priority_cache st;
     verify_requirement := verify_requirement st; fd_in := fd_in st;
     fd_out := fd_out st; peer_cert_verified := peer_cert_verified st;
     trigger_sni_changes := trigger_sni_changes st;
     have_set_peerdn := have_set_peerdn st; host := host st;
     peerdn := peerdn st; ciphersuite := ciphersuite st;
     received_sni := received_sni st; tls_certificate := tls_certificate st;
     tls_privatekey := tls_privatekey st; tls_sni := tls_sni st;
     tls_verify_certificates := tls_verify_certificates st;
     tls_crl := tls_crl st; tls_require_ciphers := tls_require_ciphers st;
     exp_tls_certificate := exp_tls_certificate st;
     exp_tls_privatekey := exp_tls_privatekey st;
     exp_tls_sni := exp_tls_sni st;
     exp_tls_verify_certificates := exp_tls_verify_certificates st;
     exp_tls_crl := exp_tls_crl st;
     exp_tls_require_ciphers := exp_tls_require_ciphers st;
     xfer_buffer := xfer_buffer st; xfer_buffer_lwm := xfer_buffer_lwm st;
     xfer_buffer_hwm := v; xfer_eof := xfer_eof st;
     xfer_error := xfer_error st |}.

Definition set_xfer_error (v : Z) (st : exim_gnutls_state_st)
  : exim_gnutls_state_st :=
  {| session := session st; x509_cred := x509_cred st;
     priority_cache := priority_cache st;
     verify_requirement := verify_requirement st; fd_in := fd_in st;
     fd_out := fd_out st; peer_cert_verified := peer_cert_verified st;
     trigger_sni_changes := trigger_sni_changes st;
     have_set_peerdn := have_set_peerdn st; host := host st;
     peerdn := peerdn st; ciphersuite := ciphersuite st;
     received_sni := received_sni st; tls_certificate := tls_certificate st;
     tls_privatekey := tls_privatekey st; tls_sni := tls_sni st;
     tls_verify_certificates := tls_verify_certificates st;
     tls_crl := tls_crl st; tls_require_ciphers := tls_require_ciphers st;
     exp_tls_certificate := exp_tls_certificate st;
     exp_tls_privatekey := exp_tls_privatekey st;
     exp_tls_sni := exp_tls_sni st;
     exp_tls_verify_certificates := exp_tls_verify_certificates st;
     exp_tls_crl := exp_tls_crl st;
     exp_tls_require_ciphers := exp_tls_require_ciphers st;
     xfer_buffer := xfer_buffer st; xfer_buffer_lwm := xfer_buffer_lwm st;
     xfer_buffer_hwm := xfer_buffer_hwm st; xfer_eof := xfer_eof st;
     xfer_error := v |}.

(** The text handed to the log with an error. *)
Inductive message : Type :=
| Msg_null
| Msg_text (s : string)
| Msg_gnutls_strerror (rc : Z)
| Msg_alert (rc : Z)
| Msg_strerror_errno.

Inductive stream : Type := Smtp_in | Smtp_out.

(** The file operations of the DH parameter cache. *)
Inductive sys_call : Type :=
| Sys_open (path : string)
| Sys_close (path : string)
| Sys_mkstemp (template : string)
| Sys_fchown (path : string)
| Sys_write (path : string) (data : list byte)
| Sys_rename (old new : string).

(** What the rest of the process can observe of a run. *)
Inductive event : Type :=
| Ev_engine (c : engine_call)
| Ev_sys (c : sys_call)
| Ev_tls_error (prefix : string) (msg : message) (h : option host_item)
| Ev_log_write (text : string)
| Ev_smtp_printf (text : string)
| Ev_fflush_smtp_out
| Ev_fclose (f : stream)
| Ev_alarm (seconds : Z)
| Ev_dkim_exim_verify_feed (data : list byte).

(** Which family the [receive_*] function pointers point into. *)
Inductive receive_fn : Type := Smtp_fn | Tls_fn.

(** The globals of Exim this file reads and writes (globals.c, tls.c), the
    two SMTP streams, and the bytes still to come on the plaintext input. *)
Module G.

Record t : Type := {
  tls_active : Z;
  tls_bits : Z;
  tls_certificate_verified : bool;
  tls_channelbinding_b64 : option string;
  tls_cipher : option string;
  tls_peerdn : option string;
  tls_sni : option string;
  receive_getc : receive_fn;
  receive_ungetc : receive_fn;
  receive_feof : receive_fn;
  receive_ferror : receive_fn;
  receive_smtp_buffered : receive_fn;
  sigalrm_seen : bool;
  smtp_in_open : bool;
  smtp_out_open : bool;
  smtp_inbuffer : list byte;
  tls_on_connect : bool;
  smtp_receive_timeout : Z;
  ssl_xfer_buffer_size : Z;
  trace : list event
}.

Definition set_tls_active (v : Z) (g : t) : t :=
  {| tls_active := v; tls_bits := tls_bits g;
     tls_certificate_verified := tls_certificate_verified g;
     tls_channelbinding_b64 := tls_channelbinding_b64 g;
     tls_cipher := tls_cipher g; tls_peerdn := tls_peerdn g;
     tls_sni := tls_sni g; receive_getc := receive_getc g;
     receive_ungetc := receive_ungetc g; receive_feof := receive_feof g;
     receive_ferror := receive_ferror g;
     receive_smtp_buffered := receive_smtp_buffered g;
     sigalrm_seen := sigalrm_seen g; smtp_in_open := smtp_in_open g;
     smtp_out_open := smtp_out_open g; smtp_inbuffer := smtp_inbuffer g;
     tls_on_connect := tls_on_connect g;
     smtp_receive_timeout := smtp_receive_timeout g;
     ssl_xfer_buffer_size := ssl_xfer_buffer_size g; trace := trace g |}.

Definition set_tls_bits (v : Z) (g : t) : t :=
  {| tls_active := tls_active g; tls_bits := v;
     tls_certificate_verified := tls_certificate_verified g;
     tls_channelbinding_b64 := tls_channelbinding_b64 g;
     tls_cipher := tls_cipher g; tls_peerdn := tls_peerdn g;
     tls_sni := tls_sni g; receive_getc := receive_getc g;
     receive_ungetc := receive_ungetc g; receive_feof := receive_feof g;
     receive_ferror := receive_ferror g;
     receive_smtp_buffered := receive_smtp_buffered g;
     sigalrm_seen := sigalrm_seen g; smtp_in_open := smtp_in_open g;
     smtp_out_open := smtp_out_open g; smtp_inbuffer := smtp_inbuffer g;
     tls_on_connect := tls_on_connect g;
     smtp_receive_timeout := smtp_receive_timeout g;
     ssl_xfer_buffer_size := ssl_xfer_buffer_size g; trace := trace g |}.

Definition set_tls_certificate_verified (v : bool) (g : t) : t :=
  {| tls_active := tls_active g; tls_bits := tls_bits g;
     tls_certificate_verified := v;
     tls_channelbinding_b64 := tls_channelbinding_b64 g;
     tls_cipher := tls_cipher g; tls_peerdn := tls_peerdn g;
     tls_sni := tls_sni g; receive_getc := receive_getc g;
     receive_ungetc := receive_ungetc g; receive_feof := receive_feof g;
     receive_ferror := receive_ferror g;
     receive_smtp_buffered := receive_smtp_buffered g;
     sigalrm_seen := sigalrm_seen g; smtp_in_open := smtp_in_open g;
     smtp_out_open := smtp_out_open g; smtp_inbuffer := smtp_inbuffer g;
     tls_on_connect := tls_on_connect g;
     smtp_receive_timeout := smtp_receive_timeout g;
     ssl_xfer_buffer_size := ssl_xfer_buffer_size g; trace := trace g |}.

Definition set_tls_channelbinding_b64 (v : option string) (g : t) : t :=
  {| tls_active := tls_active g; tls_bits := tls_bits g;
     tls_certificate_verified := tls_certificate_verified g;
     tls_channelbinding_b64 := v; tls_cipher := tls_cipher g;
     tls_peerdn := tls_peerdn g; tls_sni := tls_sni g;
     receive_getc := receive_getc g; receive_ungetc := receive_ungetc g;
     receive_feof := receive_feof g; receive_ferror := receive_ferror g;
     receive_smtp_buffered := receive_smtp_buffered g;
     sigalrm_seen := sigalrm_seen g; smtp_in_open := smtp_in_open g;
     smtp_out_open := smtp_out_open g; smtp_inbuffer := smtp_inbuffer g;
     tls_on_connect := tls_on_connect g;
     smtp_receive_timeout := smtp_receive_timeout g;
     ssl_xfer_buffer_size := ssl_xfer_buffer_size g; trace := trace g |}.

Definition set_tls_cipher (v : option string) (g : t) : t :=
  {| tls_active := tls_active g; tls_bits := tls_bits g;
     tls_certificate_verified := tls_certificate_verified g;
     tls_channelbinding_b64 := tls_channelbinding_b64 g; tls_cipher := v;
     tls_peerdn := tls_peerdn g; tls_sni := tls_sni g;
     receive_getc := receive_getc g; receive_ungetc := receive_ungetc g;
     receive_feof := receive_feof g; receive_ferror := receive_ferror g;
     receive_smtp_buffered := receive_smtp_buffered g;
     sigalrm_seen := sigalrm_seen g; smtp_in_open := smtp_in_open g;
     smtp_out_open := smtp_out_open g; smtp_inbuffer := smtp_inbuffer g;
     tls_on_connect := tls_on_connect g;
     smtp_receive_timeout := smtp_receive_timeout g;
     ssl_xfer_buffer_size := ssl_xfer_buffer_size g; trace := trace g |}.

Definition set_tls_peerdn (v : option string) (g : t) : t :=
  {| tls_active := tls_active g; tls_bits := tls_bits g;
     tls_certificate_verified := tls_certificate_verified g;
     tls_channelbinding_b64 := tls_channelbinding_b64 g;
     tls_cipher := tls_cipher g; tls_peerdn := v; tls_sni := tls_sni g;
     receive_getc := receive_getc g; receive_ungetc := receive_ungetc g;
     receive_feof := receive_feof g; receive_ferror := receive_ferror g;
     receive_smtp_buffered := receive_smtp_buffered g;
     sigalrm_seen := sigalrm_seen g; smtp_in_open := smtp_in_open g;
     smtp_out_open := smtp_out_open g; smtp_inbuffer := smtp_inbuffer g;
     tls_on_connect := tls_on_connect g;
     smtp_receive_timeout := smtp_receive_timeout g;
     ssl_xfer_buffer_size := ssl_xfer_buffer_size g; trace := trace g |}.

Definition set_tls_sni (v : option string) (g : t) : t :=
  {| tls_active := tls_active g; tls_bits := tls_bits g;
     tls_certificate_verified := tls_certificate_verified g;
     tls_channelbinding_b64 := tls_channelbinding_b64 g;
     tls_cipher := tls_cipher g; tls_peerdn := tls_peerdn g; tls_sni := v;
     receive_getc := receive_getc g; receive_ungetc := receive_ungetc g;
     receive_feof := receive_feof g; receive_ferror := receive_ferror g;
     receive_smtp_buffered := receive_smtp_buffered g;
     sigalrm_seen := sigalrm_seen g; smtp_in_open := smtp_in_open g;
     smtp_out_open := smtp_out_open g; smtp_inbuffer := smtp_inbuffer g;
     tls_on_connect := tls_on_connect g;
     smtp_receive_timeout := smtp_receive_timeout g;
     ssl_xfer_buffer_size := ssl_xfer_buffer_size g; trace := trace g |}.

Definition set_receive_getc (v : receive_fn) (g : t) : t :=
  {| tls_active := tls_active g; tls_bits := tls_bits g;
     tls_certificate_verified := tls_certificate_verified g;
     tls_channelbinding_b64 := tls_channelbinding_b64 g;
     tls_cipher := tls_cipher g; tls_peerdn := tls_peerdn g;
     tls_sni := tls_sni g; receive_getc := v;
     receive_ungetc := receive_ungetc g; receive_feof := receive_feof g;
     receive_ferror := receive_ferror g;
     receive_smtp_buffered := receive_smtp_buffered g;
     sigalrm_seen := sigalrm_seen g; smtp_in_open := smtp_in_open g;
     smtp_out_open := smtp_out_open g; smtp_inbuffer := smtp_inbuffer g;
     tls_on_connect := tls_on_connect g;
     smtp_receive_timeout := smtp_receive_timeout g;
     ssl_xfer_buffer_size := ssl_xfer_buffer_size g; trace := trace g |}.

Definition set_receive_ungetc (v : receive_fn) (g : t) : t :=
  {| tls_active := tls_active g; tls_bits := tls_bits g;
     tls_certificate_verified := tls_certificate_verified g;
     tls_channelbinding_b64 := tls_channelbinding_b64 g;
     tls_cipher := tls_cipher g; tls_peerdn := tls_peerdn g;
     tls_sni := tls_sni g; receive_getc := receive_getc g;
     receive_ungetc := v; receive_feof := receive_feof g;
     receive_ferror := receive_ferror g;
     receive_smtp_buffered := receive_smtp_buffered g;
     sigalrm_seen := sigalrm_seen g; smtp_in_open := smtp_in_open g;
     smtp_out_open := smtp_out_open g; smtp_inbuffer := smtp_inbuffer g;
     tls_on_connect := tls_on_connect g;
     smtp_receive_timeout := smtp_receive_timeout g;
     ssl_xfer_buffer_size := ssl_xfer_buffer_size g; trace := trace g |}.

Definition set_receive_feof (v : receive_fn) (g : t) : t :=
  {| tls_active := tls_active g; tls_bits := tls_bits g;
     tls_certificate_verified := tls_certificate_verified g;
     tls_channelbinding_b64 := tls_channelbinding_b64 g;
     tls_cipher := tls_cipher g; tls_peerdn := tls_peerdn g;
     tls_sni := tls_sni g; receive_getc := receive_getc g;
     receive_ungetc := receive_ungetc g; receive_feof := v;
     receive_ferror := receive_ferror g;
     receive_smtp_buffered := receive_smtp_buffered g;
     sigalrm_seen := sigalrm_seen g; smtp_in_open := smtp_in_open g;
     smtp_out_open := smtp_out_open g; smtp_inbuffer := smtp_inbuffer g;
     tls_on_connect := tls_on_connect g;
     smtp_receive_timeout := smtp_receive_timeout g;
     ssl_xfer_buffer_size := ssl_xfer_buffer_size g; trace := trace g |}.

Definition set_receive_ferror (v : receive_fn) (g : t) : t :=
  {| tls_active := tls_active g; tls_bits := tls_bits g;
     tls_certificate_verified := tls_certificate_verified g;
     tls_channelbinding_b64 := tls_channelbinding_b64 g;
     tls_cipher := tls_cipher g; tls_peerdn := tls_peerdn g;
     tls_sni := tls_sni g; receive_getc := receive_getc g;
     receive_ungetc := receive_ungetc g; receive_feof := receive_feof g;
     receive_ferror := v; receive_smtp_buffered := receive_smtp_buffered g;
     sigalrm_seen := sigalrm_seen g; smtp_in_open := smtp_in_open g;
     smtp_out_open := smtp_out_open g; smtp_inbuffer := smtp_inbuffer g;
     tls_on_connect := tls_on_connect g;
     smtp_receive_timeout := smtp_receive_timeout g;
     ssl_xfer_buffer_size := ssl_xfer_buffer_size g; trace := trace g |}.

Definition set_receive_smtp_buffered (v : receive_fn) (g : t) : t :=
  {| tls_active := tls_active g; tls_bits := tls_bits g;
     tls_certificate_verified := tls_certificate_verified g;
     tls_channelbinding_b64 := tls_channelbinding_b64 g;
     tls_cipher := tls_cipher g; tls_peerdn := tls_peerdn g;
     tls_sni := tls_sni g; receive_getc := receive_getc g;
     receive_ungetc := receive_ungetc g; receive_feof := receive_feof g;
     receive_ferror := receive_ferror g; receive_smtp_buffered := v;
     sigalrm_seen := sigalrm_seen g; smtp_in_open := smtp_in_open g;
     smtp_out_open := smtp_out_open g; smtp_inbuffer := smtp_inbuffer g;
     tls_on_connect := tls_on_connect g;
     smtp_receive_timeout := smtp_receive_timeout g;
     ssl_xfer_buffer_size := ssl_xfer_buffer_size g; trace := trace g |}.

Definition set_sigalrm_seen (v : bool) (g : t) : t :=
  {| tls_active := tls_active g; tls_bits := tls_bits g;
     tls_certificate_verified := tls_certificate_verified g;
     tls_channelbinding_b64 := tls_channelbinding_b64 g;
     tls_cipher := tls_cipher g; tls_peerdn := tls_peerdn g;
     tls_sni := tls_sni g; receive_getc := receive_getc g;
     receive_ungetc := receive_ungetc g; receive_feof := receive_feof g;
     receive_ferror := receive_ferror g;
     receive_smtp_buffered := receive_smtp_buffered g; sigalrm_seen := v;
     smtp_in_open := smtp_in_open g; smtp_out_open := smtp_out_open g;
     smtp_inbuffer := smtp_inbuffer g; tls_on_connect := tls_on_connect g;
     smtp_receive_timeout := smtp_receive_timeout g;
     ssl_xfer_buffer_size := ssl_xfer_buffer_size g; trace := trace g |}.

Definition set_smtp_in_open (v : bool) (g : t) : t :=
  {| tls_active := tls_active g; tls_bits := tls_bits g;
     tls_certificate_verified := tls_certificate_verified g;
     tls_channelbinding_b64 := tls_channelbinding_b64 g;
     tls_cipher := tls_cipher g; tls_peerdn := tls_peerdn g;
     tls_sni := tls_sni g; receive_getc := receive_getc g;
     receive_ungetc := receive_ungetc g; receive_feof := receive_feof g;
     receive_ferror := receive_ferror g;
     receive_smtp_buffered := receive_smtp_buffered g;
     sigalrm_seen := sigalrm_seen g; smtp_in_open := v;
     smtp_out_open := smtp_out_open g; smtp_inbuffer := smtp_inbuffer g;
     tls_on_connect := tls_on_connect g;
     smtp_receive_timeout := smtp_receive_timeout g;
     ssl_xfer_buffer_size := ssl_xfer_buffer_size g; trace := trace g |}.

Definition set_smtp_out_open (v : bool) (g : t) : t :=
  {| tls_active := tls_active g; tls_bits := tls_bits g;
     tls_certificate_verified := tls_certificate_verified g;
     tls_channelbinding_b64 := tls_channelbinding_b64 g;
     tls_cipher := tls_cipher g; tls_peerdn := tls_peerdn g;
     tls_sni := tls_sni g; receive_getc := receive_getc g;
     receive_ungetc := receive_ungetc g; receive_feof := receive_feof g;
     receive_ferror := receive_ferror g;
     receive_smtp_buffered := receive_smtp_buffered g;
     sigalrm_seen := sigalrm_seen g; smtp_in_open := smtp_in_open g;
     smtp_out_open := v; smtp_inbuffer := smtp_inbuffer g;
     tls_on_connect := tls_on_connect g;
     smtp_receive_timeout := smtp_receive_timeout g;
     ssl_xfer_buffer_size := ssl_xfer_buffer_size g; trace := trace g |}.

Definition set_smtp_inbuffer (v : list byte) (g : t) : t :=
  {| tls_active := tls_active g; tls_bits := tls_bits g;
     tls_certificate_verified := tls_certificate_verified g;
     tls_channelbinding_b64 := tls_channelbinding_b64 g;
     tls_cipher := tls_cipher g; tls_peerdn := tls_peerdn g;
     tls_sni := tls_sni g; receive_getc := receive_getc g;
     receive_ungetc := receive_ungetc g; receive_feof := receive_feof g;
     receive_ferror := receive_ferror g;
     receive_smtp_buffered := receive_smtp_buffered g;
     sigalrm_seen := sigalrm_seen g; smtp_in_open := smtp_in_open g;
     smtp_out_open := smtp_out_open g; smtp_inbuffer := v;
     tls_on_connect := tls_on_connect g;
     smtp_receive_timeout := smtp_receive_timeout g;
     ssl_xfer_buffer_size := ssl_xfer_buffer_size g; trace := trace g |}.

Definition set_trace (v : list event) (g : t) : t :=
  {| tls_active := tls_active g; tls_bits := tls_bits g;
     tls_certificate_verified := tls_certificate_verified g;
     tls_channelbinding_b64 := tls_channelbinding_b64 g;
     tls_cipher := tls_cipher g; tls_peerdn := tls_peerdn g;
     tls_sni := tls_sni g; receive_getc := receive_getc g;
     receive_ungetc := receive_ungetc g; receive_feof := receive_feof g;
     receive_ferror := receive_ferror g;
     receive_smtp_buffered := receive_smtp_buffered g;
     sigalrm_seen := sigalrm_seen g; smtp_in_open := smtp_in_open g;
     smtp_out_open := smtp_out_open g; smtp_inbuffer := smtp_inbuffer g;
     tls_on_connect := tls_on_connect g;
     smtp_receive_timeout := smtp_receive_timeout g;
     ssl_xfer_buffer_size := ssl_xfer_buffer_size g; trace := v |}.

Definition emit (e : event) (g : t) : t := set_trace (trace g ++ [e]) g.

End G.


(** ** Error reporting: [tls_error] and [record_io_error] *)

Definition tls_error (prefix : string) (msg : message) (h : option host_item)
    (g : G.t) : Z * G.t :=
  match h with
  | Some _ => (FAIL, G.emit (Ev_tls_error prefix msg h) g)
  | None => (DEFER, G.emit (Ev_tls_error prefix msg None) g)
  end.

(** The fourth argument of the C function ([text]) is never read. *)
Definition record_io_error (state : exim_gnutls_state_st) (rc : Z)
    (when : string) (g : G.t) : G.t :=
  let msg := if rc =? GNUTLS_E_FATAL_ALERT_RECEIVED
             then Msg_alert rc else Msg_gnutls_strerror rc in
  snd (tls_error when msg (host state) g).

(** [alarm (seconds)]; the arrival of the signal is part of the engine's
    script where the code looks at [sigalrm_seen], and is not looked at
    elsewhere. *)
Definition alarm (seconds : Z) (g : G.t) : G.t := G.emit (Ev_alarm seconds) g.

(** [if (smtp_receive_timeout > 0) alarm (smtp_receive_timeout);] *)
Definition arm_receive_timeout (g : G.t) : G.t :=
  if G.smtp_receive_timeout g >? 0 then alarm (G.smtp_receive_timeout g) g
  else g.

(** ** Record I/O layer: [tls_getc], [tls_read], [tls_write]

    The functions act on [*current_global_tls_state], passed here as
    [state].  A call made through a NULL session, and a call the engine never
    answers (its script is exhausted), have no result: [None]. *)

Module RecordIO.

(** Modelled from the spec: [smtp_getc] (smtp_in.c) is the byte source of the
    raw underlying transport; it hands out the pending plaintext bytes in
    order and [EOF] when there are none. *)
Definition smtp_getc (g : G.t) : Z * G.t :=
  match G.smtp_inbuffer g with
  | [] => (EOF, g)
  | b :: rest => (uschar_val b, G.set_smtp_inbuffer rest g)
  end.

(** The engine stores [data] at the start of the caller's buffer. *)
Definition store (data buf : list byte) : list byte :=
  data ++ skipn (List.length data) buf.

(** [return state->xfer_buffer[state->xfer_buffer_lwm++];] *)
Definition next_uschar (state : exim_gnutls_state_st)
  : Z * exim_gnutls_state_st :=
  let lwm := xfer_buffer_lwm state in
  (uschar_val (nth (Z.to_nat lwm) (xfer_buffer state) "000"%byte),
   set_xfer_buffer_lwm (lwm + 1) state).

(** The plaintext fallback of [tls_getc], on a zero-length read. *)
Definition revert_to_smtp (g : G.t) : G.t :=
  let g := G.set_receive_getc Smtp_fn g in
  let g := G.set_receive_ungetc Smtp_fn g in
  let g := G.set_receive_feof Smtp_fn g in
  let g := G.set_receive_ferror Smtp_fn g in
  G.set_receive_smtp_buffered Smtp_fn g.

Definition clear_tls_vars (g : G.t) : G.t :=
  let g := G.set_tls_active (-1) g in
  let g := G.set_tls_bits 0 g in
  let g := G.set_tls_certificate_verified false g in
  let g := G.set_tls_channelbinding_b64 None g in
  let g := G.set_tls_cipher None g in
  G.set_tls_peerdn None g.

Definition tls_getc (state : exim_gnutls_state_st) (g : G.t)
  : option (Z * exim_gnutls_state_st * G.t) :=
  if xfer_buffer_lwm state >=? xfer_buffer_hwm state then
    match session state with
    | None => None
    | Some s =>
        match recv_script s with
        | [] => None
        | (inbytes, data) :: rest =>
            let g := arm_receive_timeout g in
            let g := G.emit (Ev_engine
                               (Record_recv (G.ssl_xfer_buffer_size g))) g in
            let g := alarm 0 g in
            let state := set_session (Some (set_recv_script rest s)) state in
            if inbytes =? 0 then
              let g := revert_to_smtp g in
              let g := G.emit (Ev_engine Deinit) g in
              let state := set_session None state in
              let g := clear_tls_vars g in
              let '(c, g) := smtp_getc g in
              Some (c, state, g)
            else if inbytes <? 0 then
              let g := record_io_error state (to_int inbytes) "recv" g in
              let state := set_xfer_error 1 state in
              Some (EOF, state, g)
            else
              let state :=
                set_xfer_buffer (store data (xfer_buffer state)) state in
              let g := G.emit (Ev_dkim_exim_verify_feed
                         (firstn (Z.to_nat inbytes) (xfer_buffer state))) g in
              let state := set_xfer_buffer_hwm (to_int inbytes) state in
              let state := set_xfer_buffer_lwm 0 state in
              let '(c, state) := next_uschar state in
              Some (c, state, g)
        end
    end
  else
    let '(c, state) := next_uschar state in
    Some (c, state, g).

(** [n] successive calls of [tls_getc]; the bytes in the order returned. *)
Fixpoint tls_getc_n (n : nat) (state : exim_gnutls_state_st) (g : G.t)
  : option (list Z * exim_gnutls_state_st * G.t) :=
  match n with
  | O => Some ([], state, g)
  | S k =>
      match tls_getc state g with
      | None => None
      | Some (c, state, g) =>
          match tls_getc_n k state g with
          | None => None
          | Some (cs, state, g) => Some (c :: cs, state, g)
          end
      end
  end.

(** The result, the bytes stored in [buff], the state and the globals. *)
Definition tls_read (len : Z) (state : exim_gnutls_state_st) (g : G.t)
  : option (Z * list byte * exim_gnutls_state_st * G.t) :=
  let len := if len >? INT_MAX then INT_MAX else len in
  match session state with
  | None => None
  | Some s =>
      match recv_script s with
      | [] => None
      | (inbytes, data) :: rest =>
          let g := G.emit (Ev_engine (Record_recv len)) g in
          let state := set_session (Some (set_recv_script rest s)) state in
          if inbytes >? 0 then Some (to_int inbytes, data, state, g)
          else if inbytes =? 0 then Some (-1, [], state, g)
          else Some (-1, [], state,
                     record_io_error state (to_int inbytes) "recv" g)
      end
  end.

(** The [while (left > 0)] loop of [tls_write].  [buff] is the offset of the
    next unsent byte in the caller's buffer; [left] is a [size_t].  The
    boolean tells whether the loop ran to its end ([true]) or left through
    one of the two [return -1]. *)
Fixpoint tls_write_loop (state : exim_gnutls_state_st) (script : list Z)
    (left buff : Z) (g : G.t) : option (bool * list Z * G.t) :=
  if left >? 0 then
    match script with
    | [] => None
    | outbytes :: rest =>
        let g := G.emit (Ev_engine (Record_send buff left)) g in
        if outbytes <? 0 then
          Some (false, rest, record_io_error state (to_int outbytes) "send" g)
        else if outbytes =? 0 then
          Some (false, rest, record_io_error state 0 "send" g)
        else
          tls_write_loop state rest (to_size_t (left - outbytes))
            (buff + outbytes) g
    end
  else Some (true, script, g).

Definition tls_write (len : Z) (state : exim_gnutls_state_st) (g : G.t)
  : option (Z * exim_gnutls_state_st * G.t) :=
  let script := match session state with
                | Some s => send_script s
                | None => []
                end in
  match tls_write_loop state script len 0 g with
  | None => None
  | Some (completed, script, g) =>
      let state :=
        match session state with
        | Some s => set_session (Some (set_send_script script s)) state
        | None => state
        end in
      if completed then
        let len := if len >? INT_MAX then INT_MAX else len in
        Some (to_int len, state, g)
      else Some (-1, state, g)
  end.

End RecordIO.

(** ** Peer identity and verifier: [peer_status], [verify_certificate],
       [extract_exim_vars_from_tls_state] *)

Module Verifier.

(** [isspace] of the C locale. *)
Definition isspace (c : ascii) : bool :=
  let n := nat_of_ascii c in
  ((n =? 32) || ((9 <=? n) && (n <=? 13)))%nat.

(** The loop over [cipherbuf] that overwrites every [isspace] character
    with a hyphen. *)
Fixpoint hyphenate (p : string) : string :=
  match p with
  | EmptyString => EmptyString
  | String c p' => String (if isspace c then "-"%char else c) (hyphenate p')
  end.

Section WithFormatter.

(** What Exim's [string_format] (string.c) leaves in [cipherbuf] for the
    format ["%s:%s:%d"] and the three arguments. *)
Variable string_format : string -> string -> Z -> string.

(** The macro [exim_gnutls_peer_err], once its test [rc != GNUTLS_E_SUCCESS]
    has succeeded. *)
Definition exim_gnutls_peer_err (label : string) (rc : Z)
    (state : exim_gnutls_state_st) (g : G.t)
  : Z * exim_gnutls_state_st * G.t :=
  if is_required (verify_requirement state) then
    let '(r, g) := tls_error label (Msg_gnutls_strerror rc) (host state) g in
    (r, state, g)
  else (OK, state, g).

Definition peer_status (state : exim_gnutls_state_st) (g : G.t)
  : option (Z * exim_gnutls_state_st * G.t) :=
  if have_set_peerdn state then Some (OK, state, g)
  else
    let state := set_have_set_peerdn true state in
    let state := set_peerdn None state in
    match session state with
    | None => None
    | Some s =>
        (* tls_cipher *)
        let g := G.emit (Ev_engine Cipher_get) g in
        let g := G.emit (Ev_engine Protocol_get_version) g in
        let g := G.emit (Ev_engine Mac_get) g in
        let g := G.emit (Ev_engine Kx_get) g in
        let cipherbuf :=
          string_format (protocol_name s) (cipher_suite_name s)
            (to_int (to_int (cipher_key_size s) * 8)) in
        let cipherbuf := hyphenate cipherbuf in
        let state := set_ciphersuite (Some cipherbuf) state in
        let g := G.set_tls_cipher (ciphersuite state) g in
        (* tls_peerdn *)
        let g := G.emit (Ev_engine Certificate_get_peers) g in
        match certificate_get_peers s with
        | None | Some [] =>
            if is_required (verify_requirement state) then
              let '(r, g) :=
                tls_error "certificate verification failed"
                  (Msg_text "no certificate received from peer")
                  (host state) g in
              Some (r, state, g)
            else Some (OK, state, g)
        | Some (cert0 :: _) =>
            let g := G.emit (Ev_engine Certificate_type_get) g in
            if negb (certificate_type s =? GNUTLS_CRT_X509) then
              if is_required (verify_requirement state) then
                let '(r, g) :=
                  tls_error
                    "certificate verification not possible, unhandled type"
                    (Msg_text (certificate_type_name s)) (host state) g in
                Some (r, state, g)
              else Some (OK, state, g)
            else
              let g := G.emit (Ev_engine X509_crt_init) g in
              let rc := x509_crt_init_rc s in
              if negb (rc =? GNUTLS_E_SUCCESS) then
                Some (exim_gnutls_peer_err "gnutls_x509_crt_init (crt)"
                        rc state g)
              else
                let g := G.emit (Ev_engine X509_crt_import) g in
                let rc := x509_crt_import s cert0 in
                if negb (rc =? GNUTLS_E_SUCCESS) then
                  Some (exim_gnutls_peer_err
                          "failed to import certificate [gnutls_x509_crt_import(cert 0)]"
                          rc state g)
                else
                  let g := G.emit (Ev_engine X509_crt_get_dn) g in
                  let '(rc, sz) := x509_crt_get_dn_sizing s cert0 in
                  if negb (rc =? GNUTLS_E_SHORT_MEMORY_BUFFER) then
                    if negb (rc =? GNUTLS_E_SUCCESS) then
                      Some (exim_gnutls_peer_err
                              "getting size for cert DN failed" rc state g)
                    else Some (FAIL, state, g)
                  else
                    let g := G.emit (Ev_engine X509_crt_get_dn) g in
                    let '(rc, dn_buf) := x509_crt_get_dn s cert0 in
                    if negb (rc =? GNUTLS_E_SUCCESS) then
                      Some (exim_gnutls_peer_err
                              "failed to extract certificate DN [gnutls_x509_crt_get_dn(cert 0)]"
                              rc state g)
                    else
                      let state := set_peerdn (Some dn_buf) state in
                      Some (OK, state, g)
        end
    end.

(** The result, [*error], the state and the globals. *)
Definition verify_certificate (state : exim_gnutls_state_st) (g : G.t)
  : option (bool * option string * exim_gnutls_state_st * G.t) :=
  match peer_status state g with
  | None => None
  | Some (rc, state, g) =>
      let answer :=
        if negb (rc =? OK) then
          Some (rc, GNUTLS_CERT_INVALID, Some "not supplied", g)
        else
          match session state with
          | None => None
          | Some s =>
              let '(rc, verify) := certificate_verify_peers2 s in
              Some (rc, verify, None,
                    G.emit (Ev_engine Certificate_verify_peers2) g)
          end in
      match answer with
      | None => None
      | Some (rc, verify, error, g) =>
          if (rc <? 0) ||
             negb (Z.land verify
                     (Z.lor GNUTLS_CERT_INVALID GNUTLS_CERT_REVOKED) =? 0)
          then
            let state := set_peer_cert_verified false state in
            let error :=
              match error with
              | None =>
                  Some (if negb (Z.land verify GNUTLS_CERT_REVOKED =? 0)
                        then "revoked" else "invalid")
              | Some _ => error
              end in
            if is_required (verify_requirement state) then
              let g := G.emit (Ev_engine Alert_send_bad_certificate) g in
              Some (false, error, state, g)
            else
              let g := G.set_tls_peerdn (peerdn state) g in
              Some (true, error, state, g)
          else
            let state := set_peer_cert_verified true state in
            let g := G.set_tls_peerdn (peerdn state) g in
            Some (true, error, state, g)
      end
  end.

End WithFormatter.

(** Built against GnuTLS 2.12 or later, where the channel binding exists. *)
Definition extract_exim_vars_from_tls_state (state : exim_gnutls_state_st)
    (g : G.t) : option G.t :=
  match session state with
  | None => None
  | Some s =>
      let g := G.set_tls_active (fd_out state) g in
      let g := G.emit (Ev_engine Cipher_get) g in
      let g := G.set_tls_bits (to_int (cipher_key_size s * 8)) g in
      let g := G.set_tls_cipher (ciphersuite state) g in
      let g := G.set_tls_certificate_verified (peer_cert_verified state) g in
      let g := G.set_tls_channelbinding_b64 None g in
      let g := G.emit (Ev_engine Session_channel_binding) g in
      let '(rc, b64) := channel_binding_b64 s in
      let g := if negb (rc =? 0) then g
               else G.set_tls_channelbinding_b64 (Some b64) g in
      let g := G.set_tls_peerdn (peerdn state) g in
      Some (G.set_tls_sni (received_sni state) g)
  end.

End Verifier.

(** ** Handshake orchestrator: [tls_server_start], [tls_client_start] *)

Module Orchestrator.

Definition EXIM_CLIENT_DH_MIN_BITS : Z := 1024.

Definition CRLF : string :=
  String (ascii_of_nat 13) (String (ascii_of_nat 10) EmptyString).

(** What the start functions get from outside: the outcome of [tls_init] (its
    return code and the state block it leaves in [*caller_state]), the two
    host-list lookups of the server, the descriptors, and the parameters of
    the client (its descriptor, its trust store, its timeout). *)
Record start_env : Type := {
  tls_init_rc : Z;
  tls_init_state : exim_gnutls_state_st;
  verify_hosts_match : bool;
  try_verify_hosts_match : bool;
  fileno_smtp_in : Z;
  fileno_smtp_out : Z;
  client_fd : Z;
  verify_certs : option string;
  client_timeout : Z
}.

(** [do rc = gnutls_handshake(state->session);
     while (rc == GNUTLS_E_AGAIN ||
            (rc == GNUTLS_E_INTERRUPTED && !sigalrm_seen));]
    The signal handler sets [sigalrm_seen] when the alarm arrives during a
    step.  A script that ends before the loop does stands for an engine that
    keeps the loop going for ever. *)
Fixpoint handshake_loop (script : list (Z * bool)) (g : G.t)
  : option (Z * list (Z * bool) * G.t) :=
  match script with
  | [] => None
  | (rc, alarmed) :: rest =>
      let g := G.emit (Ev_engine Handshake) g in
      let g := if alarmed then G.set_sigalrm_seen true g else g in
      if (rc =? GNUTLS_E_AGAIN) ||
         ((rc =? GNUTLS_E_INTERRUPTED) && negb (G.sigalrm_seen g))
      then handshake_loop rest g
      else Some (rc, rest, g)
  end.

Definition fclose (f : stream) (g : G.t) : G.t :=
  let g := G.emit (Ev_fclose f) g in
  match f with
  | Smtp_in => G.set_smtp_in_open false g
  | Smtp_out => G.set_smtp_out_open false g
  end.

Definition handshake_failure_msg (rc : Z) (g : G.t) : message :=
  if G.sigalrm_seen g then Msg_text "timed out" else Msg_gnutls_strerror rc.

(** The server's block [if (rc != GNUTLS_E_SUCCESS)], up to its
    [return FAIL]: log the failure and, unless the alarm was seen, close
    [smtp_out] and then [smtp_in]. *)
Definition server_handshake_failed (rc : Z) (g : G.t) : G.t :=
  let '(_, g) := tls_error "gnutls_handshake"
                   (handshake_failure_msg rc g) None g in
  if negb (G.sigalrm_seen g) then fclose Smtp_in (fclose Smtp_out g) else g.

Definition message_of_error (error : option string) : message :=
  match error with
  | Some e => Msg_text e
  | None => Msg_null
  end.

Section WithFormatter.

Variable string_format : string -> string -> Z -> string.

(** [state_server] is the static block as it stands before the call; the
    SNI callback the engine may run inside a handshake step is not part of
    this model. *)
Definition tls_server_start (E : start_env)
    (state_server : exim_gnutls_state_st) (g : G.t)
  : option (Z * exim_gnutls_state_st * G.t) :=
  if G.tls_active g >=? 0 then
    let '(_, g) := tls_error "STARTTLS received after TLS started"
                     (Msg_text "") None g in
    let g := G.emit (Ev_smtp_printf ("554 Already in TLS" ++ CRLF)) g in
    Some (FAIL, state_server, g)
  else
    let rc := tls_init_rc E in
    let state := tls_init_state E in
    if negb (rc =? OK) then Some (rc, state, g)
    else
      let '(state, g) :=
        if verify_hosts_match E then
          (set_verify_requirement VERIFY_REQUIRED state,
           G.emit (Ev_engine
                     (Certificate_server_set_request "GNUTLS_CERT_REQUIRE")) g)
        else if try_verify_hosts_match E then
          (set_verify_requirement VERIFY_OPTIONAL state,
           G.emit (Ev_engine
                     (Certificate_server_set_request "GNUTLS_CERT_REQUEST")) g)
        else
          (set_verify_requirement VERIFY_NONE state,
           G.emit (Ev_engine
                     (Certificate_server_set_request "GNUTLS_CERT_IGNORE")) g)
      in
      let g := G.emit (Ev_engine Handshake_set_post_client_hello_function) g in
      let g :=
        if negb (G.tls_on_connect g) then
          G.emit Ev_fflush_smtp_out
            (G.emit (Ev_smtp_printf ("220 TLS go ahead" ++ CRLF)) g)
        else g in
      let g := G.emit (Ev_engine (Transport_set_ptr (fileno_smtp_in E)
                                    (fileno_smtp_out E))) g in
      let state := set_fd_in (fileno_smtp_in E) state in
      let state := set_fd_out (fileno_smtp_out E) state in
      let g := G.set_sigalrm_seen false g in
      let g := arm_receive_timeout g in
      match session state with
      | None => None
      | Some s =>
          match handshake_loop (handshake_script s) g with
          | None => None
          | Some (rc, rest, g) =>
              let g := alarm 0 g in
              let state :=
                set_session (Some (set_handshake_script rest s)) state in
              if negb (rc =? GNUTLS_E_SUCCESS) then
                Some (FAIL, state, server_handshake_failed rc g)
              else
                (* Verify after the fact *)
                let verified :=
                  match verify_requirement state with
                  | VERIFY_NONE => Some (inl (state, g))
                  | _ =>
                      match Verifier.verify_certificate string_format
                              state g with
                      | None => None
                      | Some (true, _, state, g) => Some (inl (state, g))
                      | Some (false, error, state, g) =>
                          match verify_requirement state with
                          | VERIFY_OPTIONAL => Some (inl (state, g))
                          | _ =>
                              let '(_, g) :=
                                tls_error "certificate verification failed"
                                  (message_of_error error) None g in
                              Some (inr (FAIL, state, g))
                          end
                      end
                  end in
                match verified with
                | None => None
                | Some (inr r) => Some r
                | Some (inl (state, g)) =>
                    match Verifier.peer_status string_format state g with
                    | None => None
                    | Some (rc, state, g) =>
                        if negb (rc =? OK) then Some (rc, state, g)
                        else
                          match Verifier.extract_exim_vars_from_tls_state
                                  state g with
                          | None => None
                          | Some g =>
                              let state :=
                                set_xfer_buffer
                                  (repeat "000"%byte
                                     (Z.to_nat (G.ssl_xfer_buffer_size g)))
                                  state in
                              let g := G.set_receive_getc Tls_fn g in
                              let g := G.set_receive_ungetc Tls_fn g in
                              let g := G.set_receive_feof Tls_fn g in
                              let g := G.set_receive_ferror Tls_fn g in
                              let g := G.set_receive_smtp_buffered Tls_fn g in
                              Some (OK, state, g)
                          end
                    end
                end
          end
      end.

Definition tls_client_start (E : start_env) (g : G.t)
  : option (Z * exim_gnutls_state_st * G.t) :=
  let rc := tls_init_rc E in
  let state := tls_init_state E in
  if negb (rc =? OK) then Some (rc, state, g)
  else
    let g := G.emit (Ev_engine (Dh_set_prime_bits EXIM_CLIENT_DH_MIN_BITS)) g in
    let '(state, g) :=
      match verify_certs E with
      | None =>
          (set_verify_requirement VERIFY_NONE state,
           G.emit (Ev_engine
                     (Certificate_server_set_request "GNUTLS_CERT_REQUEST")) g)
      | Some _ =>
          (set_verify_requirement VERIFY_REQUIRED state,
           G.emit (Ev_engine
                     (Certificate_server_set_request "GNUTLS_CERT_REQUIRE")) g)
      end in
    let g := G.emit (Ev_engine (Transport_set_ptr (client_fd E)
                                  (client_fd E))) g in
    let state := set_fd_in (client_fd E) state in
    let state := set_fd_out (client_fd E) state in
    let g := G.set_sigalrm_seen false g in
    let g := alarm (client_timeout E) g in
    match session state with
    | None => None
    | Some s =>
        match handshake_loop (handshake_script s) g with
        | None => None
        | Some (rc, rest, g) =>
            let g := alarm 0 g in
            let state :=
              set_session (Some (set_handshake_script rest s)) state in
            if negb (rc =? GNUTLS_E_SUCCESS) then
              let '(r, g) := tls_error "gnutls_handshake"
                               (handshake_failure_msg rc g) (host state) g in
              Some (r, state, g)
            else
              (* Verify late *)
              let verified :=
                match verify_requirement state with
                | VERIFY_NONE => Some (inl (state, g))
                | _ =>
                    match Verifier.verify_certificate string_format
                            state g with
                    | None => None
                    | Some (true, _, state, g) => Some (inl (state, g))
                    | Some (false, error, state, g) =>
                        let '(r, g) :=
                          tls_error "certificate verification failed"
                            (message_of_error error) (host state) g in
                        Some (inr (r, state, g))
                    end
                end in
              match verified with
              | None => None
              | Some (inr r) => Some r
              | Some (inl (state, g)) =>
                  match Verifier.peer_status string_format state g with
                  | None => None
                  | Some (rc, state, g) =>
                      if negb (rc =? OK) then Some (rc, state, g)
                      else
                        match Verifier.extract_exim_vars_from_tls_state
                                state g with
                        | None => None
                        | Some g => Some (OK, state, g)
                        end
                  end
              end
        end
    end.

End WithFormatter.

End Orchestrator.

(** ** Early return

    A C function body that threads a store and may leave through [return rc]
    at any statement: a computation either yields a value and goes on
    ([inl]) or has returned [rc] ([inr]). *)

Module EarlyReturn.

Section Monad.

Context {S : Type}.

Definition M (A : Type) : Type := S -> (A + Z) * S.

Definition ret {A : Type} (a : A) : M A := fun s => (inl a, s).

Definition return_ {A : Type} (rc : Z) : M A := fun s => (inr rc, s).

Definition bind {A B : Type} (m : M A) (f : A -> M B) : M B :=
  fun s =>
    match m s with
    | (inl a, s') => f a s'
    | (inr rc, s') => (inr rc, s')
    end.

Definition get : M S := fun s => (inl s, s).

Definition modify (f : S -> S) : M unit := fun s => (inl tt, f s).

Definition when (b : bool) (m : M unit) : M unit :=
  if b then m else ret tt.

(** The body of a function whose last statement is [return rc]. *)
Definition run (m : M Z) (s : S) : Z * S :=
  match m s with
  | (inl rc, s') => (rc, s')
  | (inr rc, s') => (rc, s')
  end.

End Monad.

Declare Scope early_scope.
Delimit Scope early_scope with early.
Notation "x <- m ;; k" := (bind m (fun x => k))
  (at level 61, m at next level, right associativity) : early_scope.
Notation "m ;; k" := (bind m (fun _ => k))
  (at level 61, right associativity) : early_scope.

End EarlyReturn.

(** ** Credential resolver: [tls_expand_session_files] *)

Module Resolver.

Import EarlyReturn.
Local Open Scope early_scope.

Inductive expansion : Type :=
| Expanded (s : string)
| Forced_fail
| Expand_failed.

(** [S_ISDIR (statbuf.st_mode)] and [statbuf.st_size]. *)
Record stat_buf : Type := { st_is_dir : bool; st_size : Z }.

(** The collaborators of the resolver: Exim's string expansion, [stat], and
    the engine calls that allocate a credential set and load files into
    it. *)
Record env : Type := {
  expand_string : string -> expansion;
  Ustat : string -> option stat_buf;
  certificate_allocate_credentials : Z;
  certificate_set_x509_key_file : string -> option string -> Z;
  certificate_set_x509_trust_file : string -> Z;
  certificate_set_x509_crl_file : string -> Z
}.

Definition store : Type := (exim_gnutls_state_st * G.t)%type.

Definition state_of : M (S := store) exim_gnutls_state_st :=
  fun s => (inl (fst s), s).

Definition set_state (f : exim_gnutls_state_st -> exim_gnutls_state_st)
  : M (S := store) unit :=
  modify (fun s => (f (fst s), snd s)).

Definition log_write (text : string) : M (S := store) unit :=
  modify (fun s => (fst s, G.emit (Ev_log_write text) (snd s))).

(** [return tls_error (prefix, msg, host);] *)
Definition return_tls_error {A : Type} (prefix : string) (msg : message)
    (h : option host_item) : M (S := store) A :=
  fun s =>
    let '(rc, g) := tls_error prefix msg h (snd s) in
    (inr rc, (fst s, g)).

(** The macro [exim_gnutls_err_check]. *)
Definition exim_gnutls_err_check (rc : Z) (label : string)
    (h : option host_item) : M (S := store) unit :=
  if negb (rc =? GNUTLS_E_SUCCESS)
  then return_tls_error label (Msg_gnutls_strerror rc) h
  else ret tt.

(** [p && *p]: a string that is neither NULL nor empty. *)
Definition nonempty (p : option string) : bool :=
  match p with
  | Some (String _ _) => true
  | _ => false
  end.

(** [Ustrstr (haystack, needle) != NULL]. *)
Definition Ustrstr (haystack needle : string) : bool :=
  match index 0 needle haystack with
  | Some _ => true
  | None => false
  end.

(** Modelled from the spec: [expand_check] (tls.c) hands the variable to the
    external expander; per the comment in [tls_expand_session_files] it
    "returns false if expansion failed, unless expansion was forced to
    fail".  A NULL variable expands to NULL. *)
Definition expand_check (E : env) (s : option string) (name : string)
  : M (S := store) (bool * option string) :=
  match s with
  | None => ret (true, None)
  | Some t =>
      match expand_string E t with
      | Expanded r => ret (true, Some r)
      | Forced_fail => ret (true, None)
      | Expand_failed =>
          log_write ("expansion of " ++ name ++ " failed") ;;
          ret (false, None)
      end
  end.

Definition with_key_file (k : option (string * string))
    (c : option credentials) : option credentials :=
  match c with
  | Some c => Some {| key_file := k; trust_file := trust_file c;
                      crl_file := crl_file c; dh_params := dh_params c |}
  | None => None
  end.

Definition with_trust_file (t : option string) (c : option credentials)
  : option credentials :=
  match c with
  | Some c => Some {| key_file := key_file c; trust_file := t;
                      crl_file := crl_file c; dh_params := dh_params c |}
  | None => None
  end.

Definition with_crl_file (t : option string) (c : option credentials)
  : option credentials :=
  match c with
  | Some c => Some {| key_file := key_file c; trust_file := trust_file c;
                      crl_file := t; dh_params := dh_params c |}
  | None => None
  end.

Definition string_of (p : option string) : string :=
  match p with
  | Some s => s
  | None => EmptyString
  end.

(** The test for [tls_sni] before expansion, and the allocation of a fresh
    credential set. *)
Definition allocate (E : env) : M (S := store) unit :=
  state <- state_of ;;
  when (match host state, received_sni state with
        | None, None =>
            match tls_certificate state with
            | Some c => Ustrstr c "tls_sni"
            | None => false
            end
        | _, _ => false
        end)
       (set_state (set_trigger_sni_changes true)) ;;
  let rc := certificate_allocate_credentials E in
  when (rc =? GNUTLS_E_SUCCESS) (set_state (set_x509_cred (Some empty_credentials))) ;;
  exim_gnutls_err_check rc "gnutls_certificate_allocate_credentials" (host state).

(** The certificate and the private key: expansion, defaults, loading. *)
Definition certificate_and_key (E : env) : M (S := store) unit :=
  state <- state_of ;;
  r <- expand_check E (tls_certificate state) "tls_certificate" ;;
  set_state (set_exp_tls_certificate (snd r)) ;;
  (if negb (fst r) then return_ DEFER else ret tt) ;;
  state <- state_of ;;
  (if negb (nonempty (exp_tls_certificate state)) then
     match host state with
     | None =>
         return_tls_error "no TLS server certificate is specified"
           Msg_null None
     | Some _ => ret tt
     end
   else ret tt) ;;
  match tls_privatekey state with
  | Some _ =>
      r <- expand_check E (tls_privatekey state) "tls_privatekey" ;;
      set_state (set_exp_tls_privatekey (snd r)) ;;
      if negb (fst r) then return_ DEFER else ret tt
  | None => ret tt
  end ;;
  state <- state_of ;;
  when (negb (nonempty (tls_privatekey state)))
       (set_state (set_tls_privatekey (tls_certificate state)) ;;
        set_state (set_exp_tls_privatekey (exp_tls_certificate state))) ;;
  state <- state_of ;;
  if nonempty (exp_tls_certificate state) then
    let cert := string_of (exp_tls_certificate state) in
    let rc := certificate_set_x509_key_file E cert (exp_tls_privatekey state) in
    exim_gnutls_err_check rc "cert/key setup" (host state) ;;
    set_state (fun st =>
      set_x509_cred
        (with_key_file (Some (cert, string_of (exp_tls_privatekey state)))
           (x509_cred st)) st)
  else ret tt.

(** The trusted CAs and the CRL, down to the end of the function. *)
Definition verify_certificates_and_crl (E : env) : M (S := store) Z :=
  state <- state_of ;;
  (if nonempty (tls_verify_certificates state) then
     r <- expand_check E (tls_verify_certificates state)
            "tls_verify_certificates" ;;
     set_state (set_exp_tls_verify_certificates (snd r)) ;;
     (if negb (fst r) then return_ DEFER else ret tt) ;;
     (if nonempty (tls_crl state) then
        r <- expand_check E (tls_crl state) "tls_crl" ;;
        set_state (set_exp_tls_crl (snd r)) ;;
        if negb (fst r) then return_ DEFER else ret tt
      else ret tt) ;;
     state <- state_of ;;
     if negb (nonempty (exp_tls_verify_certificates state))
     then return_ OK else ret tt
   else return_ OK) ;;
  state <- state_of ;;
  let path := string_of (exp_tls_verify_certificates state) in
  match Ustat E path with
  | None =>
      log_write ("could not stat " ++ path ++ " (tls_verify_certificates)") ;;
      return_ DEFER
  | Some statbuf =>
      (if st_is_dir statbuf then
         log_write ("tls_verify_certificates " ++ path ++ " is a directory") ;;
         return_ DEFER
       else ret tt) ;;
      (if st_size statbuf =? 0 then return_ OK else ret tt) ;;
      let cert_count := certificate_set_x509_trust_file E path in
      (if cert_count <? 0 then
         exim_gnutls_err_check cert_count
           "gnutls_certificate_set_x509_trust_file" (host state)
       else ret tt) ;;
      set_state (fun st =>
        set_x509_cred (with_trust_file (Some path) (x509_cred st)) st) ;;
      (if nonempty (tls_crl state) && nonempty (exp_tls_crl state) then
         let crl := string_of (exp_tls_crl state) in
         let cert_count := certificate_set_x509_crl_file E crl in
         (if cert_count <? 0 then
            exim_gnutls_err_check cert_count
              "gnutls_certificate_set_x509_crl_file" (host state)
          else ret tt) ;;
         set_state (fun st =>
           set_x509_cred (with_crl_file (Some crl) (x509_cred st)) st)
       else ret tt) ;;
      ret OK
  end.

Definition tls_expand_session_files (E : env) (state : exim_gnutls_state_st)
    (g : G.t) : Z * exim_gnutls_state_st * G.t :=
  let '(rc, (state, g)) :=
    run (allocate E ;; certificate_and_key E ;; verify_certificates_and_crl E)
        (state, g) in
  (rc, state, g).

End Resolver.

(** ** DH parameter cache: [init_server_dh] *)

Module DH.

Import EarlyReturn.
Local Open Scope early_scope.

Definition ENOENT : Z := 2.

(** What the operating system and the engine answer to the calls of
    [init_server_dh], built against GnuTLS 2.12 or later.  [Uopen] answers
    the descriptor and [errno]; [fstat] answers [S_ISREG] and [st_size], or
    fails; [fread] answers its item count and the bytes read; [mkstemp]
    answers the descriptor and the name it made of the template. *)
Record env : Type := {
  dh_params_init : Z;
  sec_param_to_pk_bits : Z;
  spool_directory : string;
  PATH_MAX : Z;
  Uopen : string -> Z * Z;
  fstat : option (bool * Z);
  fdopen_ok : bool;
  malloc_ok : Z -> bool;
  fread : Z -> Z * list byte;
  dh_params_import_pkcs3 : list byte -> Z;
  mkstemp : string -> Z * string;
  dh_params_generate2 : Z -> Z;
  dh_params_export_pkcs3_sizing : Z * Z;
  dh_params_export_pkcs3 : Z * list byte;
  write_to_fd_buf : list byte -> Z;
  close : Z;
  Urename : string -> string -> Z
}.

Definition emit (e : event) : M (S := G.t) unit := modify (G.emit e).

(** [return tls_error (prefix, msg, NULL);] *)
Definition return_tls_error {A : Type} (prefix : string) (msg : message)
  : M (S := G.t) A :=
  fun g => let '(rc, g) := tls_error prefix msg None g in (inr rc, g).

(** The macro [exim_gnutls_err_check], with the dummy [host = NULL]. *)
Definition exim_gnutls_err_check (rc : Z) (label : string)
  : M (S := G.t) unit :=
  if negb (rc =? GNUTLS_E_SUCCESS)
  then return_tls_error label (Msg_gnutls_strerror rc)
  else ret tt.

(** ["%s/gnutls-params-%d"] *)
Definition cache_filename (E : env) (dh_bits : Z) : string :=
  spool_directory E ++ "/gnutls-params-" ++
  NilZero.string_of_uint (N.to_uint (Z.to_N dh_bits)).

Definition Ustrlen (s : string) : Z := Z.of_nat (String.length s).

(** The branch [if (fd >= 0)]: read the cache file and import it.  The value
    is [rc] as the branch leaves it. *)
Definition read_cache (E : env) (filename : string) : M (S := G.t) Z :=
  match fstat E with
  | None =>
      emit (Ev_sys (Sys_close filename)) ;;
      return_tls_error "TLS cache stat failed" Msg_strerror_errno
  | Some (is_reg, st_size) =>
      (if negb is_reg then
         emit (Ev_sys (Sys_close filename)) ;;
         return_tls_error "TLS cache not a file" Msg_null
       else ret tt) ;;
      (if negb (fdopen_ok E) then
         emit (Ev_sys (Sys_close filename)) ;;
         return_tls_error "fdopen(TLS cache stat fd) failed" Msg_strerror_errno
       else ret tt) ;;
      (if negb (malloc_ok E st_size) then
         emit (Ev_sys (Sys_close filename)) ;;
         return_tls_error "malloc failed" Msg_strerror_errno
       else ret tt) ;;
      let '(sz, data) := fread E st_size in
      (if sz =? 0 then
         emit (Ev_sys (Sys_close filename)) ;;
         return_tls_error "fread failed" Msg_strerror_errno
       else ret tt) ;;
      emit (Ev_sys (Sys_close filename)) ;;
      emit (Ev_engine Dh_params_import_pkcs3) ;;
      let rc := dh_params_import_pkcs3 E data in
      exim_gnutls_err_check rc "gnutls_dh_params_import_pkcs3" ;;
      ret rc
  end.

(** The block [if (rc < 0)]: generate, export, write to a temporary file,
    rename over the cache file. *)
Definition regenerate (E : env) (filename : string) (dh_bits : Z)
  : M (S := G.t) unit :=
  (if PATH_MAX E - Ustrlen filename <? 10 then
     return_tls_error "Filename too long to generate replacement"
       (Msg_text filename)
   else ret tt) ;;
  let '(fd, temp_fn) := mkstemp E "%s.XXXXXXX" in
  emit (Ev_sys (Sys_mkstemp "%s.XXXXXXX")) ;;
  (if fd <? 0 then
     return_tls_error "Unable to open temp file" Msg_strerror_errno
   else ret tt) ;;
  emit (Ev_sys (Sys_fchown temp_fn)) ;;
  emit (Ev_engine (Dh_params_generate2 dh_bits)) ;;
  exim_gnutls_err_check (dh_params_generate2 E dh_bits)
    "gnutls_dh_params_generate2" ;;
  emit (Ev_engine Dh_params_export_pkcs3) ;;
  let '(rc, sz) := dh_params_export_pkcs3_sizing E in
  (if negb (rc =? GNUTLS_E_SHORT_MEMORY_BUFFER) then
     exim_gnutls_err_check rc "gnutls_dh_params_export_pkcs3(NULL) sizing"
   else ret tt) ;;
  let m_size := sz in
  (if negb (malloc_ok E m_size) then
     return_tls_error "memory allocation failed" Msg_strerror_errno
   else ret tt) ;;
  emit (Ev_engine Dh_params_export_pkcs3) ;;
  let '(rc, m_data) := dh_params_export_pkcs3 E in
  (if negb (rc =? GNUTLS_E_SUCCESS) then
     exim_gnutls_err_check rc "gnutls_dh_params_export_pkcs3() real"
   else ret tt) ;;
  emit (Ev_sys (Sys_write temp_fn m_data)) ;;
  (if negb (write_to_fd_buf E m_data =? m_size) then
     return_tls_error "TLS cache write D-H params failed" Msg_strerror_errno
   else ret tt) ;;
  emit (Ev_sys (Sys_write temp_fn ["010"%byte])) ;;
  (if negb (write_to_fd_buf E ["010"%byte] =? 1) then
     return_tls_error "TLS cache write D-H params final newline failed"
       Msg_strerror_errno
   else ret tt) ;;
  emit (Ev_sys (Sys_close temp_fn)) ;;
  (if negb (close E =? 0) then
     return_tls_error "TLS cache write close() failed" Msg_strerror_errno
   else ret tt) ;;
  emit (Ev_sys (Sys_rename temp_fn filename)) ;;
  (if Urename E temp_fn filename <? 0 then
     return_tls_error "failed to rename" Msg_strerror_errno
   else ret tt).

Definition init_server_dh (E : env) (g : G.t) : Z * G.t :=
  run
    (emit (Ev_engine Dh_params_init) ;;
     exim_gnutls_err_check (dh_params_init E) "gnutls_dh_params_init" ;;
     let dh_bits := to_uint (sec_param_to_pk_bits E) in
     (if dh_bits =? 0 then
        return_tls_error "gnutls_sec_param_to_pk_bits() failed" Msg_null
      else ret tt) ;;
     let filename := cache_filename E dh_bits in
     (if PATH_MAX E <=? Ustrlen filename then
        return_tls_error "overlong filename" Msg_null
      else ret tt) ;;
     emit (Ev_sys (Sys_open filename)) ;;
     let '(fd, errno) := Uopen E filename in
     rc <- (if fd >=? 0 then read_cache E filename
            else if errno =? ENOENT then ret (-1)
            else return_tls_error "failed to open for reading" Msg_null) ;;
     (if rc <? 0 then regenerate E filename dh_bits else ret tt) ;;
     ret OK)
    g.

End DH.

(** ** Sample sessions, states and environments *)

Module Sample.

Definition string_format (protocol suite : string) (bits : Z) : string :=
  protocol ++ ":" ++ suite ++ ":" ++
  NilZero.string_of_uint (N.to_uint (Z.to_N bits)).

Definition certificate : list byte := ["0"%byte; "130"%byte; "001"%byte].

(** A session of TLS 1.2 with a 256-bit cipher, whose peer certificate
    carries the name [CN=peer.example]. *)
Definition session_of (peers : option (list (list byte))) (verify : Z * Z)
    (handshake : list (Z * bool)) (recv : list (Z * list byte))
    (send : list Z) : gnutls_session :=
  {| protocol_name := "TLS1.2";
     cipher_suite_name := "DHE_RSA_AES_256_CBC_SHA1";
     cipher_key_size := 32;
     certificate_get_peers := peers;
     certificate_type := GNUTLS_CRT_X509;
     certificate_type_name := "X.509";
     x509_crt_init_rc := GNUTLS_E_SUCCESS;
     x509_crt_import := fun _ => GNUTLS_E_SUCCESS;
     x509_crt_get_dn_sizing := fun _ => (GNUTLS_E_SHORT_MEMORY_BUFFER, 16);
     x509_crt_get_dn := fun _ => (GNUTLS_E_SUCCESS, "CN=peer.example");
     certificate_verify_peers2 := verify;
     channel_binding_b64 := (0, "dGxzLXVuaXF1ZQ==");
     handshake_script := handshake;
     recv_script := recv;
     send_script := send |}.

Definition remote : host_item :=
  {| name := "mx.example"; address := "192.0.2.25" |}.

(** A state block as [tls_init] leaves it. *)
Definition state_of (s : gnutls_session) (requirement : peer_verify_requirement)
    (h : option host_item) (certificate cas : option string)
  : exim_gnutls_state_st :=
  {| session := Some s; x509_cred := Some empty_credentials;
     priority_cache := Some "NORMAL";
     verify_requirement := requirement; fd_in := -1; fd_out := -1;
     peer_cert_verified := false; trigger_sni_changes := false;
     have_set_peerdn := false;
     host := h; peerdn := None; ciphersuite := None; received_sni := None;
     tls_certificate := certificate; tls_privatekey := None; tls_sni := None;
     tls_verify_certificates := cas; tls_crl := None;
     tls_require_ciphers := None;
     exp_tls_certificate := certificate; exp_tls_privatekey := certificate;
     exp_tls_sni := None; exp_tls_verify_certificates := cas;
     exp_tls_crl := None; exp_tls_require_ciphers := None;
     xfer_buffer := repeat "000"%byte 8;
     xfer_buffer_lwm := 0; xfer_buffer_hwm := 0;
     xfer_eof := 0; xfer_error := 0 |}.

(** The globals of a process that has not started TLS, and of one whose
    TLS session on descriptor 5 is established. *)
Definition cleartext : G.t :=
  {| G.tls_active := -1; G.tls_bits := 0;
     G.tls_certificate_verified := false;
     G.tls_channelbinding_b64 := None; G.tls_cipher := None;
     G.tls_peerdn := None; G.tls_sni := None;
     G.receive_getc := Smtp_fn; G.receive_ungetc := Smtp_fn;
     G.receive_feof := Smtp_fn; G.receive_ferror := Smtp_fn;
     G.receive_smtp_buffered := Smtp_fn;
     G.sigalrm_seen := false;
     G.smtp_in_open := true; G.smtp_out_open := true;
     G.smtp_inbuffer := ["Q"%byte; "U"%byte; "I"%byte; "T"%byte];
     G.tls_on_connect := false; G.smtp_receive_timeout := 300;
     G.ssl_xfer_buffer_size := 4096; G.trace := [] |}.

Definition established : G.t :=
  {| G.tls_active := 5; G.tls_bits := 256;
     G.tls_certificate_verified := true;
     G.tls_channelbinding_b64 := Some "dGxzLXVuaXF1ZQ==";
     G.tls_cipher := Some "TLS1.2:DHE_RSA_AES_256_CBC_SHA1:256";
     G.tls_peerdn := Some "CN=peer.example"; G.tls_sni := None;
     G.receive_getc := Tls_fn; G.receive_ungetc := Tls_fn;
     G.receive_feof := Tls_fn; G.receive_ferror := Tls_fn;
     G.receive_smtp_buffered := Tls_fn;
     G.sigalrm_seen := false;
     G.smtp_in_open := true; G.smtp_out_open := true;
     G.smtp_inbuffer := ["Q"%byte; "U"%byte; "I"%byte; "T"%byte];
     G.tls_on_connect := false; G.smtp_receive_timeout := 300;
     G.ssl_xfer_buffer_size := 4096; G.trace := [] |}.

(** Two records, "EH" and "LO", then the close of the TLS session. *)
Definition chunks : list (list byte) :=
  [["E"%byte; "H"%byte]; ["L"%byte; "O"%byte]].

Definition reader : exim_gnutls_state_st :=
  state_of
    (session_of (Some [certificate]) (0, 0) []
       [(2, ["E"%byte; "H"%byte]); (2, ["L"%byte; "O"%byte]); (0, [])] [])
    VERIFY_NONE None (Some "/etc/exim/server.pem") None.

(** An engine that takes 16384 bytes at each send, 131072 times, and then
    reports the channel closed. *)
Definition full_records : list Z := repeat 16384 (Z.to_nat 131072).

Definition writer (sends : list Z) : exim_gnutls_state_st :=
  state_of (session_of (Some [certificate]) (0, 0) [] [] sends)
    VERIFY_NONE None (Some "/etc/exim/server.pem") None.

(** A peer that sent no certificate, and one whose certificate the engine
    finds invalid and revoked. *)
Definition anonymous (requirement : peer_verify_requirement)
  : exim_gnutls_state_st :=
  state_of (session_of None (-49, 0) [] [] []) requirement None
    (Some "/etc/exim/server.pem") None.

Definition revoked (requirement : peer_verify_requirement)
  : exim_gnutls_state_st :=
  state_of (session_of (Some [certificate]) (0, 34) [] [] []) requirement None
    (Some "/etc/exim/server.pem") None.

(** What a server that matches [tls_try_verify_hosts], or a client on
    descriptor 7, starts from, given the engine's handshake steps. *)
Definition start_of (handshake : list (Z * bool)) : Orchestrator.start_env :=
  {| Orchestrator.tls_init_rc := OK;
     Orchestrator.tls_init_state :=
       state_of (session_of (Some [certificate]) (0, 0) handshake [] [])
         VERIFY_NONE None (Some "/etc/exim/server.pem") None;
     Orchestrator.verify_hosts_match := false;
     Orchestrator.try_verify_hosts_match := true;
     Orchestrator.fileno_smtp_in := 0;
     Orchestrator.fileno_smtp_out := 1;
     Orchestrator.client_fd := 7;
     Orchestrator.verify_certs := None;
     Orchestrator.client_timeout := 300 |}.

(** A resolver environment in which every string expands to itself,
    [/etc/ssl/certs] is a directory, every other path a file of 1200 bytes,
    and the engine loads every file but [/etc/exim/missing.pem]. *)
Definition resolver : Resolver.env :=
  {| Resolver.expand_string := Resolver.Expanded;
     Resolver.Ustat := fun path =>
       Some {| Resolver.st_is_dir := String.eqb path "/etc/ssl/certs";
               Resolver.st_size := 1200 |};
     Resolver.certificate_allocate_credentials := GNUTLS_E_SUCCESS;
     Resolver.certificate_set_x509_key_file := fun cert _ =>
       if String.eqb cert "/etc/exim/missing.pem" then -64
       else GNUTLS_E_SUCCESS;
     Resolver.certificate_set_x509_trust_file := fun _ => 3;
     Resolver.certificate_set_x509_crl_file := fun _ => 1 |}.

Definition pem : list byte := ["-"%byte; "-"%byte; "-"%byte].

(** A spool directory, with what [Uopen], [fstat] and [fread] answer for
    the cache file, and what the engine answers to an import. *)
Definition spool (open : Z * Z) (stat : option (bool * Z))
    (read : Z * list byte) (import : Z) : DH.env :=
  {| DH.dh_params_init := GNUTLS_E_SUCCESS;
     DH.sec_param_to_pk_bits := 2048;
     DH.spool_directory := "/var/spool/exim";
     DH.PATH_MAX := 4096;
     DH.Uopen := fun _ => open;
     DH.fstat := stat;
     DH.fdopen_ok := true;
     DH.malloc_ok := fun _ => true;
     DH.fread := fun _ => read;
     DH.dh_params_import_pkcs3 := fun _ => import;
     DH.mkstemp := fun _ => (4, "%s.a1b2c3d");
     DH.dh_params_generate2 := fun _ => GNUTLS_E_SUCCESS;
     DH.dh_params_export_pkcs3_sizing := (GNUTLS_E_SHORT_MEMORY_BUFFER, 3);
     DH.dh_params_export_pkcs3 := (GNUTLS_E_SUCCESS, pem);
     DH.write_to_fd_buf := fun data => Z.of_nat (List.length data);
     DH.close := 0;
     DH.Urename := fun _ _ => 0 |}.

(** An entropy source that fills the buffer with 0xff. *)
Definition entropy : Random.entropy :=
  {| Random.gnutls_rnd := fun len =>
       (0, repeat "255"%byte (Z.to_nat len));
     Random.vaguely_random_number_fallback := fun _ => 0 |}.

End Sample.

(** ** Vocabulary of the properties *)

Definition recv_of_chunk (c : list byte) : Z * list byte :=
  (Z.of_nat (List.length c), c).

(** The alarm set before a blocking call, if a receive timeout is set. *)
Definition arm_events (g : G.t) : list event :=
  if G.smtp_receive_timeout g >? 0
  then [Ev_alarm (G.smtp_receive_timeout g)] else [].

(** What [tls_getc] adds to the trace around one engine read: the alarm,
    the read, and the alarm's cancellation. *)
Definition read_events (g : G.t) : list event :=
  arm_events g ++
  [Ev_engine (Record_recv (G.ssl_xfer_buffer_size g)); Ev_alarm 0].

Definition recv_events (g : G.t) (c : list byte) : list event :=
  read_events g ++ [Ev_dkim_exim_verify_feed c].

Definition is_tls_error (e : event) : bool :=
  match e with Ev_tls_error _ _ _ => true | _ => false end.

Definition sum_Z (l : list Z) : Z := fold_right Z.add 0 l.

(** The engine calls of a run of successful sends: each starts where the one
    before stopped and offers all that is left. *)
Fixpoint send_events (buff left : Z) (sends : list Z) : list event :=
  match sends with
  | [] => []
  | o :: sends' =>
      Ev_engine (Record_send buff left) :: send_events (buff + o) (left - o) sends'
  end.

(** The state [tls_write] leaves: the session's pending answers are those
    the loop did not consume. *)
Definition after_write (script : list Z) (state : exim_gnutls_state_st)
  : exim_gnutls_state_st :=
  match session state with
  | Some s => set_session (Some (set_send_script script s)) state
  | None => state
  end.

Definition no_peer_certificate (s : gnutls_session) : Prop :=
  certificate_get_peers s = None \/ certificate_get_peers s = Some [].

(** The condition under which the loop goes round again, as the
    specification words it: would-block, or interrupted with no timeout
    observed. *)
Definition keeps_looping (rc : Z) (seen : bool) : Prop :=
  rc = GNUTLS_E_AGAIN \/ (rc = GNUTLS_E_INTERRUPTED /\ seen = false).

(** [sigalrm_seen] after a run of handshake steps. *)
Definition seen_after (seen : bool) (steps : list (Z * bool)) : bool :=
  fold_left (fun b step => b || snd step) steps seen.

(** Every step of [pre] met the condition, with the flag as it stood after
    that step. *)
Fixpoint all_retried (seen : bool) (pre : list (Z * bool)) : Prop :=
  match pre with
  | [] => True
  | (rc, alarmed) :: pre' =>
      keeps_looping rc (seen || alarmed) /\ all_retried (seen || alarmed) pre'
  end.

(** The globals after [n] handshake steps that left the flag at [seen]. *)
Definition after_steps (n : nat) (seen : bool) (g : G.t) : G.t :=
  G.set_sigalrm_seen seen
    (G.set_trace (G.trace g ++ repeat (Ev_engine Handshake) n) g).

(** An engine error that sends a client out of the resolver with FAIL before
    the trust store is looked at: the credential set could not be allocated,
    or the certificate and key could not be loaded. *)
Definition engine_failed_first (E : Resolver.env) : Prop :=
  Resolver.certificate_allocate_credentials E <> GNUTLS_E_SUCCESS \/
  exists cert key,
    Resolver.certificate_set_x509_key_file E cert key <> GNUTLS_E_SUCCESS.



(** The calls before the cache file is opened all succeed. *)
Definition reaches_open (E : DH.env) : Prop :=
  DH.dh_params_init E = GNUTLS_E_SUCCESS /\
  to_uint (DH.sec_param_to_pk_bits E) <> 0 /\
  DH.Ustrlen (DH.cache_filename E (to_uint (DH.sec_param_to_pk_bits E)))
    < DH.PATH_MAX E.

(** The cache file was opened, and cannot be examined or read. *)
Definition cache_unreadable (E : DH.env) : Prop :=
  match DH.fstat E with
  | None => True
  | Some (is_reg, st_size) =>
      is_reg = false \/ DH.fdopen_ok E = false \/
      DH.malloc_ok E st_size = false \/ fst (DH.fread E st_size) = 0
  end.

(** Every step of the regeneration succeeds: the temporary file is made under
    the name [temp_fn], the engine generates and exports [data], which is
    written in full with its newline, and the file is closed and renamed. *)
Definition regeneration_succeeds (E : DH.env) (filename temp_fn : string)
    (dh_bits : Z) (data : list byte) : Prop :=
  10 <= DH.PATH_MAX E - DH.Ustrlen filename /\
  (exists fd, DH.mkstemp E "%s.XXXXXXX" = (fd, temp_fn) /\ 0 <= fd) /\
  DH.dh_params_generate2 E dh_bits = GNUTLS_E_SUCCESS /\
  (exists sz,
     DH.dh_params_export_pkcs3_sizing E = (GNUTLS_E_SHORT_MEMORY_BUFFER, sz) /\
     DH.malloc_ok E sz = true /\
     DH.write_to_fd_buf E data = sz) /\
  DH.dh_params_export_pkcs3 E = (GNUTLS_E_SUCCESS, data) /\
  DH.write_to_fd_buf E ["010"%byte] = 1 /\
  DH.close E = 0 /\
  0 <= DH.Urename E temp_fn filename.

Definition regeneration_events (filename temp_fn : string) (dh_bits : Z)
    (data : list byte) : list event :=
  [Ev_sys (Sys_mkstemp "%s.XXXXXXX"); Ev_sys (Sys_fchown temp_fn);
   Ev_engine (Dh_params_generate2 dh_bits);
   Ev_engine Dh_params_export_pkcs3; Ev_engine Dh_params_export_pkcs3;
   Ev_sys (Sys_write temp_fn data); Ev_sys (Sys_write temp_fn ["010"%byte]);
   Ev_sys (Sys_close temp_fn); Ev_sys (Sys_rename temp_fn filename)].

(** A computation of the DH cache that, from any globals, ends with [r] and
    has added the events [es] to the trace, touching nothing else. *)
Definition yields {A : Type} (m : EarlyReturn.M (S := G.t) A) (r : A + Z)
    (es : list event) : Prop :=
  forall g, m g = (r, G.set_trace (G.trace g ++ es) g).

(** ** Session set-up and tear-down: [tls_set_remaining_x509], [tls_init],
       [exim_sni_handling_cb], [tls_close] *)

(** The assignments of [tls_init] that copy its arguments into the block. *)
Definition set_configuration (h : option host_item)
    (certificate privatekey sni cas crl require_ciphers : option string)
    (st : exim_gnutls_state_st) : exim_gnutls_state_st :=
  {| session := session st; x509_cred := x509_cred st;
     priority_cache := priority_cache st;
     verify_requirement := verify_requirement st; fd_in := fd_in st;
     fd_out := fd_out st; peer_cert_verified := peer_cert_verified st;
     trigger_sni_changes := trigger_sni_changes st;
     have_set_peerdn := have_set_peerdn st; host := h;
     peerdn := peerdn st; ciphersuite := ciphersuite st;
     received_sni := received_sni st; tls_certificate := certificate;
     tls_privatekey := privatekey; tls_sni := sni;
     tls_verify_certificates := cas;
     tls_crl := crl; tls_require_ciphers := require_ciphers;
     exp_tls_certificate := exp_tls_certificate st;
     exp_tls_privatekey := exp_tls_privatekey st;
     exp_tls_sni := exp_tls_sni st;
     exp_tls_verify_certificates := exp_tls_verify_certificates st;
     exp_tls_crl := exp_tls_crl st;
     exp_tls_require_ciphers := exp_tls_require_ciphers st;
     xfer_buffer := xfer_buffer st; xfer_buffer_lwm := xfer_buffer_lwm st;
     xfer_buffer_hwm := xfer_buffer_hwm st; xfer_eof := xfer_eof st;
     xfer_error := xfer_error st |}.

Definition set_priority_cache (v : option string) (st : exim_gnutls_state_st)
  : exim_gnutls_state_st :=
  {| session := session st; x509_cred := x509_cred st;
     priority_cache := v;
     verify_requirement := verify_requirement st; fd_in := fd_in st;
     fd_out := fd_out st; peer_cert_verified := peer_cert_verified st;
     trigger_sni_changes := trigger_sni_changes st;
     have_set_peerdn := have_set_peerdn st; host := host st;
     peerdn := peerdn st; ciphersuite := ciphersuite st;
     received_sni := received_sni st; tls_certificate := tls_certificate st;
     tls_privatekey := tls_privatekey st; tls_sni := tls_sni st;
     tls_verify_certificates := tls_verify_certificates st;
     tls_crl := tls_crl st; tls_require_ciphers := tls_require_ciphers st;
     exp_tls_certificate := exp_tls_certificate st;
     exp_tls_privatekey := exp_tls_privatekey st;
     exp_tls_sni := exp_tls_sni st;
     exp_tls_verify_certificates := exp_tls_verify_certificates st;
     exp_tls_crl := exp_tls_crl st;
     exp_tls_require_ciphers := exp_tls_require_ciphers st;
     xfer_buffer := xfer_buffer st; xfer_buffer_lwm := xfer_buffer_lwm st;
     xfer_buffer_hwm := xfer_buffer_hwm st; xfer_eof := xfer_eof st;
     xfer_error := xfer_error st |}.

Definition set_received_sni (v : option string) (st : exim_gnutls_state_st)
  : exim_gnutls_state_st :=
  {| session := session st; x509_cred := x509_cred st;
     priority_cache := priority_cache st;
     verify_requirement := verify_requirement st; fd_in := fd_in st;
     fd_out := fd_out st; peer_cert_verified := peer_cert_verified st;
     trigger_sni_changes := trigger_sni_changes st;
     have_set_peerdn := have_set_peerdn st; host := host st;
     peerdn := peerdn st; ciphersuite := ciphersuite st;
     received_sni := v; tls_certificate := tls_certificate st;
     tls_privatekey := tls_privatekey st; tls_sni := tls_sni st;
     tls_verify_certificates := tls_verify_certificates st;
     tls_crl := tls_crl st; tls_require_ciphers := tls_require_ciphers st;
     exp_tls_certificate := exp_tls_certificate st;
     exp_tls_privatekey := exp_tls_privatekey st;
     exp_tls_sni := exp_tls_sni st;
     exp_tls_verify_certificates := exp_tls_verify_certificates st;
     exp_tls_crl := exp_tls_crl st;
     exp_tls_require_ciphers := exp_tls_require_ciphers st;
     xfer_buffer := xfer_buffer st; xfer_buffer_lwm := xfer_buffer_lwm st;
     xfer_buffer_hwm := xfer_buffer_hwm st; xfer_eof := xfer_eof st;
     xfer_error := xfer_error st |}.

Definition set_exp_tls_sni (v : option string) (st : exim_gnutls_state_st)
  : exim_gnutls_state_st :=
  {| session := session st; x509_cred := x509_cred st;
     priority_cache := priority_cache st;
     verify_requirement := verify_requirement st; fd_in := fd_in st;
     fd_out := fd_out st; peer_cert_verified := peer_cert_verified st;
     trigger_sni_changes := trigger_sni_changes st;
     have_set_peerdn := have_set_peerdn st; host := host st;
     peerdn := peerdn st; ciphersuite := ciphersuite st;
     received_sni := received_sni st; tls_certificate := tls_certificate st;
     tls_privatekey := tls_privatekey st; tls_sni := tls_sni st;
     tls_verify_certificates := tls_verify_certificates st;
     tls_crl := tls_crl st; tls_require_ciphers := tls_require_ciphers st;
     exp_tls_certificate := exp_tls_certificate st;
     exp_tls_privatekey := exp_tls_privatekey st;
     exp_tls_sni := v;
     exp_tls_verify_certificates := exp_tls_verify_certificates st;
     exp_tls_crl := exp_tls_crl st;
     exp_tls_require_ciphers := exp_tls_require_ciphers st;
     xfer_buffer := xfer_buffer st; xfer_buffer_lwm := xfer_buffer_lwm st;
     xfer_buffer_hwm := xfer_buffer_hwm st; xfer_eof := xfer_eof st;
     xfer_error := xfer_error st |}.

Definition set_exp_tls_require_ciphers (v : option string)
    (st : exim_gnutls_state_st) : exim_gnutls_state_st :=
  {| session := session st; x509_cred := x509_cred st;
     priority_cache := priority_cache st;
     verify_requirement := verify_requirement st; fd_in := fd_in st;
     fd_out := fd_out st; peer_cert_verified := peer_cert_verified st;
     trigger_sni_changes := trigger_sni_changes st;
     have_set_peerdn := have_set_peerdn st; host := host st;
     peerdn := peerdn st; ciphersuite := ciphersuite st;
     received_sni := received_sni st; tls_certificate := tls_certificate st;
     tls_privatekey := tls_privatekey st; tls_sni := tls_sni st;
     tls_verify_certificates := tls_verify_certificates st;
     tls_crl := tls_crl st; tls_require_ciphers := tls_require_ciphers st;
     exp_tls_certificate := exp_tls_certificate st;
     exp_tls_privatekey := exp_tls_privatekey st;
     exp_tls_sni := exp_tls_sni st;
     exp_tls_verify_certificates := exp_tls_verify_certificates st;
     exp_tls_crl := exp_tls_crl st;
     exp_tls_require_ciphers := v;
     xfer_buffer := xfer_buffer st; xfer_buffer_lwm := xfer_buffer_lwm st;
     xfer_buffer_hwm := xfer_buffer_hwm st; xfer_eof := xfer_eof st;
     xfer_error := xfer_error st |}.

Module Lifecycle.

Import EarlyReturn.
Local Open Scope early_scope.

(** Values of [<gnutls/gnutls.h>]. *)
Definition GNUTLS_NAME_DNS : Z := 1.
Definition GNUTLS_E_APPLICATION_ERROR_MIN : Z := -65500.

Definition ssl_session_timeout : Z := 200.
Definition exim_default_gnutls_priority : string := "NORMAL".

(** Which of the two static blocks a pointer to a block designates. *)
Inductive block : Type := State_server | State_client.

(** The calls these functions make to the engine beyond those of the trace
    of the globals, in the order made. *)
Inductive library_call : Type :=
| Global_init
| Global_deinit
| Init (b : block)
| Certificate_set_dh_params
| Credentials_set
| Server_name_set (name : string)
| Priority_init (priorities : string)
| Priority_set
| Db_set_cache_expiration (seconds : Z)
| Session_enable_compatibility_mode
| Bye.

(** The file's static variables.  [dh_server_params] tells whether the
    pointer is set, which is all the file asks of it. *)
Record statics : Type := {
  state_server : exim_gnutls_state_st;
  state_client : exim_gnutls_state_st;
  current_global_tls_state : option block;
  dh_server_params : bool;
  exim_gnutls_base_init_done : bool;
  library_calls : list library_call
}.

Definition set_state_server (v : exim_gnutls_state_st) (st : statics)
  : statics :=
  {| state_server := v; state_client := state_client st;
     current_global_tls_state := current_global_tls_state st;
     dh_server_params := dh_server_params st;
     exim_gnutls_base_init_done := exim_gnutls_base_init_done st;
     library_calls := library_calls st |}.

Definition set_state_client (v : exim_gnutls_state_st) (st : statics)
  : statics :=
  {| state_server := state_server st; state_client := v;
     current_global_tls_state := current_global_tls_state st;
     dh_server_params := dh_server_params st;
     exim_gnutls_base_init_done := exim_gnutls_base_init_done st;
     library_calls := library_calls st |}.

Definition set_current_global_tls_state (v : option block) (st : statics)
  : statics :=
  {| state_server := state_server st; state_client := state_client st;
     current_global_tls_state := v;
     dh_server_params := dh_server_params st;
     exim_gnutls_base_init_done := exim_gnutls_base_init_done st;
     library_calls := library_calls st |}.

Definition set_dh_server_params (v : bool) (st : statics) : statics :=
  {| state_server := state_server st; state_client := state_client st;
     current_global_tls_state := current_global_tls_state st;
     dh_server_params := v;
     exim_gnutls_base_init_done := exim_gnutls_base_init_done st;
     library_calls := library_calls st |}.

Definition set_exim_gnutls_base_init_done (v : bool) (st : statics)
  : statics :=
  {| state_server := state_server st; state_client := state_client st;
     current_global_tls_state := current_global_tls_state st;
     dh_server_params := dh_server_params st;
     exim_gnutls_base_init_done := v;
     library_calls := library_calls st |}.

Definition set_library_calls (v : list library_call) (st : statics)
  : statics :=
  {| state_server := state_server st; state_client := state_client st;
     current_global_tls_state := current_global_tls_state st;
     dh_server_params := dh_server_params st;
     exim_gnutls_base_init_done := exim_gnutls_base_init_done st;
     library_calls := v |}.

(** The block a pointer designates, and the assignment through it. *)
Definition deref (b : block) (st : statics) : exim_gnutls_state_st :=
  match b with
  | State_server => state_server st
  | State_client => state_client st
  end.

Definition assign (b : block) (v : exim_gnutls_state_st) (st : statics)
  : statics :=
  match b with
  | State_server => set_state_server v st
  | State_client => set_state_client v st
  end.

(** What the engine and the rest of Exim answer.  [init] answers the return
    code of [gnutls_init] and what it left in [state->session];
    [priority_init] answers its return code and the offset of [errpos] in
    the string; [server_name_get] answers its return code, the type of the
    name and the name. *)
Record env : Type := {
  files : Resolver.env;
  dh : DH.env;
  global_init : Z;
  init : block -> Z * option gnutls_session;
  credentials_set : Z;
  server_name_set : string -> Z;
  priority_init : string -> Z * Z;
  priority_set : Z;
  gnutls_compat_mode : bool;
  server_name_get : Z * Z * string
}.

Definition store : Type := (statics * G.t)%type.

Definition call (c : library_call) : M (S := store) unit :=
  modify (fun s =>
    (set_library_calls (library_calls (fst s) ++ [c]) (fst s), snd s)).

Definition state_of (b : block) : M (S := store) exim_gnutls_state_st :=
  fun s => (inl (deref b (fst s)), s).

Definition set_state (b : block)
    (f : exim_gnutls_state_st -> exim_gnutls_state_st) : M (S := store) unit :=
  modify (fun s => (assign b (f (deref b (fst s))) (fst s), snd s)).

Definition set_statics (f : statics -> statics) : M (S := store) unit :=
  modify (fun s => (f (fst s), snd s)).

(** A computation of the resolver, run on the block [b]. *)
Definition on_block {A : Type} (b : block) (m : M (S := Resolver.store) A)
  : M (S := store) A :=
  fun s =>
    let '(r, (state, g)) := m (deref b (fst s), snd s) in
    (r, (assign b state (fst s), g)).

(** [return tls_error (prefix, msg, host);] *)
Definition return_tls_error {A : Type} (prefix : string) (msg : message)
    (h : option host_item) : M (S := store) A :=
  fun s =>
    let '(rc, g) := tls_error prefix msg h (snd s) in
    (inr rc, (fst s, g)).

(** The macro [exim_gnutls_err_check]. *)
Definition exim_gnutls_err_check (rc : Z) (label : string)
    (h : option host_item) : M (S := store) unit :=
  if negb (rc =? GNUTLS_E_SUCCESS)
  then return_tls_error label (Msg_gnutls_strerror rc) h
  else ret tt.

(** [rc = init_server_dh ();]  [gnutls_dh_params_init] stores the new object
    in [dh_server_params] when it succeeds, and NULL when it fails. *)
Definition init_server_dh (E : env) : M (S := store) Z :=
  fun s =>
    let '(rc, g) := DH.init_server_dh (dh E) (snd s) in
    (inl rc,
     (set_dh_server_params (DH.dh_params_init (dh E) =? GNUTLS_E_SUCCESS)
        (fst s), g)).

Definition with_dh_params (c : option credentials) : option credentials :=
  match c with
  | Some c => Some {| key_file := key_file c; trust_file := trust_file c;
                      crl_file := crl_file c; dh_params := true |}
  | None => None
  end.

Definition tls_set_remaining_x509 (E : env) (b : block) (s : store)
  : Z * store :=
  run
    (state <- state_of b ;;
     let host := host state in
     match host with
     | None =>
         st <- get ;;
         (if negb (dh_server_params (fst st)) then
            rc <- init_server_dh E ;;
            if negb (rc =? OK) then return_ rc else ret tt
          else ret tt) ;;
         call Certificate_set_dh_params ;;
         set_state b (fun state =>
           set_x509_cred (with_dh_params (x509_cred state)) state)
     | Some _ => ret tt
     end ;;
     call Credentials_set ;;
     exim_gnutls_err_check (credentials_set E) "gnutls_credentials_set" host ;;
     ret OK)
    s.

(** The label given to [exim_gnutls_err_check] after [gnutls_priority_init]:
    the priority string, the offset of [errpos] in it as a decimal number,
    and between double quotes up to six characters from [errpos] on,
    followed by two dots. *)
Definition priority_init_label (p : string) (offset : Z) : string :=
  let quote := String (ascii_of_nat 34) EmptyString in
  "gnutls_priority_init(" ++ p ++ ") failed at offset " ++
  NilZero.string_of_int (Z.to_int offset) ++ ", " ++ quote ++
  substring (Z.to_nat offset) 6 p ++ ".." ++ quote.

(** The library's own initialisation, made once. *)
Definition global_init_once (E : env) (h : option host_item)
  : M (S := store) unit :=
  st <- get ;;
  if negb (exim_gnutls_base_init_done (fst st)) then
    call Global_init ;;
    exim_gnutls_err_check (global_init E) "gnutls_global_init" h ;;
    set_statics (set_exim_gnutls_base_init_done true)
  else ret tt.

(** The block of the role is reset and gets a new session and the
    settings. *)
Definition new_session (E : env) (b : block) (h : option host_item)
    (certificate privatekey sni cas crl require_ciphers : option string)
  : M (S := store) unit :=
  set_state b (fun _ => exim_gnutls_state_init) ;;
  call (Init b) ;;
  let '(rc, s) := init E b in
  set_state b (set_session s) ;;
  exim_gnutls_err_check rc "gnutls_init" h ;;
  set_state b (set_configuration h certificate privatekey sni cas crl
                 require_ciphers).

(** [set SNI in client, only] *)
Definition client_sni (E : env) (b : block) (h : option host_item)
  : M (S := store) unit :=
  match h with
  | Some _ =>
      state <- state_of b ;;
      r <- on_block b (Resolver.expand_check (files E) (tls_sni state)
                         "tls_sni") ;;
      set_state b (set_exp_tls_sni (snd r)) ;;
      (if negb (fst r) then return_ DEFER else ret tt) ;;
      state <- state_of b ;;
      if Resolver.nonempty (exp_tls_sni state) then
        let sni := Resolver.string_of (exp_tls_sni state) in
        call (Server_name_set sni) ;;
        exim_gnutls_err_check (server_name_set E sni)
          "gnutls_server_name_set" h
      else ret tt
  | None => ret tt
  end.

(** The priority string: the expanded [tls_require_ciphers] when there is
    one, the default otherwise.  The value is [rc], the offset of [errpos]
    and [p]. *)
Definition priorities (E : env) (b : block) : M (S := store) (Z * Z * string) :=
  state <- state_of b ;;
  chosen <-
    (if Resolver.nonempty (tls_require_ciphers state) then
       r <- on_block b (Resolver.expand_check (files E)
                          (tls_require_ciphers state)
                          "tls_require_ciphers") ;;
       set_state b (set_exp_tls_require_ciphers (snd r)) ;;
       (if negb (fst r) then return_ DEFER else ret tt) ;;
       state <- state_of b ;;
       if Resolver.nonempty (exp_tls_require_ciphers state) then
         let p := Resolver.string_of (exp_tls_require_ciphers state) in
         call (Priority_init p) ;;
         ret (Some (priority_init E p, p))
       else ret None
     else ret None) ;;
  match chosen with
  | Some r => ret r
  | None =>
      (* want_default_priorities *)
      call (Priority_init exim_default_gnutls_priority) ;;
      ret (priority_init E exim_default_gnutls_priority,
           exim_default_gnutls_priority)
  end.

(** [*caller_state] is the block of the role, and is assigned only by a
    call that returns OK. *)
Definition tls_init (E : env) (h : option host_item)
    (certificate privatekey sni cas crl require_ciphers : option string)
    (s : store) : Z * store :=
  run
    (global_init_once E h ;;
     let b := match h with Some _ => State_client | None => State_server end in
     new_session E b h certificate privatekey sni cas crl require_ciphers ;;
     rc <- on_block b (fun s =>
             let '(rc, state, g) :=
               Resolver.tls_expand_session_files (files E) (fst s) (snd s) in
             (inl rc, (state, g))) ;;
     (if negb (rc =? OK) then return_ rc else ret tt) ;;
     rc <- (fun s => let '(rc, s) := tls_set_remaining_x509 E b s in
                     (inl rc, s)) ;;
     (if negb (rc =? OK) then return_ rc else ret tt) ;;
     client_sni E b h ;;
     r <- priorities E b ;;
     let '(rc, errpos, p) := r in
     (* the engine stores the cache it made of [p] when it succeeds *)
     (if rc =? GNUTLS_E_SUCCESS
      then set_state b (set_priority_cache (Some p)) else ret tt) ;;
     exim_gnutls_err_check rc (priority_init_label p errpos) h ;;
     call Priority_set ;;
     exim_gnutls_err_check (priority_set E) "gnutls_priority_set" h ;;
     call (Db_set_cache_expiration ssl_session_timeout) ;;
     (if gnutls_compat_mode E
      then call Session_enable_compatibility_mode else ret tt) ;;
     set_statics (set_current_global_tls_state (Some b)) ;;
     ret OK)
    s.

(** The callback the engine runs after the client hello.  A call with
    [current_global_tls_state] unset has no result. *)
Definition exim_sni_handling_cb (E : env) (s : store) : option (Z * store) :=
  let '(rc, sni_type, sni_name) := server_name_get E in
  if negb (rc =? GNUTLS_E_SUCCESS) then Some (0, s)
  else if negb (sni_type =? GNUTLS_NAME_DNS) then Some (0, s)
  else
    match current_global_tls_state (fst s) with
    | None => None
    | Some b =>
        let st := assign b (set_received_sni (Some sni_name)
                              (deref b (fst s))) (fst s) in
        let g := G.set_tls_sni (received_sni (deref b st)) (snd s) in
        if negb (trigger_sni_changes (deref b st)) then Some (0, (st, g))
        else
          let '(rc, state, g) :=
            Resolver.tls_expand_session_files (files E) (deref b st) g in
          let st := assign b state st in
          if negb (rc =? OK)
          then Some (GNUTLS_E_APPLICATION_ERROR_MIN, (st, g))
          else
            let '(rc, s) := tls_set_remaining_x509 E b (st, g) in
            if negb (rc =? OK)
            then Some (GNUTLS_E_APPLICATION_ERROR_MIN, s)
            else Some (0, s)
    end.

(** A call made while TLS is active with [current_global_tls_state] unset,
    or through a NULL session, has no result. *)
Definition tls_close (shutdown : bool) (s : store) : option store :=
  let '(st, g) := s in
  if G.tls_active g <? 0 then Some s
  else
    match current_global_tls_state st with
    | None => None
    | Some b =>
        match session (deref b st) with
        | None => None
        | Some _ =>
            let st :=
              if shutdown
              then set_library_calls (library_calls st ++ [Bye]) st
              else st in
            let g := G.emit (Ev_engine Deinit) g in
            let st := assign b exim_gnutls_state_init st in
            let st :=
              match session (state_server st), session (state_client st) with
              | None, None =>
                  set_exim_gnutls_base_init_done false
                    (set_library_calls (library_calls st ++ [Global_deinit])
                       st)
              | _, _ => st
              end in
            Some (st, G.set_tls_active (-1) g)
        end
    end.

End Lifecycle.

(** ** Vocabulary of the further properties *)

(** No character of the string is white space. *)
Definition no_space (p : string) : Prop :=
  forall c, In c (list_ascii_of_string p) -> Verifier.isspace c = false.

(** [g'] is [g] but for the trace and for the two published facts that the
    verifier writes, [tls_cipher] and [tls_peerdn]. *)
Definition verifier_wrote (g g' : G.t) : Prop :=
  g' = G.set_tls_peerdn (G.tls_peerdn g')
         (G.set_tls_cipher (G.tls_cipher g')
            (G.set_trace (G.trace g') g)).

(** The text [record_io_error] logs for the engine's code [rc]. *)
Definition io_error_message (rc : Z) : message :=
  if rc =? GNUTLS_E_FATAL_ALERT_RECEIVED
  then Msg_alert rc else Msg_gnutls_strerror rc.

(** The five [receive_*] function pointers. *)
Definition receive_pointers (g : G.t)
  : receive_fn * receive_fn * receive_fn * receive_fn * receive_fn :=
  (G.receive_getc g, G.receive_ungetc g, G.receive_feof g,
   G.receive_ferror g, G.receive_smtp_buffered g).

(** [g'] reads its input where [g] does: the receive pointers, [tls_active],
    the pending plaintext and the size of the transfer buffer are those of
    [g]. *)
Definition same_input (g g' : G.t) : Prop :=
  receive_pointers g' = receive_pointers g /\
  G.tls_active g' = G.tls_active g /\
  G.smtp_inbuffer g' = G.smtp_inbuffer g /\
  G.ssl_xfer_buffer_size g' = G.ssl_xfer_buffer_size g.

(** [st'] is [st] but for the three fields [peer_status] writes. *)
Definition identity_cached (st st' : exim_gnutls_state_st) : Prop :=
  st' = set_peerdn (peerdn st')
          (set_ciphersuite (ciphersuite st')
             (set_have_set_peerdn (have_set_peerdn st') st)).

(** Both SMTP streams are open in [g'] exactly if they are in [g]. *)
Definition same_streams (g g' : G.t) : Prop :=
  G.smtp_in_open g' = G.smtp_in_open g /\
  G.smtp_out_open g' = G.smtp_out_open g.

(** The events by which [init_server_dh] makes a new cache file. *)
Definition is_regeneration (e : event) : bool :=
  match e with
  | Ev_sys (Sys_mkstemp _) | Ev_sys (Sys_fchown _)
  | Ev_sys (Sys_write _ _) | Ev_sys (Sys_rename _ _) => true
  | Ev_engine (Dh_params_generate2 _) | Ev_engine Dh_params_export_pkcs3 => true
  | _ => false
  end.


(** The test the resolver makes before it expands anything: a server that
    has not yet received a server name, and whose certificate setting
    mentions [tls_sni]. *)
Definition sni_selects_certificate (state : exim_gnutls_state_st) : bool :=
  match host state, received_sni state, tls_certificate state with
  | None, None, Some c => Resolver.Ustrstr c "tls_sni"
  | _, _, _ => false
  end.

(** [st'] is [st] but for the fields the resolver writes: the credential
    set, the SNI trigger, the private key setting and the four expanded
    settings. *)
Definition resolver_wrote (st st' : exim_gnutls_state_st) : Prop :=
  st' =
    set_x509_cred (x509_cred st')
      (set_trigger_sni_changes (trigger_sni_changes st')
         (set_tls_privatekey (tls_privatekey st')
            (set_exp_tls_certificate (exp_tls_certificate st')
               (set_exp_tls_privatekey (exp_tls_privatekey st')
                  (set_exp_tls_verify_certificates
                     (exp_tls_verify_certificates st')
                     (set_exp_tls_crl (exp_tls_crl st') st)))))).

(** The setting is unset, or its expansion is forced to fail or gives the
    empty string. *)
Definition expands_to_nothing (E : Resolver.env) (p : option string) : Prop :=
  match p with
  | None => True
  | Some t =>
      Resolver.expand_string E t = Resolver.Forced_fail \/
      Resolver.expand_string E t = Resolver.Expanded EmptyString
  end.

(** The other of the two static blocks. *)
Definition other (b : Lifecycle.block) : Lifecycle.block :=
  match b with
  | Lifecycle.State_server => Lifecycle.State_client
  | Lifecycle.State_client => Lifecycle.State_server
  end.

(** The block of the role: the client's when there is a host. *)
Definition block_of_role (h : option host_item) : Lifecycle.block :=
  match h with
  | Some _ => Lifecycle.State_client
  | None => Lifecycle.State_server
  end.

(** [g'] is [g] with events added to the trace. *)
Definition trace_extended (g g' : G.t) : Prop :=
  exists es, g' = G.set_trace (G.trace g ++ es) g.

(** No session is held in the block. *)
Definition idle (st : exim_gnutls_state_st) : bool :=
  match session st with
  | None => true
  | Some _ => false
  end.

(** The block as [tls_init] has it when the session is made and the
    settings are copied in, before anything is expanded. *)
Definition fresh_block (s : option gnutls_session) (h : option host_item)
    (certificate privatekey sni cas crl require_ciphers : option string)
  : exim_gnutls_state_st :=
  set_configuration h certificate privatekey sni cas crl require_ciphers
    (set_session s exim_gnutls_state_init).

(** [st'] is [st] but for the fields the set-up writes after that: those of
    the resolver, the two further expanded settings and the priority
    cache. *)
Definition setup_wrote (st st' : exim_gnutls_state_st) : Prop :=
  st' =
    set_priority_cache (priority_cache st')
      (set_exp_tls_require_ciphers (exp_tls_require_ciphers st')
         (set_exp_tls_sni (exp_tls_sni st')
            (set_x509_cred (x509_cred st')
               (set_trigger_sni_changes (trigger_sni_changes st')
                  (set_tls_privatekey (tls_privatekey st')
                     (set_exp_tls_certificate (exp_tls_certificate st')
                        (set_exp_tls_privatekey (exp_tls_privatekey st')
                           (set_exp_tls_verify_certificates
                              (exp_tls_verify_certificates st')
                              (set_exp_tls_crl (exp_tls_crl st') st))))))))).

(** The priority string [tls_init] uses, given the expanded setting. *)
Definition priority_string (exp_tls_require_ciphers : option string) : string :=
  if Resolver.nonempty exp_tls_require_ciphers
  then Resolver.string_of exp_tls_require_ciphers
  else Lifecycle.exim_default_gnutls_priority.

(** The server name a client sends, given the expanded setting. *)
Definition server_name_calls (h : option host_item)
    (exp_tls_sni : option string) : list Lifecycle.library_call :=
  match h with
  | Some _ =>
      if Resolver.nonempty exp_tls_sni
      then [Lifecycle.Server_name_set (Resolver.string_of exp_tls_sni)]
      else []
  | None => []
  end.

(** The engine calls of a [tls_init] that returns OK. *)
Definition tls_init_calls (E : Lifecycle.env) (h : option host_item)
    (done : bool) (state' : exim_gnutls_state_st)
  : list Lifecycle.library_call :=
  (if done then [] else [Lifecycle.Global_init]) ++
  [Lifecycle.Init (block_of_role h)] ++
  match h with
  | None => [Lifecycle.Certificate_set_dh_params]
  | Some _ => []
  end ++
  [Lifecycle.Credentials_set] ++
  server_name_calls h (exp_tls_sni state') ++
  [Lifecycle.Priority_init (priority_string (exp_tls_require_ciphers state'));
   Lifecycle.Priority_set;
   Lifecycle.Db_set_cache_expiration Lifecycle.ssl_session_timeout] ++
  (if Lifecycle.gnutls_compat_mode E
   then [Lifecycle.Session_enable_compatibility_mode] else []).

(** The number a string of bytes spells, most significant byte first. *)
Definition big_endian (bs : list byte) : Z :=
  fold_left (fun r b => r * 256 + uschar_val b) bs 0.

(** ** Further runs *)

Module Scenario.

(** A server session whose engine answers the next read with [inbytes], and
    nothing after. *)
Definition reading (inbytes : Z) : exim_gnutls_state_st :=
  Sample.state_of
    (Sample.session_of (Some [Sample.certificate]) (0, 0) [] [(inbytes, [])]
       [])
    VERIFY_NONE None (Some "/etc/exim/server.pem") None.

(** A session of an engine that spells the protocol of TLS 1.0 with a
    space. *)
Definition spaced : gnutls_session :=
  {| protocol_name := "TLS 1.0";
     cipher_suite_name := "RSA_ARCFOUR_SHA1";
     cipher_key_size := 16;
     certificate_get_peers := None;
     certificate_type := GNUTLS_CRT_X509;
     certificate_type_name := "X.509";
     x509_crt_init_rc := GNUTLS_E_SUCCESS;
     x509_crt_import := fun _ => GNUTLS_E_SUCCESS;
     x509_crt_get_dn_sizing := fun _ => (GNUTLS_E_SHORT_MEMORY_BUFFER, 16);
     x509_crt_get_dn := fun _ => (GNUTLS_E_SUCCESS, "CN=peer.example");
     certificate_verify_peers2 := (-49, 0);
     channel_binding_b64 := (0, "dGxzLXVuaXF1ZQ==");
     handshake_script := [];
     recv_script := [];
     send_script := [] |}.

(** A peer that sent a chain of two certificates, which the engine
    verifies. *)
Definition chained : gnutls_session :=
  Sample.session_of (Some [Sample.certificate; Sample.pem]) (0, 0) [] [] [].

Definition trusted (requirement : peer_verify_requirement)
  : exim_gnutls_state_st :=
  Sample.state_of chained requirement None (Some "/etc/exim/server.pem") None.

(** What a server starts from when the client does, or does not, match
    [tls_verify_hosts], and matches no other list. *)
Definition server_of (s : gnutls_session) (verify_hosts : bool)
  : Orchestrator.start_env :=
  {| Orchestrator.tls_init_rc := OK;
     Orchestrator.tls_init_state :=
       Sample.state_of s VERIFY_NONE None (Some "/etc/exim/server.pem") None;
     Orchestrator.verify_hosts_match := verify_hosts;
     Orchestrator.try_verify_hosts_match := false;
     Orchestrator.fileno_smtp_in := 0;
     Orchestrator.fileno_smtp_out := 1;
     Orchestrator.client_fd := 7;
     Orchestrator.verify_certs := None;
     Orchestrator.client_timeout := 300 |}.

(** What a client on descriptor 7 starts from, with a trust store. *)
Definition client_of (s : gnutls_session) : Orchestrator.start_env :=
  {| Orchestrator.tls_init_rc := OK;
     Orchestrator.tls_init_state :=
       Sample.state_of s VERIFY_NONE (Some Sample.remote) None
         (Some "/etc/ssl/ca.pem");
     Orchestrator.verify_hosts_match := false;
     Orchestrator.try_verify_hosts_match := false;
     Orchestrator.fileno_smtp_in := 0;
     Orchestrator.fileno_smtp_out := 1;
     Orchestrator.client_fd := 7;
     Orchestrator.verify_certs := Some "/etc/ssl/ca.pem";
     Orchestrator.client_timeout := 300 |}.

(** A handshake that is asked to come back once and then succeeds. *)
Definition handshake : list (Z * bool) :=
  [(GNUTLS_E_AGAIN, false); (GNUTLS_E_SUCCESS, false)].

(** A spool directory whose cache file opens on descriptor 3 and holds
    parameters the engine accepts. *)
Definition cached : DH.env :=
  Sample.spool (3, 0) (Some (true, 3)) (3, Sample.pem) GNUTLS_E_SUCCESS.

(** A spool directory without the cache file, in which every step of the
    regeneration succeeds. *)
Definition absent : DH.env :=
  Sample.spool (-1, DH.ENOENT) None (0, []) GNUTLS_E_SUCCESS.

(** A credential set with everything loaded. *)
Definition loaded : credentials :=
  {| key_file := Some ("/etc/exim/old.pem", "/etc/exim/old.key");
     trust_file := Some "/etc/ssl/old-ca.pem";
     crl_file := Some "/etc/ssl/old-crl.pem";
     dh_params := true |}.

(** A server block before anything is expanded, as [tls_init] has it. *)
Definition configured (certificate cas : option string)
  : exim_gnutls_state_st :=
  fresh_block (Some chained) None certificate None None cas None None.

(** An engine and an Exim in which every call succeeds, and in which the
    client hello carries the server name [sni]. *)
Definition library (compat : bool) (sni : Z * Z * string) : Lifecycle.env :=
  {| Lifecycle.files := Sample.resolver;
     Lifecycle.dh := cached;
     Lifecycle.global_init := GNUTLS_E_SUCCESS;
     Lifecycle.init := fun _ => (GNUTLS_E_SUCCESS, Some chained);
     Lifecycle.credentials_set := GNUTLS_E_SUCCESS;
     Lifecycle.server_name_set := fun _ => GNUTLS_E_SUCCESS;
     Lifecycle.priority_init := fun _ => (GNUTLS_E_SUCCESS, 0);
     Lifecycle.priority_set := GNUTLS_E_SUCCESS;
     Lifecycle.gnutls_compat_mode := compat;
     Lifecycle.server_name_get := sni |}.

(** The statics of a process that has not touched the library, and of a
    server in whose block the session [state] lives. *)
Definition untouched : Lifecycle.statics :=
  {| Lifecycle.state_server := exim_gnutls_state_init;
     Lifecycle.state_client := exim_gnutls_state_init;
     Lifecycle.current_global_tls_state := None;
     Lifecycle.dh_server_params := false;
     Lifecycle.exim_gnutls_base_init_done := false;
     Lifecycle.library_calls := [] |}.

Definition serving (state : exim_gnutls_state_st) : Lifecycle.statics :=
  {| Lifecycle.state_server := state;
     Lifecycle.state_client := exim_gnutls_state_init;
     Lifecycle.current_global_tls_state := Some Lifecycle.State_server;
     Lifecycle.dh_server_params := true;
     Lifecycle.exim_gnutls_base_init_done := true;
     Lifecycle.library_calls := [] |}.

End Scenario.

(** * Properties *)

(** ** Randomness helper *)

Lemma shift_count_log2 (fuel : nat) (r i : Z) :
  0 <= r < 2 ^ Z.of_nat fuel ->
  Random.shift_count fuel r i = i + (if r =? 0 then 0 else Z.log2 r + 1).
Proof.
  revert r i. induction fuel as [|k IH]; intros r i Hr.
  - simpl in *. assert (r = 0) by lia. subst. simpl. lia.
  - cbn [Random.shift_count]. destruct (r =? 0) eqn:E; [lia|].
    apply Z.eqb_neq in E.
    assert (Hdiv : Z.shiftr r 1 = r / 2)
      by (rewrite Z.shiftr_div_pow2 by lia; reflexivity).
    rewrite Nat2Z.inj_succ, Z.pow_succ_r in Hr by lia.
    rewrite IH.
    + destruct (Z.shiftr r 1 =? 0) eqn:E2.
      * apply Z.eqb_eq in E2.
        apply Z.shiftr_eq_0_iff in E2.
        assert (0 <= Z.log2 r) by apply Z.log2_nonneg. lia.
      * apply Z.eqb_neq in E2.
        rewrite Z.log2_shiftr by lia.
        assert (~ Z.log2 r < 1).
        { intros Hlt. apply E2. apply Z.shiftr_eq_0; lia. }
        lia.
    + rewrite Hdiv. split; [apply Z.div_pos; lia|].
      apply Z.div_lt_upper_bound; lia.
Qed.

Lemma needed_len_of_spec (max : Z) :
  1 < max <= INT_MAX ->
  Random.needed_len_of max = (Z.log2 max + 8) / 8 /\
  1 <= Random.needed_len_of max <= Random.sizeof_r.
Proof.
  intros Hm. unfold Random.needed_len_of, to_uint, UINT_MODULUS, INT_MAX in *.
  rewrite Z.mod_small by lia.
  rewrite shift_count_log2 by (simpl; lia).
  destruct (max =? 0) eqn:E; [apply Z.eqb_eq in E; lia|].
  assert (1 <= Z.log2 max) by (apply Z.log2_le_pow2; lia).
  assert (Z.log2 max < 31).
  { apply Z.log2_lt_pow2; lia. }
  replace (0 + (Z.log2 max + 1) + 7) with (Z.log2 max + 8) by lia.
  unfold Random.sizeof_r.
  assert ((Z.log2 max + 8) / 8 < 5) by (apply Z.div_lt_upper_bound; lia).
  assert (1 <= (Z.log2 max + 8) / 8) by (apply Z.div_le_lower_bound; lia).
  destruct ((Z.log2 max + 8) / 8 <? 4) eqn:E4.
  - split; lia.
  - apply Z.ltb_ge in E4. split; lia.
Qed.

(** C9. [vaguely_random_number] answers 0 for every [max <= 1] and asks the
    entropy source for nothing; for [max > 1] it makes one request, of the
    least number of bytes whose bits cover [max] (at most the four bytes of
    the accumulator), and when the source succeeds the result lies in
    [0, max). *)
Theorem vaguely_random_number_range (E : Random.entropy) (max : Z) :
  (max <= 1 -> Random.vaguely_random_number E max = (0, [])) /\
  (1 < max <= INT_MAX ->
     let n := Random.needed_len_of max in
     snd (Random.vaguely_random_number E max) = [n] /\
     1 <= n <= Random.sizeof_r /\
     2 ^ (8 * (n - 1)) <= max < 2 ^ (8 * n) /\
     (0 <= fst (Random.gnutls_rnd E n) ->
      0 <= fst (Random.vaguely_random_number E max) < max)).
Proof.
  split.
  - intros H. unfold Random.vaguely_random_number.
    apply Z.leb_le in H. now rewrite H.
  - intros Hm n.
    destruct (needed_len_of_spec max Hm) as [Hn Hb]. fold n in Hn, Hb.
    assert (Hlog : 2 ^ Z.log2 max <= max < 2 ^ Z.succ (Z.log2 max))
      by (apply Z.log2_spec; lia).
    assert (Hl0 : 0 <= Z.log2 max) by apply Z.log2_nonneg.
    assert (Hdm : Z.log2 max + 8 = 8 * n + (Z.log2 max + 8) mod 8).
    { rewrite Hn. apply Z.div_mod. lia. }
    pose proof (Z.mod_pos_bound (Z.log2 max + 8) 8 ltac:(lia)) as Hmod.
    unfold Random.vaguely_random_number.
    assert (Hle : (max <=? 1) = false) by (apply Z.leb_gt; lia).
    rewrite Hle. fold n.
    destruct (Random.gnutls_rnd E n) as [i smallbuf] eqn:Ernd.
    repeat split.
    + destruct (i <? 0); reflexivity.
    + lia.
    + lia.
    + apply Z.le_trans with (2 ^ Z.log2 max); [|lia].
      apply Z.pow_le_mono_r; lia.
    + apply Z.lt_le_trans with (2 ^ Z.succ (Z.log2 max)); [lia|].
      apply Z.pow_le_mono_r; lia.
    + simpl in H. destruct (i <? 0) eqn:Ei; [apply Z.ltb_lt in Ei; lia|].
      simpl. unfold to_int, to_uint, UINT_MODULUS, INT_MAX in *.
      rewrite (Z.mod_small max) by lia.
      pose proof (Z.mod_pos_bound (Random.accumulate (Z.to_nat n) smallbuf 0) max ltac:(lia)).
      rewrite Z.mod_small by lia. lia.
    + simpl in H. destruct (i <? 0) eqn:Ei; [apply Z.ltb_lt in Ei; lia|].
      simpl. unfold to_int, to_uint, UINT_MODULUS, INT_MAX in *.
      rewrite (Z.mod_small max) by lia.
      pose proof (Z.mod_pos_bound (Random.accumulate (Z.to_nat n) smallbuf 0) max ltac:(lia)).
      rewrite Z.mod_small by lia. lia.
Qed.

(** ** Record I/O layer: byte-wise reads and the plaintext fallback *)

Lemma to_int_small (z : Z) : 0 <= z <= INT_MAX -> to_int z = z.
Proof.
  unfold to_int, UINT_MODULUS, INT_MAX. intros H.
  rewrite Z.mod_small by lia. lia.
Qed.

Lemma tls_getc_n_app (n m : nat) (state : exim_gnutls_state_st) (g : G.t)
    cs1 state1 g1 cs2 state2 g2 :
  RecordIO.tls_getc_n n state g = Some (cs1, state1, g1) ->
  RecordIO.tls_getc_n m state1 g1 = Some (cs2, state2, g2) ->
  RecordIO.tls_getc_n (n + m) state g = Some (cs1 ++ cs2, state2, g2).
Proof.
  revert state g cs1. induction n as [|k IH]; intros state g cs1 H1 H2.
  - simpl in H1. injection H1 as <- <- <-. exact H2.
  - simpl in H1 |- *.
    destruct (RecordIO.tls_getc state g) as [[[c st'] g']|]; [|discriminate].
    destruct (RecordIO.tls_getc_n k st' g') as [[[cs st''] g'']|] eqn:Ek;
      [|discriminate].
    injection H1 as <- <- <-.
    rewrite (IH _ _ _ Ek H2). reflexivity.
Qed.

(** Reads served from the buffer: no engine call, nothing but the low
    watermark moves. *)
Lemma tls_getc_n_buffered (suf pre tl : list byte)
    (state : exim_gnutls_state_st) (g : G.t) :
  xfer_buffer state = pre ++ suf ++ tl ->
  xfer_buffer_lwm state = Z.of_nat (List.length pre) ->
  xfer_buffer_hwm state = Z.of_nat (List.length pre + List.length suf) ->
  RecordIO.tls_getc_n (List.length suf) state g =
    Some (map uschar_val suf,
          set_xfer_buffer_lwm (xfer_buffer_hwm state) state, g).
Proof.
  revert pre state. induction suf as [|b suf IH]; intros pre state Hb Hl Hh.
  - simpl. rewrite Hh, Nat.add_0_r, <- Hl. destruct state; reflexivity.
  - cbn [List.length RecordIO.tls_getc_n]. unfold RecordIO.tls_getc.
    assert (Hlt : (xfer_buffer_lwm state >=? xfer_buffer_hwm state) = false).
    { rewrite Z.geb_leb. apply Z.leb_gt. rewrite Hl, Hh. simpl. lia. }
    rewrite Hlt. unfold RecordIO.next_uschar.
    rewrite (IH (pre ++ [b])).
    + assert (Hn : nth (Z.to_nat (xfer_buffer_lwm state)) (xfer_buffer state)
                     "000"%byte = b).
      { rewrite Hb, Hl. rewrite Nat2Z.id. rewrite app_nth2 by lia.
        rewrite Nat.sub_diag. reflexivity. }
      rewrite Hn. reflexivity.
    + cbn. rewrite Hb, <- app_assoc. reflexivity.
    + cbn. rewrite Hl, length_app. simpl. lia.
    + cbn. rewrite Hh, length_app. simpl. f_equal. lia.
Qed.

Lemma set_trace_same (g : G.t) : G.set_trace (G.trace g) g = g.
Proof. destruct g; reflexivity. Qed.

Lemma arm_receive_timeout_trace (g : G.t) :
  arm_receive_timeout g = G.set_trace (G.trace g ++ arm_events g) g.
Proof.
  unfold arm_receive_timeout, arm_events, alarm, G.emit.
  destruct (G.smtp_receive_timeout g >? 0); [reflexivity|].
  rewrite app_nil_r, set_trace_same. reflexivity.
Qed.

(** The globals after the engine read of [tls_getc] and the two alarm
    calls around it. *)
Lemma read_globals (g : G.t) :
  alarm 0
    (G.emit (Ev_engine (Record_recv
                          (G.ssl_xfer_buffer_size (arm_receive_timeout g))))
       (arm_receive_timeout g)) =
  G.set_trace (G.trace g ++ read_events g) g.
Proof.
  rewrite arm_receive_timeout_trace. unfold alarm, read_events, G.emit.
  cbn [G.trace G.set_trace G.ssl_xfer_buffer_size].
  rewrite <- !app_assoc. reflexivity.
Qed.

(** One record of the engine, read to its last byte. *)
Lemma tls_getc_n_chunk (c : list byte) (rest : list (Z * list byte))
    (s : gnutls_session) (state : exim_gnutls_state_st) (g : G.t) :
  session state = Some s ->
  recv_script s = recv_of_chunk c :: rest ->
  xfer_buffer_hwm state <= xfer_buffer_lwm state ->
  0 < Z.of_nat (List.length c) <= INT_MAX ->
  let n := Z.of_nat (List.length c) in
  RecordIO.tls_getc_n (List.length c) state g =
    Some (map uschar_val c,
          set_xfer_buffer_lwm n (set_xfer_buffer_hwm n
            (set_xfer_buffer (RecordIO.store c (xfer_buffer state))
              (set_session (Some (set_recv_script rest s)) state))),
          G.set_trace (G.trace g ++ recv_events g c) g).
Proof.
  intros Hs Hscript Hempty Hlen n.
  destruct c as [|b c]; [simpl in Hlen; lia|].
  cbn [List.length RecordIO.tls_getc_n]. unfold RecordIO.tls_getc.
  assert (Hge : (xfer_buffer_lwm state >=? xfer_buffer_hwm state) = true)
    by (rewrite Z.geb_leb; apply Z.leb_le; lia).
  rewrite Hge, Hs, Hscript. unfold recv_of_chunk. cbv zeta.
  rewrite read_globals.
  assert (Hnz : (Z.of_nat (List.length (b :: c)) =? 0) = false)
    by (apply Z.eqb_neq; lia).
  assert (Hnn : (Z.of_nat (List.length (b :: c)) <? 0) = false)
    by (apply Z.ltb_ge; lia).
  rewrite Hnz, Hnn, to_int_small by lia.
  unfold RecordIO.next_uschar.
  match goal with
  | |- context [RecordIO.tls_getc_n _ ?st ?gg] =>
      rewrite (tls_getc_n_buffered c [b]
                 (skipn (List.length (b :: c)) (xfer_buffer state)) st gg)
  end.
  - assert (Hf : firstn (Z.to_nat (Z.of_nat (List.length (b :: c))))
                   (RecordIO.store (b :: c) (xfer_buffer state)) = b :: c).
    { unfold RecordIO.store.
      rewrite Nat2Z.id, firstn_app, firstn_all, Nat.sub_diag.
      cbn [firstn]. apply app_nil_r. }
    apply f_equal. apply f_equal2; [apply f_equal2|].
    + reflexivity.
    + reflexivity.
    + unfold G.emit, recv_events.
      cbn [G.trace G.set_trace xfer_buffer set_xfer_buffer set_session].
      rewrite Hf, <- app_assoc. reflexivity.
  - reflexivity.
  - reflexivity.
  - cbn. lia.
Qed.

Lemma set_recv_script_same (s : gnutls_session) :
  set_recv_script (recv_script s) s = s.
Proof. destruct s; reflexivity. Qed.

(** Any number of records, read to the last byte: the bytes come out in
    order, each record costs one engine read and one DKIM feed, and only the
    session's pending answers and the buffer cursors of the state move. *)
Lemma tls_getc_n_chunks (chunks : list (list byte))
    (rest : list (Z * list byte)) (s : gnutls_session)
    (state : exim_gnutls_state_st) (g : G.t) :
  session state = Some s ->
  recv_script s = map recv_of_chunk chunks ++ rest ->
  xfer_buffer_hwm state <= xfer_buffer_lwm state ->
  Forall (fun c => 0 < Z.of_nat (List.length c) <= INT_MAX) chunks ->
  exists buf lwm hwm,
    hwm <= lwm /\
    RecordIO.tls_getc_n (List.length (List.concat chunks)) state g =
      Some (map uschar_val (List.concat chunks),
            set_xfer_buffer_lwm lwm (set_xfer_buffer_hwm hwm
              (set_xfer_buffer buf
                (set_session (Some (set_recv_script rest s)) state))),
            G.set_trace
              (G.trace g ++
               flat_map (recv_events g) chunks) g).
Proof.
  revert s state g.
  induction chunks as [|c chunks IH]; intros s state g Hs Hscript Hempty Hall.
  - exists (xfer_buffer state), (xfer_buffer_lwm state), (xfer_buffer_hwm state).
    split; [exact Hempty|].
    simpl in Hscript |- *. subst rest. rewrite set_recv_script_same, app_nil_r.
    destruct state, g; simpl in *; subst; reflexivity.
  - inversion Hall as [|? ? Hc Hall']; subst.
    pose proof (tls_getc_n_chunk c (map recv_of_chunk chunks ++ rest)
                  s state g Hs Hscript Hempty Hc) as H1.
    cbv zeta in H1.
    match type of H1 with
    | _ = Some (_, ?st1, ?g1) =>
        destruct (IH (set_recv_script (map recv_of_chunk chunks ++ rest) s)
                    st1 g1 eq_refl eq_refl (Z.le_refl _) Hall')
          as (buf & lwm & hwm & Hle & H2)
    end.
    exists buf, lwm, hwm. split; [exact Hle|].
    cbn [List.concat flat_map]. rewrite length_app, map_app.
    rewrite (tls_getc_n_app _ _ _ _ _ _ _ _ _ _ H1 H2).
    apply f_equal. apply f_equal2; [reflexivity|].
    unfold recv_events, read_events.
    cbn [G.trace G.set_trace G.ssl_xfer_buffer_size G.smtp_receive_timeout].
    rewrite <- !app_assoc. reflexivity.
Qed.

(** The read that finds the session closed: the plaintext fallback. *)
Lemma tls_getc_zero_read (junk : list byte) (rest : list (Z * list byte))
    (s : gnutls_session) (state : exim_gnutls_state_st) (g : G.t) :
  session state = Some s ->
  recv_script s = (0, junk) :: rest ->
  xfer_buffer_hwm state <= xfer_buffer_lwm state ->
  exists c g2,
    RecordIO.tls_getc state g = Some (c, set_session None state, g2) /\
    (c, G.smtp_inbuffer g2) =
      match G.smtp_inbuffer g with
      | [] => (EOF, [])
      | b :: pending => (uschar_val b, pending)
      end /\
    (G.receive_getc g2, G.receive_ungetc g2, G.receive_feof g2,
     G.receive_ferror g2, G.receive_smtp_buffered g2) =
      (Smtp_fn, Smtp_fn, Smtp_fn, Smtp_fn, Smtp_fn) /\
    G.trace g2 = G.trace g ++ read_events g ++ [Ev_engine Deinit] /\
    (G.tls_active g2, G.tls_bits g2, G.tls_certificate_verified g2,
     G.tls_channelbinding_b64 g2, G.tls_cipher g2, G.tls_peerdn g2) =
      (-1, 0, false, None, None, None).
Proof.
  intros Hs Hscript Hempty. unfold RecordIO.tls_getc.
  assert (Hge : (xfer_buffer_lwm state >=? xfer_buffer_hwm state) = true)
    by (rewrite Z.geb_leb; apply Z.leb_le; lia).
  rewrite Hge, Hs, Hscript. cbn [Z.eqb]. cbv zeta.
  rewrite read_globals.
  generalize (read_events g). intros evs.
  destruct g.
  cbv beta iota zeta delta
      [RecordIO.smtp_getc RecordIO.clear_tls_vars RecordIO.revert_to_smtp
       G.emit G.smtp_inbuffer G.trace G.receive_getc G.receive_ungetc
       G.receive_feof G.receive_ferror G.receive_smtp_buffered G.tls_active
       G.tls_bits G.tls_certificate_verified G.tls_channelbinding_b64
       G.tls_cipher G.tls_peerdn G.tls_sni G.sigalrm_seen G.smtp_in_open
       G.smtp_out_open G.tls_on_connect G.smtp_receive_timeout
       G.ssl_xfer_buffer_size
       G.set_trace G.set_receive_getc G.set_receive_ungetc
       G.set_receive_feof G.set_receive_ferror G.set_receive_smtp_buffered
       G.set_tls_active G.set_tls_bits G.set_tls_certificate_verified
       G.set_tls_channelbinding_b64 G.set_tls_cipher G.set_tls_peerdn
       G.set_smtp_inbuffer].
  rewrite <- app_assoc.
  destruct smtp_inbuffer as [|b pending];
    eexists; eexists; (split; [reflexivity|]);
    cbv beta iota delta
      [G.smtp_inbuffer G.trace G.receive_getc G.receive_ungetc
       G.receive_feof G.receive_ferror G.receive_smtp_buffered G.tls_active
       G.tls_bits G.tls_certificate_verified G.tls_channelbinding_b64
       G.tls_cipher G.tls_peerdn];
    repeat (split; [reflexivity|]); reflexivity.
Qed.

(** C2. A session whose engine delivers records holding N > 0 bytes in all
    and then a zero-length read: N calls of [tls_getc] return exactly those
    bytes, in order, with the receive pointers, the session and the published
    facts untouched (only the engine reads, their alarms and the DKIM feeds
    are added to the trace); the next call switches the five receive
    pointers to the plaintext functions, deinitialises and forgets the
    session, clears
    tls_active, tls_bits, tls_certificate_verified, tls_channelbinding_b64,
    tls_cipher and tls_peerdn, and returns the first pending byte of the
    plaintext source, consuming that byte and no other. *)
Theorem tls_getc_bytes_then_fallback
    (chunks : list (list byte)) (junk : list byte)
    (rest : list (Z * list byte)) (s : gnutls_session)
    (state : exim_gnutls_state_st) (g : G.t) :
  session state = Some s ->
  xfer_buffer_hwm state <= xfer_buffer_lwm state ->
  chunks <> [] ->
  Forall (fun c => 0 < Z.of_nat (List.length c) <= G.ssl_xfer_buffer_size g)
         chunks ->
  G.ssl_xfer_buffer_size g <= INT_MAX ->
  recv_script s = map recv_of_chunk chunks ++ (0, junk) :: rest ->
  let bytes := List.concat chunks in
  exists state1 g1 c state2 g2,
    (0 < List.length bytes)%nat /\
    RecordIO.tls_getc_n (List.length bytes) state g =
      Some (map uschar_val bytes, state1, g1) /\
    g1 = G.set_trace (G.trace g ++ flat_map (recv_events g) chunks) g /\
    session state1 <> None /\
    RecordIO.tls_getc state1 g1 = Some (c, state2, g2) /\
    (c, G.smtp_inbuffer g2) =
      match G.smtp_inbuffer g with
      | [] => (EOF, [])
      | b :: pending => (uschar_val b, pending)
      end /\
    (G.receive_getc g2, G.receive_ungetc g2, G.receive_feof g2,
     G.receive_ferror g2, G.receive_smtp_buffered g2) =
      (Smtp_fn, Smtp_fn, Smtp_fn, Smtp_fn, Smtp_fn) /\
    session state2 = None /\
    G.trace g2 = G.trace g1 ++ read_events g ++ [Ev_engine Deinit] /\
    (G.tls_active g2, G.tls_bits g2, G.tls_certificate_verified g2,
     G.tls_channelbinding_b64 g2, G.tls_cipher g2, G.tls_peerdn g2) =
      (-1, 0, false, None, None, None).
Proof.
  intros Hs Hempty Hne Hall Hsize Hscript bytes.
  assert (Hall' : Forall (fun c => 0 < Z.of_nat (List.length c) <= INT_MAX)
                         chunks).
  { eapply Forall_impl; [|exact Hall]. cbv beta. intros c Hc. lia. }
  assert (Hpos : (0 < List.length bytes)%nat).
  { destruct chunks as [|c0 chunks]; [congruence|].
    inversion Hall as [|? ? Hc0 _]; subst. unfold bytes. cbn [List.concat].
    rewrite length_app. lia. }
  destruct (tls_getc_n_chunks chunks ((0, junk) :: rest) s state g
              Hs Hscript Hempty Hall') as (buf & lwm & hwm & Hle & Hn).
  fold bytes in Hn.
  remember (set_xfer_buffer_lwm lwm (set_xfer_buffer_hwm hwm
              (set_xfer_buffer buf
                (set_session (Some (set_recv_script ((0, junk) :: rest) s))
                   state)))) as state1 eqn:Est.
  remember (G.set_trace (G.trace g ++ flat_map (recv_events g) chunks) g)
    as g1 eqn:Eg.
  assert (Hs1 : session state1 =
                Some (set_recv_script ((0, junk) :: rest) s))
    by (subst state1; reflexivity).
  assert (Hle1 : xfer_buffer_hwm state1 <= xfer_buffer_lwm state1)
    by (subst state1; exact Hle).
  assert (Hbuf1 : G.smtp_inbuffer g1 = G.smtp_inbuffer g)
    by (subst g1; reflexivity).
  assert (Hsz1 : read_events g1 = read_events g)
    by (subst g1; reflexivity).
  destruct (tls_getc_zero_read junk rest _ state1 g1 Hs1 eq_refl Hle1)
    as (c & g2 & Hz & Hc & Hfns & Htrace & Hvars).
  rewrite Hbuf1 in Hc. rewrite Hsz1 in Htrace.
  exists state1, g1, c, (set_session None state1), g2.
  split; [exact Hpos|].
  split; [exact Hn|].
  split; [reflexivity|].
  split; [rewrite Hs1; discriminate|].
  split; [exact Hz|].
  split; [exact Hc|].
  split; [exact Hfns|].
  split; [reflexivity|].
  split; [exact Htrace|exact Hvars].
Qed.

(** ** Record I/O layer: bulk reads *)

(** C10. Whatever the engine answers, [tls_read] leaves the state as it was
    but for the answer consumed from the session (so the session stays, and
    [xfer_error] keeps its value), and the globals as they were but for the
    trace (so the receive pointers stay, and no session is deinitialised).
    A zero-length read returns -1, as a failed read does, and adds nothing to
    the trace but the engine read itself; the error log is written exactly
    when the engine's answer is negative. *)
Theorem tls_read_no_fallback (len inbytes : Z) (data : list byte)
    (rest : list (Z * list byte)) (s : gnutls_session)
    (state : exim_gnutls_state_st) (g : G.t) :
  session state = Some s ->
  recv_script s = (inbytes, data) :: rest ->
  exists r buff g',
    RecordIO.tls_read len state g =
      Some (r, buff, set_session (Some (set_recv_script rest s)) state, g') /\
    (exists added,
       g' = G.set_trace (G.trace g ++ Ev_engine (Record_recv
              (if len >? INT_MAX then INT_MAX else len)) :: added) g /\
       forallb (fun e => negb (is_tls_error e)) added = (0 <=? inbytes) /\
       (inbytes = 0 -> added = [])) /\
    (inbytes <= 0 -> r = -1) /\
    ~ In (Ev_engine Deinit) (skipn (List.length (G.trace g)) (G.trace g')) /\
    (G.receive_getc g', G.receive_ungetc g', G.receive_feof g',
     G.receive_ferror g', G.receive_smtp_buffered g') =
    (G.receive_getc g, G.receive_ungetc g, G.receive_feof g,
     G.receive_ferror g, G.receive_smtp_buffered g) /\
    xfer_error (set_session (Some (set_recv_script rest s)) state) =
      xfer_error state.
Proof.
  intros Hs Hscript. unfold RecordIO.tls_read. rewrite Hs, Hscript.
  set (len' := if len >? INT_MAX then INT_MAX else len).
  set (st' := set_session (Some (set_recv_script rest s)) state).
  assert (Hskip : forall l, skipn (List.length (G.trace g)) (G.trace g ++ l) = l).
  { intros l. rewrite skipn_app, Nat.sub_diag, skipn_all. reflexivity. }
  destruct (inbytes >? 0) eqn:Epos; [|destruct (inbytes =? 0) eqn:Ez].
  - apply Z.gtb_lt in Epos.
    exists (to_int inbytes), data, (G.emit (Ev_engine (Record_recv len')) g).
    split; [reflexivity|]. split.
    { exists []. split; [reflexivity|]. split; [|reflexivity].
      symmetry. apply Z.leb_le. lia. }
    split; [lia|]. split; [|split; reflexivity].
    unfold G.emit. cbn [G.trace G.set_trace]. rewrite Hskip.
    intros [H|[]]; discriminate.
  - apply Z.eqb_eq in Ez. subst inbytes.
    exists (-1), [], (G.emit (Ev_engine (Record_recv len')) g).
    split; [reflexivity|]. split.
    { exists []. repeat split; reflexivity. }
    split; [reflexivity|]. split; [|split; reflexivity].
    unfold G.emit. cbn [G.trace G.set_trace]. rewrite Hskip.
    intros [H|[]]; discriminate.
  - apply Z.eqb_neq in Ez.
    assert (Hneg : inbytes < 0)
      by (destruct (Z.gtb_spec inbytes 0); [discriminate|lia]).
    exists (-1), [],
      (record_io_error st' (to_int inbytes) "recv"
         (G.emit (Ev_engine (Record_recv len')) g)).
    split; [reflexivity|].
    unfold record_io_error, tls_error.
    set (msg := if to_int inbytes =? GNUTLS_E_FATAL_ALERT_RECEIVED
                then Msg_alert (to_int inbytes)
                else Msg_gnutls_strerror (to_int inbytes)).
    assert (Hle : (0 <=? inbytes) = false) by (apply Z.leb_gt; lia).
    destruct (host st') as [h|]; cbn [snd]; unfold G.emit;
      cbn [G.trace G.set_trace G.receive_getc G.receive_ungetc G.receive_feof
           G.receive_ferror G.receive_smtp_buffered].
    + split.
      { exists [Ev_tls_error "recv" msg (Some h)]. rewrite Hle.
        split; [rewrite <- app_assoc; reflexivity|]. split; [reflexivity|lia]. }
      split; [reflexivity|]. split; [|split; reflexivity].
      rewrite <- app_assoc, Hskip. intros [H|[H|[]]]; discriminate.
    + split.
      { exists [Ev_tls_error "recv" msg None]. rewrite Hle.
        split; [rewrite <- app_assoc; reflexivity|]. split; [reflexivity|lia]. }
      split; [reflexivity|]. split; [|split; reflexivity].
      rewrite <- app_assoc, Hskip. intros [H|[H|[]]]; discriminate.
Qed.

(** ** Record I/O layer: bulk writes *)

Lemma sum_Z_pos_nonneg (l : list Z) : Forall (fun o => 0 < o) l -> 0 <= sum_Z l.
Proof.
  induction 1 as [|o l Ho _ IH]; simpl; lia.
Qed.

(** Partial writes that add up to [left] take the loop to its end. *)
Lemma tls_write_loop_complete (state : exim_gnutls_state_st)
    (sends rest : list Z) (left buff : Z) (g : G.t) :
  Forall (fun o => 0 < o) sends ->
  sum_Z sends = left ->
  left < SIZE_MODULUS ->
  RecordIO.tls_write_loop state (sends ++ rest) left buff g =
    Some (true, rest,
          G.set_trace (G.trace g ++ send_events buff left sends) g).
Proof.
  intros Hall. revert left buff g.
  induction Hall as [|o sends Ho Hall IH]; intros left buff g Hsum Hlt.
  - simpl in Hsum. subst left. simpl.
    rewrite app_nil_r, set_trace_same. destruct rest; reflexivity.
  - simpl in Hsum. pose proof (sum_Z_pos_nonneg sends Hall) as Hnn.
    cbn [app RecordIO.tls_write_loop].
    assert (H1 : (left >? 0) = true) by (apply Z.gtb_lt; lia).
    assert (H2 : (o <? 0) = false) by (apply Z.ltb_ge; lia).
    assert (H3 : (o =? 0) = false) by (apply Z.eqb_neq; lia).
    rewrite H1, H2, H3.
    unfold to_size_t. rewrite Z.mod_small by lia.
    rewrite IH by lia.
    unfold G.emit. cbn [G.trace G.set_trace send_events].
    rewrite <- app_assoc. reflexivity.
Qed.

(** Partial writes that fall short, then an answer that is not positive:
    the loop leaves through a [return -1]. *)
Lemma tls_write_loop_fails (state : exim_gnutls_state_st)
    (sends rest : list Z) (o left buff : Z) (g : G.t) :
  Forall (fun o => 0 < o) sends ->
  sum_Z sends < left ->
  left < SIZE_MODULUS ->
  o <= 0 ->
  exists g',
    RecordIO.tls_write_loop state (sends ++ o :: rest) left buff g =
      Some (false, rest, g').
Proof.
  intros Hall. revert left buff g.
  induction Hall as [|o1 sends Ho Hall IH]; intros left buff g Hsum Hlt Hbad.
  - simpl in Hsum. cbn [app RecordIO.tls_write_loop].
    assert (H1 : (left >? 0) = true) by (apply Z.gtb_lt; lia).
    rewrite H1.
    destruct (o <? 0) eqn:E; [eexists; reflexivity|].
    assert (H3 : (o =? 0) = true) by (apply Z.eqb_eq; apply Z.ltb_ge in E; lia).
    rewrite H3. eexists; reflexivity.
  - simpl in Hsum. pose proof (sum_Z_pos_nonneg sends Hall) as Hnn.
    cbn [app RecordIO.tls_write_loop].
    assert (H1 : (left >? 0) = true) by (apply Z.gtb_lt; lia).
    assert (H2 : (o1 <? 0) = false) by (apply Z.ltb_ge; lia).
    assert (H3 : (o1 =? 0) = false) by (apply Z.eqb_neq; lia).
    rewrite H1, H2, H3.
    unfold to_size_t. rewrite Z.mod_small by lia.
    apply IH; lia.
Qed.

Lemma tls_write_complete (state : exim_gnutls_state_st) (s : gnutls_session)
    (sends rest : list Z) (len : Z) (g : G.t) :
  session state = Some s ->
  send_script s = sends ++ rest ->
  Forall (fun o => 0 < o) sends ->
  sum_Z sends = len ->
  len < SIZE_MODULUS ->
  RecordIO.tls_write len state g =
    Some (Z.min len INT_MAX, after_write rest state,
          G.set_trace (G.trace g ++ send_events 0 len sends) g).
Proof.
  intros Hs Hscript Hall Hsum Hlt.
  unfold RecordIO.tls_write, after_write. rewrite Hs, Hscript.
  rewrite (tls_write_loop_complete state sends rest len 0 g Hall Hsum Hlt).
  pose proof (sum_Z_pos_nonneg sends Hall) as Hnn.
  apply f_equal. apply f_equal2; [apply f_equal2|]; try reflexivity.
  destruct (len >? INT_MAX) eqn:E.
  - apply Z.gtb_lt in E. rewrite Z.min_r by lia. reflexivity.
  - destruct (Z.gtb_spec len INT_MAX); [discriminate|].
    rewrite Z.min_l by lia. apply to_int_small. lia.
Qed.

Lemma sum_Z_repeat (o : Z) (n : nat) : sum_Z (repeat o n) = o * Z.of_nat n.
Proof.
  induction n as [|n IH]; [simpl; lia|].
  cbn [repeat sum_Z fold_right]. fold (sum_Z (repeat o n)). rewrite IH. lia.
Qed.

(** C8 (amended). [tls_write] keeps sending until nothing is left: partial
    writes that add up to [len] make it return [len] when [len] fits an
    [int], and [INT_MAX] when it does not, each send starting where the one
    before stopped; a negative or zero answer of the engine before that makes
    it return -1; and it never returns anything else, so never a short
    count. *)
Theorem tls_write_all_or_error (state : exim_gnutls_state_st)
    (s : gnutls_session) (sends rest : list Z) (len : Z) (g : G.t) :
  session state = Some s ->
  0 <= len < SIZE_MODULUS ->
  Forall (fun o => 0 < o) sends ->
  (sum_Z sends = len -> send_script s = sends ++ rest ->
   RecordIO.tls_write len state g =
     Some (Z.min len INT_MAX, after_write rest state,
           G.set_trace (G.trace g ++ send_events 0 len sends) g)) /\
  (forall o, sum_Z sends < len -> o <= 0 ->
   send_script s = sends ++ o :: rest ->
   exists g',
     RecordIO.tls_write len state g = Some (-1, after_write rest state, g')) /\
  (forall r state' g',
   RecordIO.tls_write len state g = Some (r, state', g') ->
   r = -1 \/ r = Z.min len INT_MAX).
Proof.
  intros Hs Hlen Hall. split; [|split].
  - intros Hsum Hscript.
    apply (tls_write_complete state s sends rest len g); auto; lia.
  - intros o Hsum Ho Hscript.
    destruct (tls_write_loop_fails state sends rest o len 0 g Hall Hsum
                ltac:(lia) Ho) as [g' Hloop].
    exists g'. unfold RecordIO.tls_write, after_write.
    rewrite Hs, Hscript, Hloop. reflexivity.
  - intros r state' g'. unfold RecordIO.tls_write.
    destruct (RecordIO.tls_write_loop _ _ _ _ _) as [[[completed script] g1]|];
      [|discriminate].
    destruct completed; intros H; injection H as <- _ _; [right|left; reflexivity].
    unfold INT_MAX in *. destruct (len >? 2147483647) eqn:E.
    + apply Z.gtb_lt in E. rewrite Z.min_r by lia. reflexivity.
    + destruct (Z.gtb_spec len 2147483647); [discriminate|].
      rewrite Z.min_l by lia. apply to_int_small. unfold INT_MAX. lia.
Qed.

(** ** Peer identity and verifier *)

Ltac break_match :=
  match goal with
  | |- context [match ?x with _ => _ end] =>
      match type of x with
      | sumbool _ _ => destruct x
      | _ => destruct x eqn:?
      end
  end.

(** [peer_status] either returns at its guard, leaving everything as it was,
    or sets the guard and writes nothing but the cached cipher suite and
    distinguished name. *)
Lemma peer_status_frame (fmt : string -> string -> Z -> string)
    (state state1 : exim_gnutls_state_st) (g g1 : G.t) (rc : Z) :
  Verifier.peer_status fmt state g = Some (rc, state1, g1) ->
  (have_set_peerdn state = true /\ rc = OK /\ state1 = state /\ g1 = g) \/
  (have_set_peerdn state = false /\
   exists c p,
     state1 = set_peerdn p (set_ciphersuite c
                (set_have_set_peerdn true state))).
Proof.
  unfold Verifier.peer_status, Verifier.exim_gnutls_peer_err, tls_error.
  destruct (have_set_peerdn state) eqn:Hguard.
  - intros H. injection H as <- <- <-. left. auto.
  - intros H. right. split; [reflexivity|]. revert H.
    repeat break_match; intros H; try discriminate;
      injection H as _ <- _;
      eexists; eexists; reflexivity.
Qed.

Lemma peer_status_guarded (fmt : string -> string -> Z -> string)
    (state : exim_gnutls_state_st) (g : G.t) :
  have_set_peerdn state = true ->
  Verifier.peer_status fmt state g = Some (OK, state, g).
Proof.
  intros H. unfold Verifier.peer_status. rewrite H. reflexivity.
Qed.

(** C5. Once [have_set_peerdn] is set, [peer_status] returns OK at once and
    leaves the state and the globals exactly as they were: no engine call is
    added to the trace, nothing is parsed.  Every run of [peer_status] that
    returns sets the guard, so a second call on what the first one left is
    such a call, and the distinguished name cached after it is the one the
    first call cached. *)
Theorem peer_status_idempotent (fmt : string -> string -> Z -> string)
    (state : exim_gnutls_state_st) (g : G.t) :
  (have_set_peerdn state = true ->
   Verifier.peer_status fmt state g = Some (OK, state, g)) /\
  (forall rc state1 g1,
     Verifier.peer_status fmt state g = Some (rc, state1, g1) ->
     have_set_peerdn state1 = true /\
     Verifier.peer_status fmt state1 g1 = Some (OK, state1, g1) /\
     forall rc2 state2 g2,
       Verifier.peer_status fmt state1 g1 = Some (rc2, state2, g2) ->
       rc2 = OK /\ peerdn state2 = peerdn state1 /\
       G.trace g2 = G.trace g1).
Proof.
  split; [apply peer_status_guarded|].
  intros rc state1 g1 H.
  assert (Hguard : have_set_peerdn state1 = true).
  { destruct (peer_status_frame fmt state state1 g g1 rc H)
      as [(Hg & _ & -> & _)|(_ & c & p & ->)]; [exact Hg|reflexivity]. }
  split; [exact Hguard|].
  pose proof (peer_status_guarded fmt state1 g1 Hguard) as H2.
  split; [exact H2|].
  intros rc2 state2 g2 H3. rewrite H2 in H3.
  injection H3 as <- <- <-. auto.
Qed.

(** The first [peer_status] of a session whose peer sent no certificate. *)
Lemma peer_status_no_certificate (fmt : string -> string -> Z -> string)
    (state : exim_gnutls_state_st) (g : G.t) (s : gnutls_session) :
  session state = Some s ->
  have_set_peerdn state = false ->
  no_peer_certificate s ->
  exists rc c g',
    Verifier.peer_status fmt state g =
      Some (rc, set_ciphersuite c (set_peerdn None
                  (set_have_set_peerdn true state)), g') /\
    (verify_requirement state = VERIFY_REQUIRED -> rc = FAIL \/ rc = DEFER) /\
    (verify_requirement state <> VERIFY_REQUIRED -> rc = OK).
Proof.
  intros Hs Hguard Hnone. unfold Verifier.peer_status, tls_error.
  rewrite Hguard.
  change (session (set_peerdn None (set_have_set_peerdn true state)))
    with (session state).
  rewrite Hs.
  match goal with
  | |- context [is_required (verify_requirement ?st)] =>
      change (verify_requirement st) with (verify_requirement state)
  end.
  match goal with
  | |- context [host ?st] =>
      change (host st) with (host state)
  end.
  destruct Hnone as [-> | ->];
    destruct (verify_requirement state); cbn [is_required];
    try destruct (host state);
    eexists; eexists; eexists; (split; [reflexivity|]);
    split; intros H; try discriminate; try congruence; auto.
Qed.

(** C3. A session whose peer presents no certificate.  Under
    [VERIFY_REQUIRED], at the first extraction of the peer's identity,
    [verify_certificate] answers FALSE with the reason "not supplied", the
    verified flag is false, and the fatal alert was the last thing done.
    Under [VERIFY_NONE], where the engine's own verification reports its
    no-certificate error (a negative code), [verify_certificate] answers TRUE
    with the verified flag false. *)
Theorem verify_certificate_no_peer_certificate
    (fmt : string -> string -> Z -> string)
    (state : exim_gnutls_state_st) (g : G.t) (s : gnutls_session) :
  session state = Some s ->
  no_peer_certificate s ->
  (verify_requirement state = VERIFY_REQUIRED ->
   have_set_peerdn state = false ->
   exists state' g' tr,
     Verifier.verify_certificate fmt state g =
       Some (false, Some "not supplied", state', g') /\
     peer_cert_verified state' = false /\
     G.trace g' = tr ++ [Ev_engine Alert_send_bad_certificate]) /\
  (verify_requirement state = VERIFY_NONE ->
   fst (certificate_verify_peers2 s) < 0 ->
   exists error state' g',
     Verifier.verify_certificate fmt state g =
       Some (true, error, state', g') /\
     peer_cert_verified state' = false).
Proof.
  intros Hs Hnone. split.
  - intros Hreq Hguard.
    destruct (peer_status_no_certificate fmt state g s Hs Hguard Hnone)
      as (rc & c & g1 & Hps & Hrc & _).
    specialize (Hrc Hreq).
    unfold Verifier.verify_certificate. rewrite Hps.
    assert (Hne : negb (rc =? OK) = true)
      by (destruct Hrc; subst rc; reflexivity).
    rewrite Hne.
    change (Z.land GNUTLS_CERT_INVALID
              (Z.lor GNUTLS_CERT_INVALID GNUTLS_CERT_REVOKED) =? 0)
      with false.
    rewrite orb_true_r.
    match goal with
    | |- context [is_required (verify_requirement ?st)] =>
        change (verify_requirement st) with (verify_requirement state)
    end.
    rewrite Hreq. cbn [is_required].
    eexists; eexists; exists (G.trace g1).
    split; [reflexivity|]. split; reflexivity.
  - intros Hnone_policy Hneg.
    assert (Hps : exists rc state1 g1,
               Verifier.peer_status fmt state g = Some (rc, state1, g1) /\
               rc = OK /\ session state1 = Some s /\
               verify_requirement state1 = VERIFY_NONE).
    { destruct (have_set_peerdn state) eqn:Hguard.
      - exists OK, state, g. rewrite (peer_status_guarded fmt state g Hguard).
        auto.
      - destruct (peer_status_no_certificate fmt state g s Hs Hguard Hnone)
          as (rc & c & g1 & Hps & _ & Hrc).
        eexists; eexists; eexists. split; [exact Hps|].
        split; [apply Hrc; congruence|]. split; assumption. }
    destruct Hps as (rc & state1 & g1 & Hps & -> & Hs1 & Hreq1).
    unfold Verifier.verify_certificate. rewrite Hps.
    change (negb (OK =? OK)) with false. cbv iota.
    rewrite Hs1.
    destruct (certificate_verify_peers2 s) as [rc verify].
    cbn [fst] in Hneg.
    assert (Hlt : (rc <? 0) = true) by (apply Z.ltb_lt; exact Hneg).
    rewrite Hlt. cbn [orb].
    match goal with
    | |- context [is_required (verify_requirement ?st)] =>
        change (verify_requirement st) with (verify_requirement state1)
    end.
    rewrite Hreq1. cbn [is_required].
    eexists; eexists; eexists. split; reflexivity.
Qed.

Lemma land_either_bit (verify : Z) :
  Z.land verify GNUTLS_CERT_INVALID <> 0 \/
  Z.land verify GNUTLS_CERT_REVOKED <> 0 ->
  (Z.land verify (Z.lor GNUTLS_CERT_INVALID GNUTLS_CERT_REVOKED) =? 0) = false.
Proof.
  intros H. apply Z.eqb_neq. rewrite Z.land_lor_distr_r.
  intros H0. apply Z.lor_eq_0_iff in H0. destruct H0, H; contradiction.
Qed.

(** C6. When the engine's verification was consulted and its result has the
    invalid bit, the revoked bit or both set, [verify_certificate] takes the
    failure branch: the verified flag is false, and the reason is "revoked"
    when the revoked bit is set (whatever the invalid bit) and "invalid"
    when it is not.  The answer is FALSE under [VERIFY_REQUIRED] and TRUE
    under the two weaker policies. *)
Theorem verify_certificate_invalid_or_revoked
    (fmt : string -> string -> Z -> string)
    (state state1 : exim_gnutls_state_st) (g g1 : G.t) (s : gnutls_session)
    (rc verify : Z) :
  Verifier.peer_status fmt state g = Some (OK, state1, g1) ->
  session state1 = Some s ->
  certificate_verify_peers2 s = (rc, verify) ->
  Z.land verify GNUTLS_CERT_INVALID <> 0 \/
  Z.land verify GNUTLS_CERT_REVOKED <> 0 ->
  exists state' g',
    Verifier.verify_certificate fmt state g =
      Some (negb (is_required (verify_requirement state)),
            Some (if Z.land verify GNUTLS_CERT_REVOKED =? 0
                  then "invalid" else "revoked"),
            state', g') /\
    peer_cert_verified state' = false.
Proof.
  intros Hps Hs Hv Hbits.
  assert (Hreq : verify_requirement state1 = verify_requirement state).
  { destruct (peer_status_frame fmt state state1 g g1 OK Hps)
      as [(_ & _ & -> & _)|(_ & c & p & ->)]; reflexivity. }
  unfold Verifier.verify_certificate. rewrite Hps.
  change (negb (OK =? OK)) with false. cbv iota.
  rewrite Hs, Hv, (land_either_bit verify Hbits), orb_true_r.
  cbn [negb].
  match goal with
  | |- context [is_required (verify_requirement ?st)] =>
      change (verify_requirement st) with (verify_requirement state1)
  end.
  rewrite Hreq.
  destruct (is_required (verify_requirement state));
    destruct (Z.land verify GNUTLS_CERT_REVOKED =? 0);
    eexists; eexists; (split; reflexivity).
Qed.

(** ** Handshake orchestrator *)

Lemma loop_test_spec (rc : Z) (seen : bool) :
  ((rc =? GNUTLS_E_AGAIN) ||
   ((rc =? GNUTLS_E_INTERRUPTED) && negb seen)) = true <->
  keeps_looping rc seen.
Proof.
  unfold keeps_looping.
  rewrite orb_true_iff, andb_true_iff, negb_true_iff, !Z.eqb_eq. tauto.
Qed.

Lemma handshake_step_globals (alarmed : bool) (g : G.t) :
  (if alarmed then G.set_sigalrm_seen true (G.emit (Ev_engine Handshake) g)
   else G.emit (Ev_engine Handshake) g) =
  after_steps 1 (G.sigalrm_seen g || alarmed) g.
Proof.
  destruct g as [? ? ? ? ? ? ? ? ? ? ? ? seen ? ? ? ? ? ? ?].
  destruct alarmed, seen; reflexivity.
Qed.

Lemma after_steps_after_steps (n : nat) (seen1 seen2 : bool) (g : G.t) :
  after_steps n seen2 (after_steps 1 seen1 g) = after_steps (S n) seen2 g.
Proof.
  unfold after_steps. cbn [G.trace G.set_trace G.set_sigalrm_seen repeat].
  rewrite <- app_assoc. reflexivity.
Qed.

Lemma handshake_loop_complete (pre : list (Z * bool)) (rc : Z)
    (alarmed : bool) (rest : list (Z * bool)) (g : G.t) :
  all_retried (G.sigalrm_seen g) pre ->
  ~ keeps_looping rc (seen_after (G.sigalrm_seen g) pre || alarmed) ->
  Orchestrator.handshake_loop (pre ++ (rc, alarmed) :: rest) g =
    Some (rc, rest,
          after_steps (S (List.length pre))
            (seen_after (G.sigalrm_seen g) pre || alarmed) g).
Proof.
  revert g. induction pre as [|[rc1 a1] pre IH]; intros g Hpre Hlast.
  - cbn [app Orchestrator.handshake_loop]. rewrite handshake_step_globals.
    cbn [seen_after fold_left List.length] in *.
    change (G.sigalrm_seen (after_steps 1 (G.sigalrm_seen g || alarmed) g))
      with (G.sigalrm_seen g || alarmed).
    destruct ((rc =? GNUTLS_E_AGAIN) ||
              ((rc =? GNUTLS_E_INTERRUPTED) &&
               negb (G.sigalrm_seen g || alarmed))) eqn:E; [|reflexivity].
    apply loop_test_spec in E. contradiction.
  - cbn [app Orchestrator.handshake_loop]. rewrite handshake_step_globals.
    change (G.sigalrm_seen (after_steps 1 (G.sigalrm_seen g || a1) g))
      with (G.sigalrm_seen g || a1).
    cbn [all_retried] in Hpre. destruct Hpre as [H1 Hpre].
    apply loop_test_spec in H1. rewrite H1.
    rewrite IH.
    + rewrite after_steps_after_steps. reflexivity.
    + exact Hpre.
    + exact Hlast.
Qed.

Lemma handshake_loop_sound (script : list (Z * bool)) (g g' : G.t)
    (rc : Z) (rest : list (Z * bool)) :
  Orchestrator.handshake_loop script g = Some (rc, rest, g') ->
  exists pre alarmed,
    script = pre ++ (rc, alarmed) :: rest /\
    all_retried (G.sigalrm_seen g) pre /\
    ~ keeps_looping rc (seen_after (G.sigalrm_seen g) pre || alarmed) /\
    g' = after_steps (S (List.length pre))
           (seen_after (G.sigalrm_seen g) pre || alarmed) g.
Proof.
  revert g. induction script as [|[rc1 a1] script IH]; intros g H.
  - discriminate.
  - cbn [Orchestrator.handshake_loop] in H.
    rewrite handshake_step_globals in H.
    change (G.sigalrm_seen (after_steps 1 (G.sigalrm_seen g || a1) g))
      with (G.sigalrm_seen g || a1) in H.
    destruct ((rc1 =? GNUTLS_E_AGAIN) ||
              ((rc1 =? GNUTLS_E_INTERRUPTED) &&
               negb (G.sigalrm_seen g || a1))) eqn:E.
    + apply loop_test_spec in E.
      destruct (IH _ H) as (pre & alarmed & -> & Hpre & Hlast & ->).
      exists ((rc1, a1) :: pre), alarmed.
      split; [reflexivity|]. split; [split; assumption|].
      split; [exact Hlast|].
      rewrite after_steps_after_steps. reflexivity.
    + injection H as <- <- <-. exists [], a1.
      split; [reflexivity|]. split; [exact I|]. split; [|reflexivity].
      intros Hk. apply loop_test_spec in Hk. cbn [seen_after fold_left] in Hk.
      congruence.
Qed.

(** The server's failure block: both streams closed, [smtp_out] first, unless
    the alarm was seen; then nothing is closed. *)
Lemma server_handshake_failed_spec (rc : Z) (g : G.t) :
  let g' := Orchestrator.server_handshake_failed rc g in
  (G.sigalrm_seen g = false ->
   G.smtp_in_open g' = false /\ G.smtp_out_open g' = false /\
   G.trace g' =
     G.trace g ++ [Ev_tls_error "gnutls_handshake" (Msg_gnutls_strerror rc) None;
                   Ev_fclose Smtp_out; Ev_fclose Smtp_in]) /\
  (G.sigalrm_seen g = true ->
   G.smtp_in_open g' = G.smtp_in_open g /\
   G.smtp_out_open g' = G.smtp_out_open g /\
   G.trace g' =
     G.trace g ++ [Ev_tls_error "gnutls_handshake" (Msg_text "timed out") None]).
Proof.
  destruct g as [? ? ? ? ? ? ? ? ? ? ? ? seen ? ? ? ? ? ? tr].
  cbv zeta. unfold Orchestrator.server_handshake_failed,
    Orchestrator.handshake_failure_msg, tls_error, Orchestrator.fclose, G.emit.
  cbn [G.sigalrm_seen G.trace G.set_trace].
  split; intros ->; cbn [negb G.smtp_in_open G.smtp_out_open G.trace
                         G.set_trace G.set_smtp_in_open G.set_smtp_out_open].
  - rewrite <- !app_assoc. auto.
  - auto.
Qed.

(** C4. The handshake loop of both start functions returns [rc] after a
    run of steps exactly when each earlier step answered would-block, or
    interrupted with the alarm not yet seen, and the last step did not.  In
    the server, a handshake that ends so with anything but success makes
    [tls_server_start] return FAIL; if the alarm was not seen it has closed
    [smtp_out] and [smtp_in] after logging the failure, and if the alarm was
    seen (a timeout) it has left both streams as they were.  The client
    has made every step of the loop between [alarm (timeout)] and
    [alarm (0)], and then reports the failure through [tls_error], as
    "timed out" if the alarm was seen and with the engine's text for [rc]
    otherwise; it closes nothing, and beyond the trace and [sigalrm_seen] it
    changes no global.  Its state block is the one [tls_init] left, with the
    policy, the descriptor and the steps the engine has still to answer. *)
Theorem handshake_loop_and_server_failure
    (fmt : string -> string -> Z -> string) :
  (forall script g rc rest g',
     Orchestrator.handshake_loop script g = Some (rc, rest, g') <->
     exists pre alarmed,
       script = pre ++ (rc, alarmed) :: rest /\
       all_retried (G.sigalrm_seen g) pre /\
       ~ keeps_looping rc (seen_after (G.sigalrm_seen g) pre || alarmed) /\
       g' = after_steps (S (List.length pre))
              (seen_after (G.sigalrm_seen g) pre || alarmed) g) /\
  (forall E state_server g s pre rc alarmed rest,
     G.tls_active g < 0 ->
     Orchestrator.tls_init_rc E = OK ->
     session (Orchestrator.tls_init_state E) = Some s ->
     handshake_script s = pre ++ (rc, alarmed) :: rest ->
     all_retried false pre ->
     ~ keeps_looping rc (seen_after false pre || alarmed) ->
     rc <> GNUTLS_E_SUCCESS ->
     exists state' g' tr,
       Orchestrator.tls_server_start fmt E state_server g =
         Some (FAIL, state', g') /\
       (seen_after false pre || alarmed = false ->
        G.smtp_in_open g' = false /\ G.smtp_out_open g' = false /\
        G.trace g' =
          tr ++ [Ev_tls_error "gnutls_handshake" (Msg_gnutls_strerror rc) None;
                 Ev_fclose Smtp_out; Ev_fclose Smtp_in]) /\
       (seen_after false pre || alarmed = true ->
        G.smtp_in_open g' = G.smtp_in_open g /\
        G.smtp_out_open g' = G.smtp_out_open g /\
        G.trace g' =
          tr ++ [Ev_tls_error "gnutls_handshake" (Msg_text "timed out") None])) /\
  (forall E g s pre rc alarmed rest,
     Orchestrator.tls_init_rc E = OK ->
     session (Orchestrator.tls_init_state E) = Some s ->
     handshake_script s = pre ++ (rc, alarmed) :: rest ->
     all_retried false pre ->
     ~ keeps_looping rc (seen_after false pre || alarmed) ->
     rc <> GNUTLS_E_SUCCESS ->
     exists r state' g',
       Orchestrator.tls_client_start fmt E g = Some (r, state', g') /\
       r = match host (Orchestrator.tls_init_state E) with
           | Some _ => FAIL
           | None => DEFER
           end /\
       G.smtp_in_open g' = G.smtp_in_open g /\
       G.smtp_out_open g' = G.smtp_out_open g /\
       state' =
         set_session (Some (set_handshake_script rest s))
           (set_fd_out (Orchestrator.client_fd E)
              (set_fd_in (Orchestrator.client_fd E)
                 (set_verify_requirement
                    match Orchestrator.verify_certs E with
                    | None => VERIFY_NONE
                    | Some _ => VERIFY_REQUIRED
                    end (Orchestrator.tls_init_state E)))) /\
       g' = G.set_trace (G.trace g')
              (G.set_sigalrm_seen (seen_after false pre || alarmed) g) /\
       G.trace g' =
         G.trace g ++
         [Ev_engine (Dh_set_prime_bits Orchestrator.EXIM_CLIENT_DH_MIN_BITS);
          Ev_engine
            (Certificate_server_set_request
               match Orchestrator.verify_certs E with
               | None => "GNUTLS_CERT_REQUEST"
               | Some _ => "GNUTLS_CERT_REQUIRE"
               end);
          Ev_engine (Transport_set_ptr (Orchestrator.client_fd E)
                       (Orchestrator.client_fd E));
          Ev_alarm (Orchestrator.client_timeout E)] ++
         repeat (Ev_engine Handshake) (S (List.length pre)) ++
         [Ev_alarm 0;
          Ev_tls_error "gnutls_handshake"
            (if seen_after false pre || alarmed
             then Msg_text "timed out" else Msg_gnutls_strerror rc)
            (host (Orchestrator.tls_init_state E))]).
Proof.
  split; [|split].
  - intros script g rc rest g'. split.
    + apply handshake_loop_sound.
    + intros (pre & alarmed & -> & Hpre & Hlast & ->).
      apply handshake_loop_complete; assumption.
  - intros E state_server g s pre rc alarmed rest
      Hactive Hinit Hs Hscript Hpre Hlast Hrc.
    unfold Orchestrator.tls_server_start.
    assert (Ha : (G.tls_active g >=? 0) = false)
      by (rewrite Z.geb_leb; apply Z.leb_gt; lia).
    rewrite Ha, Hinit. change (negb (OK =? OK)) with false. cbv iota.
    assert (Hne : negb (rc =? GNUTLS_E_SUCCESS) = true)
      by (apply negb_true_iff, Z.eqb_neq; exact Hrc).
    destruct (Orchestrator.verify_hosts_match E);
      [|destruct (Orchestrator.try_verify_hosts_match E)];
      match goal with
      | |- context [G.tls_on_connect ?g0] =>
          change (G.tls_on_connect g0) with (G.tls_on_connect g)
      end;
      destruct (G.tls_on_connect g) eqn:Hconn; cbn [negb];
      match goal with
      | |- context [match session ?st with _ => _ end] =>
          change (session st) with (session (Orchestrator.tls_init_state E))
      end;
      rewrite Hs, Hscript, arm_receive_timeout_trace;
      match goal with
      | |- context [Orchestrator.handshake_loop _ ?g0] =>
          rewrite (handshake_loop_complete pre rc alarmed rest g0 Hpre Hlast)
      end;
      rewrite Hne;
      match goal with
      | |- context [Orchestrator.server_handshake_failed rc ?g1] =>
          destruct (server_handshake_failed_spec rc g1)
            as [Hclosed Htimeout];
          cbv zeta in Hclosed, Htimeout;
          change (G.sigalrm_seen g1) with (seen_after false pre || alarmed)
            in Hclosed, Htimeout;
          change (G.smtp_in_open g1) with (G.smtp_in_open g) in Htimeout;
          change (G.smtp_out_open g1) with (G.smtp_out_open g) in Htimeout;
          eexists; eexists; exists (G.trace g1)
      end;
      (split; [reflexivity|]); split; assumption.
  - intros E g s pre rc alarmed rest Hinit Hs Hscript Hpre Hlast Hrc.
    destruct g as [? ? ? ? ? ? ? ? ? ? ? ? seen ? ? ? ? ? ? tr].
    unfold Orchestrator.tls_client_start.
    rewrite Hinit. change (negb (OK =? OK)) with false. cbv iota.
    assert (Hne : negb (rc =? GNUTLS_E_SUCCESS) = true)
      by (apply negb_true_iff, Z.eqb_neq; exact Hrc).
    destruct (Orchestrator.verify_certs E);
      match goal with
      | |- context [match session ?st with _ => _ end] =>
          change (session st) with (session (Orchestrator.tls_init_state E))
      end;
      rewrite Hs, Hscript;
      match goal with
      | |- context [Orchestrator.handshake_loop _ ?g0] =>
          rewrite (handshake_loop_complete pre rc alarmed rest g0 Hpre Hlast)
      end;
      rewrite Hne; unfold tls_error;
      match goal with
      | |- context [host ?st] =>
          change (host st) with (host (Orchestrator.tls_init_state E))
      end;
      unfold Orchestrator.handshake_failure_msg, after_steps, alarm, G.emit;
      cbn [G.sigalrm_seen G.set_sigalrm_seen G.set_trace G.trace];
      destruct (host (Orchestrator.tls_init_state E));
      eexists; eexists; eexists; (split; [reflexivity|]);
      (split; [reflexivity|]); (split; [reflexivity|]);
      (split; [reflexivity|]); (split; [reflexivity|]);
      (split; [reflexivity|]);
      cbn [G.trace G.set_trace]; rewrite <- !app_assoc; reflexivity.
Qed.

(** ** Credential resolver *)

(** Case analysis on a scrutinee that holds no other case analysis. *)
Ltac break_inner :=
  match goal with
  | |- context [match ?x with _ => _ end] =>
      lazymatch x with
      | context [match _ with _ => _ end] => fail
      | _ => destruct x eqn:?
      end
  end.

Ltac resolver_unfold :=
  cbv beta iota zeta delta
    [Resolver.tls_expand_session_files Resolver.allocate
     Resolver.certificate_and_key Resolver.verify_certificates_and_crl
     Resolver.state_of Resolver.set_state Resolver.log_write
     Resolver.return_tls_error Resolver.exim_gnutls_err_check
     Resolver.expand_check Resolver.nonempty
     EarlyReturn.bind EarlyReturn.ret EarlyReturn.return_ EarlyReturn.modify
     EarlyReturn.when EarlyReturn.run tls_error fst snd negb andb
     Resolver.string_of
     session x509_cred priority_cache verify_requirement fd_in fd_out
     peer_cert_verified trigger_sni_changes have_set_peerdn host peerdn
     ciphersuite received_sni tls_certificate tls_privatekey tls_sni
     tls_verify_certificates tls_crl tls_require_ciphers exp_tls_certificate
     exp_tls_privatekey exp_tls_sni exp_tls_verify_certificates exp_tls_crl
     exp_tls_require_ciphers xfer_buffer xfer_buffer_lwm xfer_buffer_hwm
     xfer_eof xfer_error set_x509_cred set_verify_requirement
     set_trigger_sni_changes set_tls_privatekey set_exp_tls_certificate
     set_exp_tls_privatekey set_exp_tls_verify_certificates set_exp_tls_crl].

(** With a trust-store path that expands to the name of a directory, the
    resolver never gets past the [S_ISDIR] test: what it returns is DEFER,
    or the FAIL of a [tls_error] raised for a client before that test. *)
Lemma tls_expand_session_files_directory (E : Resolver.env)
    (state : exim_gnutls_state_st) (g : G.t) (t p : string)
    (statbuf : Resolver.stat_buf) :
  tls_verify_certificates state = Some t ->
  t <> EmptyString ->
  Resolver.expand_string E t = Resolver.Expanded p ->
  p <> EmptyString ->
  Resolver.Ustat E p = Some statbuf ->
  Resolver.st_is_dir statbuf = true ->
  let rc := fst (fst (Resolver.tls_expand_session_files E state g)) in
  rc = DEFER \/
  (host state <> None /\ rc = FAIL /\ engine_failed_first E).
Proof.
  intros Ht Hne Hexp Hpne Hstat Hdir.
  destruct t as [|a t']; [congruence|].
  destruct p as [|b p']; [congruence|].
  destruct state. cbn in Ht. subst.
  resolver_unfold.
  repeat first
    [ rewrite Hexp | rewrite Hstat | rewrite Hdir
    | progress resolver_unfold
    | break_inner ];
  first
    [ left; reflexivity
    | right; split; [discriminate|]; split; [reflexivity|];
      first [ left; apply Z.eqb_neq; assumption
            | right; eexists; eexists; apply Z.eqb_neq; eassumption ] ].
Qed.

(** The resolver never reads [verify_requirement]. *)
Lemma tls_expand_session_files_ignores_policy (E : Resolver.env)
    (state : exim_gnutls_state_st) (g : G.t) (v : peer_verify_requirement) :
  fst (fst (Resolver.tls_expand_session_files E
              (set_verify_requirement v state) g)) =
  fst (fst (Resolver.tls_expand_session_files E state g)).
Proof.
  destruct state.
  resolver_unfold.
  repeat first [ progress resolver_unfold | break_inner ];
  reflexivity.
Qed.




(** ** DH parameter cache *)

Lemma yields_ret {A : Type} (a : A) : yields (EarlyReturn.ret a) (inl a) [].
Proof.
  intros g. unfold EarlyReturn.ret. rewrite app_nil_r, set_trace_same.
  reflexivity.
Qed.

Lemma yields_emit (e : event) : yields (DH.emit e) (inl tt) [e].
Proof. intros g. reflexivity. Qed.

Lemma yields_return_tls_error {A : Type} (prefix : string) (msg : message) :
  yields (DH.return_tls_error (A := A) prefix msg) (inr DEFER)
    [Ev_tls_error prefix msg None].
Proof. intros g. reflexivity. Qed.

Lemma yields_err_check_success (label : string) :
  yields (DH.exim_gnutls_err_check GNUTLS_E_SUCCESS label) (inl tt) [].
Proof. apply (yields_ret tt). Qed.

Lemma yields_bind {A B : Type} (m : EarlyReturn.M A) (f : A -> EarlyReturn.M B)
    (a : A) (es1 es2 : list event) (r : B + Z) :
  yields m (inl a) es1 -> yields (f a) r es2 ->
  yields (EarlyReturn.bind m f) r (es1 ++ es2).
Proof.
  intros H1 H2 g. unfold EarlyReturn.bind. rewrite H1, H2.
  cbn [G.trace G.set_trace]. rewrite app_assoc. reflexivity.
Qed.

Lemma yields_bind_returned {A B : Type} (m : EarlyReturn.M A)
    (f : A -> EarlyReturn.M B) (rc : Z) (es : list event) :
  yields m (inr rc) es -> yields (EarlyReturn.bind m f) (inr rc) es.
Proof.
  intros H g. unfold EarlyReturn.bind. rewrite H. reflexivity.
Qed.

Lemma yields_run (m : EarlyReturn.M Z) (r : Z + Z) (es : list event) (g : G.t) :
  yields m r es ->
  EarlyReturn.run m g =
    (match r with inl rc => rc | inr rc => rc end,
     G.set_trace (G.trace g ++ es) g).
Proof.
  intros H. unfold EarlyReturn.run. rewrite H. destruct r; reflexivity.
Qed.

Ltac yields_step :=
  cbv beta iota; try change (-1 <? 0) with true; cbv iota;
  lazymatch goal with
  | |- yields (EarlyReturn.ret _) _ _ => apply yields_ret
  | |- yields (DH.emit _) _ _ => apply yields_emit
  | |- yields (DH.return_tls_error _ _) _ _ => apply yields_return_tls_error
  | |- yields (DH.exim_gnutls_err_check GNUTLS_E_SUCCESS _) _ _ =>
      apply yields_err_check_success
  | |- yields (EarlyReturn.bind _ _) _ _ =>
      first [ eapply yields_bind; [solve [yields_solve]|]
            | eapply yields_bind_returned ]
  end
with yields_solve := repeat yields_step.

(** C1 (amended).  When the cache file does not exist ([Uopen] fails with
    ENOENT), [init_server_dh] generates fresh parameters, writes them to a
    temporary file and renames it over the cache, and returns OK provided
    each of those steps succeeds.  When the cache file exists but cannot be
    examined or read ([fstat] fails, it is not a regular file, [fdopen],
    [malloc] or [fread] fails), [init_server_dh] closes it, logs the error
    and returns DEFER; it generates nothing and renames nothing. *)
Theorem init_server_dh_absent_or_unreadable (E : DH.env) (g : G.t) :
  let dh_bits := to_uint (DH.sec_param_to_pk_bits E) in
  let filename := DH.cache_filename E dh_bits in
  reaches_open E ->
  (forall fd temp_fn data,
     DH.Uopen E filename = (fd, DH.ENOENT) -> fd < 0 ->
     regeneration_succeeds E filename temp_fn dh_bits data ->
     DH.init_server_dh E g =
       (OK, G.set_trace
              (G.trace g ++
               [Ev_engine Dh_params_init; Ev_sys (Sys_open filename)] ++
               regeneration_events filename temp_fn dh_bits data) g)) /\
  (forall fd errno,
     DH.Uopen E filename = (fd, errno) -> 0 <= fd ->
     cache_unreadable E ->
     exists prefix msg,
       DH.init_server_dh E g =
         (DEFER, G.set_trace
                   (G.trace g ++
                    [Ev_engine Dh_params_init; Ev_sys (Sys_open filename);
                     Ev_sys (Sys_close filename);
                     Ev_tls_error prefix msg None]) g)).
Proof.
  intros dh_bits filename (Hinit & Hbits & Hlen).
  assert (Hb : (dh_bits =? 0) = false) by (apply Z.eqb_neq; exact Hbits).
  assert (Hl : (DH.PATH_MAX E <=? DH.Ustrlen filename) = false)
    by (apply Z.leb_gt; exact Hlen).
  split.
  - intros fd temp_fn data Hopen Hfd
      (Hpath & (fd' & Hmk & Hfd') & Hgen & (sz & Hsz & Hmalloc & Hw) &
       Hexp & Hnl & Hclose & Hren).
    unfold DH.init_server_dh, DH.regenerate.
    fold dh_bits. fold filename.
    rewrite Hinit, Hb, Hl, Hopen, Hmk, Hgen, Hsz, Hmalloc, Hexp, Hw, Hnl, Hclose.
    rewrite (proj2 (Z.ltb_ge (DH.PATH_MAX E - DH.Ustrlen filename) 10) Hpath).
    rewrite (proj2 (Z.ltb_ge fd' 0) Hfd').
    rewrite (proj2 (Z.ltb_ge (DH.Urename E temp_fn filename) 0) Hren).
    assert (Hge : (fd >=? 0) = false) by (rewrite Z.geb_leb; apply Z.leb_gt; lia).
    rewrite Hge, !Z.eqb_refl. cbv beta iota zeta delta [negb].
    erewrite yields_run.
    2: { yields_solve. }
    reflexivity.
  - intros fd errno Hopen Hfd Hbad.
    unfold DH.init_server_dh, DH.read_cache.
    fold dh_bits. fold filename.
    rewrite Hinit, Hb, Hl, Hopen.
    assert (Hge : (fd >=? 0) = true) by (rewrite Z.geb_leb; apply Z.leb_le; lia).
    rewrite Hge. cbv beta iota zeta.
    unfold cache_unreadable in Hbad.
    destruct (DH.fstat E) as [[is_reg st_size]|].
    + destruct (DH.fread E st_size) as [n d]. cbn [fst] in Hbad.
      destruct is_reg; cbn [negb];
        [destruct (DH.fdopen_ok E); cbn [negb];
         [destruct (DH.malloc_ok E st_size); cbn [negb];
          [destruct (n =? 0) eqn:En;
           [|apply Z.eqb_neq in En; exfalso;
             destruct Hbad as [H|[H|[H|H]]]; congruence]|]|]|];
        eexists; eexists; (erewrite yields_run; [|yields_solve]); reflexivity.
    + eexists; eexists. erewrite yields_run; [|yields_solve]. reflexivity.
Qed.

(** * Further properties *)

(** ** Record I/O layer: a failed read *)

(** X1. A failed engine read in [tls_getc]: the caller gets [EOF], the error
    is logged once through [tls_error], [xfer_error] is raised, and nothing
    else moves: the session stays, the receive pointers and the published
    facts stay, the buffer stays empty. *)
Theorem tls_getc_read_error (inbytes : Z) (data : list byte)
    (rest : list (Z * list byte)) (s : gnutls_session)
    (state : exim_gnutls_state_st) (g : G.t) :
  session state = Some s ->
  recv_script s = (inbytes, data) :: rest ->
  xfer_buffer_hwm state <= xfer_buffer_lwm state ->
  inbytes < 0 ->
  RecordIO.tls_getc state g =
    Some (EOF,
          set_xfer_error 1
            (set_session (Some (set_recv_script rest s)) state),
          G.set_trace
            (G.trace g ++ read_events g ++
             [Ev_tls_error "recv" (io_error_message (to_int inbytes))
                (host state)]) g).
Proof.
  intros Hs Hscript Hempty Hneg. unfold RecordIO.tls_getc.
  assert (Hge : (xfer_buffer_lwm state >=? xfer_buffer_hwm state) = true)
    by (rewrite Z.geb_leb; apply Z.leb_le; lia).
  rewrite Hge, Hs, Hscript. cbv zeta. rewrite read_globals.
  assert (Hnz : (inbytes =? 0) = false) by (apply Z.eqb_neq; lia).
  assert (Hlt : (inbytes <? 0) = true) by (apply Z.ltb_lt; lia).
  rewrite Hnz, Hlt.
  unfold record_io_error, tls_error. fold (io_error_message (to_int inbytes)).
  change (host (set_session (Some (set_recv_script rest s)) state))
    with (host state).
  destruct (host state); cbn [snd]; unfold G.emit;
    cbn [G.trace G.set_trace]; rewrite <- app_assoc; reflexivity.
Qed.

(** ** Peer identity and verifier: further properties *)

Ltac globals_unfold :=
  cbv beta iota zeta delta
    [G.emit G.tls_active G.tls_bits G.tls_certificate_verified
     G.tls_channelbinding_b64 G.tls_cipher G.tls_peerdn G.tls_sni
     G.receive_getc G.receive_ungetc G.receive_feof G.receive_ferror
     G.receive_smtp_buffered G.sigalrm_seen G.smtp_in_open G.smtp_out_open
     G.smtp_inbuffer G.tls_on_connect G.smtp_receive_timeout
     G.ssl_xfer_buffer_size G.trace
     G.set_tls_active G.set_tls_bits G.set_tls_certificate_verified
     G.set_tls_channelbinding_b64 G.set_tls_cipher G.set_tls_peerdn
     G.set_tls_sni G.set_receive_getc G.set_receive_ungetc G.set_receive_feof
     G.set_receive_ferror G.set_receive_smtp_buffered G.set_sigalrm_seen
     G.set_smtp_in_open G.set_smtp_out_open G.set_smtp_inbuffer G.set_trace].

Lemma isspace_hyphen : Verifier.isspace "-"%char = false.
Proof. reflexivity. Qed.

Lemma hyphenate_no_space (p : string) : no_space (Verifier.hyphenate p).
Proof.
  unfold no_space. induction p as [|a p IH]; intros c Hin.
  - destruct Hin.
  - cbn [Verifier.hyphenate list_ascii_of_string] in Hin.
    destruct Hin as [<- | Hin]; [|apply IH; exact Hin].
    destruct (Verifier.isspace a) eqn:Ea; [apply isspace_hyphen|exact Ea].
Qed.

Lemma hyphenate_length (p : string) :
  String.length (Verifier.hyphenate p) = String.length p.
Proof.
  induction p as [|a p IH]; [reflexivity|].
  cbn [Verifier.hyphenate String.length]. rewrite IH. reflexivity.
Qed.

Lemma hyphenate_fixes_no_space (p : string) :
  no_space p -> Verifier.hyphenate p = p.
Proof.
  unfold no_space. induction p as [|a p IH]; intros H; [reflexivity|].
  cbn [Verifier.hyphenate]. rewrite (H a (or_introl eq_refl)).
  rewrite IH; [reflexivity|].
  intros c Hc. apply H. right. exact Hc.
Qed.

Lemma hyphenate_characters (p : string) :
  list_ascii_of_string (Verifier.hyphenate p) =
    map (fun c => if Verifier.isspace c then "-"%char else c)
      (list_ascii_of_string p).
Proof.
  induction p as [|a p IH]; [reflexivity|].
  cbn [Verifier.hyphenate list_ascii_of_string map]. rewrite IH. reflexivity.
Qed.

Lemma verifier_wrote_refl (g : G.t) : verifier_wrote g g.
Proof. unfold verifier_wrote. destruct g; reflexivity. Qed.

Lemma verifier_wrote_trans (g1 g2 g3 : G.t) :
  verifier_wrote g1 g2 -> verifier_wrote g2 g3 -> verifier_wrote g1 g3.
Proof.
  unfold verifier_wrote. intros H12 H23. rewrite H23 at 1. rewrite H12 at 1.
  destruct g1; reflexivity.
Qed.

(** [peer_status] writes to the globals only the trace and [tls_cipher]. *)
Lemma peer_status_globals (fmt : string -> string -> Z -> string)
    (state state1 : exim_gnutls_state_st) (g g1 : G.t) (rc : Z) :
  Verifier.peer_status fmt state g = Some (rc, state1, g1) ->
  verifier_wrote g g1.
Proof.
  unfold Verifier.peer_status, Verifier.exim_gnutls_peer_err, tls_error.
  destruct (have_set_peerdn state).
  - intros H. injection H as _ _ <-. apply verifier_wrote_refl.
  - repeat break_inner; intros H; try discriminate;
      injection H as _ _ <-; unfold verifier_wrote; destruct g;
      globals_unfold; reflexivity.
Qed.

Ltac state_frame :=
  repeat match goal with
  | |- context [session (?f ?v ?st)] =>
      change (session (f v st)) with (session st)
  | |- context [verify_requirement (?f ?v ?st)] =>
      change (verify_requirement (f v st)) with (verify_requirement st)
  | |- context [host (?f ?v ?st)] =>
      change (host (f v st)) with (host st)
  end.

(** X2. Every first run of [peer_status] on a live session, whatever it
    returns, has formatted the cipher suite label, put a hyphen for each
    white-space character, and stored the same string in the state and in the
    global [tls_cipher]: character by character the label is the formatted
    text, with a hyphen where the text has a white-space character and the
    character of the text everywhere else.  So the label holds no white space,
    is as long as the formatted text, and is that text when it held no white
    space. *)
Theorem peer_status_cipher_label (fmt : string -> string -> Z -> string)
    (state state1 : exim_gnutls_state_st) (g g1 : G.t) (s : gnutls_session)
    (rc : Z) :
  have_set_peerdn state = false ->
  session state = Some s ->
  Verifier.peer_status fmt state g = Some (rc, state1, g1) ->
  let text := fmt (protocol_name s) (cipher_suite_name s)
                (to_int (to_int (cipher_key_size s) * 8)) in
  exists label,
    ciphersuite state1 = Some label /\
    G.tls_cipher g1 = Some label /\
    list_ascii_of_string label =
      map (fun c => if Verifier.isspace c then "-"%char else c)
        (list_ascii_of_string text) /\
    no_space label /\
    String.length label = String.length text /\
    (no_space text -> label = text).
Proof.
  intros Hguard Hs H text. exists (Verifier.hyphenate text).
  split; [|split; [|split; [apply hyphenate_characters|
                     split; [apply hyphenate_no_space|
                       split; [apply hyphenate_length|
                               apply hyphenate_fixes_no_space]]]]];
    revert H;
    unfold Verifier.peer_status, Verifier.exim_gnutls_peer_err, tls_error;
    rewrite Hguard; state_frame; rewrite Hs; fold text;
    repeat break_inner; intros H; try discriminate;
    injection H as _ <- <-; reflexivity.
Qed.

(** X3. Under the two weaker policies [peer_status] logs no error and returns
    OK, whatever the peer sent and whatever the engine made of it; the one
    exception is the plain [return FAIL] taken when the engine answers the
    sizing call for the distinguished name with success. *)
Theorem peer_status_lenient (fmt : string -> string -> Z -> string)
    (state state1 : exim_gnutls_state_st) (g g1 : G.t) (rc : Z) :
  verify_requirement state <> VERIFY_REQUIRED ->
  Verifier.peer_status fmt state g = Some (rc, state1, g1) ->
  (exists es,
     G.trace g1 = G.trace g ++ es /\
     forallb (fun e => negb (is_tls_error e)) es = true) /\
  (rc = OK \/
   (rc = FAIL /\
    exists s cert0 chain sz,
      session state = Some s /\
      certificate_get_peers s = Some (cert0 :: chain) /\
      x509_crt_get_dn_sizing s cert0 = (GNUTLS_E_SUCCESS, sz))).
Proof.
  intros Hpolicy.
  assert (Hreq : is_required (verify_requirement state) = false)
    by (destruct (verify_requirement state); [reflexivity|reflexivity|congruence]).
  unfold Verifier.peer_status, Verifier.exim_gnutls_peer_err, tls_error.
  destruct (have_set_peerdn state).
  - intros H. injection H as <- _ <-. split; [|left; reflexivity].
    exists []. rewrite app_nil_r. split; reflexivity.
  - cbv zeta. state_frame.
    destruct (session state) as [s|] eqn:Hs; [|discriminate].
    state_frame. rewrite Hreq.
    repeat break_inner; intros H; try discriminate;
      injection H as <- _ <-;
      (split;
       [ unfold G.emit; cbn [G.trace G.set_trace G.set_tls_cipher];
         rewrite <- ?app_assoc; eexists; split; [reflexivity|reflexivity]
       | first
           [ left; reflexivity
           | right; split; [reflexivity|];
             match goal with
             | Hz : negb (?z =? GNUTLS_E_SUCCESS) = false |- _ =>
                 apply negb_false_iff, Z.eqb_eq in Hz; subst z
             end;
             eexists; eexists; eexists; eexists;
             split; [reflexivity|]; split; eassumption ] ]).
Qed.

(** X4. The distinguished name [peer_status] caches is that of the first
    certificate of the chain the peer sent: when the engine imports that
    certificate and hands out its name, the call returns OK under every
    policy, whatever else the chain holds, with that name cached and the guard
    set, and logs no error. *)
Theorem peer_status_records_leaf_dn (fmt : string -> string -> Z -> string)
    (state : exim_gnutls_state_st) (g : G.t) (s : gnutls_session)
    (cert0 : list byte) (chain : list (list byte)) (sz : Z) (dn : string) :
  have_set_peerdn state = false ->
  session state = Some s ->
  certificate_get_peers s = Some (cert0 :: chain) ->
  certificate_type s = GNUTLS_CRT_X509 ->
  x509_crt_init_rc s = GNUTLS_E_SUCCESS ->
  x509_crt_import s cert0 = GNUTLS_E_SUCCESS ->
  x509_crt_get_dn_sizing s cert0 = (GNUTLS_E_SHORT_MEMORY_BUFFER, sz) ->
  x509_crt_get_dn s cert0 = (GNUTLS_E_SUCCESS, dn) ->
  exists state1 g1,
    Verifier.peer_status fmt state g = Some (OK, state1, g1) /\
    peerdn state1 = Some dn /\
    have_set_peerdn state1 = true /\
    exists es,
      G.trace g1 = G.trace g ++ es /\
      forallb (fun e => negb (is_tls_error e)) es = true.
Proof.
  intros Hguard Hs Hpeers Htype Hinit Himport Hsizing Hdn.
  unfold Verifier.peer_status. rewrite Hguard. cbv zeta. state_frame.
  rewrite Hs, Hpeers, Htype, Hinit, Himport, Hsizing, Hdn.
  change (negb (GNUTLS_CRT_X509 =? GNUTLS_CRT_X509)) with false.
  change (negb (GNUTLS_E_SUCCESS =? GNUTLS_E_SUCCESS)) with false.
  change (negb (GNUTLS_E_SHORT_MEMORY_BUFFER =? GNUTLS_E_SHORT_MEMORY_BUFFER))
    with false.
  cbv iota.
  eexists; eexists. split; [reflexivity|].
  split; [reflexivity|]. split; [reflexivity|].
  eexists. split.
  - unfold G.emit. cbn [G.trace G.set_trace G.set_tls_cipher].
    rewrite <- !app_assoc. reflexivity.
  - reflexivity.
Qed.

(** [verify_certificate] runs [peer_status], and beyond what that call wrote
    it writes the verified flag in the state and, in the globals, the trace
    and [tls_peerdn]. *)
Lemma verify_certificate_frame (fmt : string -> string -> Z -> string)
    (state state' : exim_gnutls_state_st) (g g' : G.t) (ok : bool)
    (error : option string) :
  Verifier.verify_certificate fmt state g = Some (ok, error, state', g') ->
  exists rc state1 g1,
    Verifier.peer_status fmt state g = Some (rc, state1, g1) /\
    state' = set_peer_cert_verified (peer_cert_verified state') state1 /\
    verifier_wrote g1 g'.
Proof.
  unfold Verifier.verify_certificate.
  destruct (Verifier.peer_status fmt state g) as [[[rc state1] g1]|];
    [|discriminate].
  intros H. exists rc, state1, g1. split; [reflexivity|]. revert H.
  repeat break_inner; intros H; try discriminate;
    injection H as _ _ <- <-;
    (split; [reflexivity|]);
    unfold verifier_wrote; destruct g1; globals_unfold; reflexivity.
Qed.

Lemma land_both_bits (verify : Z) :
  (Z.land verify (Z.lor GNUTLS_CERT_INVALID GNUTLS_CERT_REVOKED) =? 0) = true <->
  Z.land verify GNUTLS_CERT_INVALID = 0 /\
  Z.land verify GNUTLS_CERT_REVOKED = 0.
Proof.
  rewrite Z.eqb_eq, Z.land_lor_distr_r. apply Z.lor_eq_0_iff.
Qed.

(** X5. The answer of [verify_certificate] is FALSE exactly when the policy is
    [VERIFY_REQUIRED] and the certificate was not verified; then a reason is
    given and the fatal alert was the last thing done.  Whenever the answer is
    TRUE the global [tls_peerdn] holds the cached name.  The policy is read,
    never written. *)
Theorem verify_certificate_decision (fmt : string -> string -> Z -> string)
    (state state' : exim_gnutls_state_st) (g g' : G.t) (ok : bool)
    (error : option string) :
  Verifier.verify_certificate fmt state g = Some (ok, error, state', g') ->
  verify_requirement state' = verify_requirement state /\
  ok = peer_cert_verified state' ||
       negb (is_required (verify_requirement state)) /\
  (peer_cert_verified state' = true <-> error = None) /\
  (ok = false ->
   exists tr, G.trace g' = tr ++ [Ev_engine Alert_send_bad_certificate]) /\
  (ok = true -> G.tls_peerdn g' = peerdn state').
Proof.
  intros H.
  assert (Hreq : forall rc state1 g1,
            Verifier.peer_status fmt state g = Some (rc, state1, g1) ->
            verify_requirement state1 = verify_requirement state).
  { intros rc state1 g1 Hps.
    destruct (peer_status_frame fmt state state1 g g1 rc Hps)
      as [(_ & _ & -> & _)|(_ & c & p & ->)]; reflexivity. }
  revert H. unfold Verifier.verify_certificate.
  destruct (Verifier.peer_status fmt state g) as [[[rc state1] g1]|] eqn:Hps;
    [|discriminate].
  specialize (Hreq rc state1 g1 eq_refl).
  state_frame. rewrite Hreq.
  destruct (negb (rc =? OK)).
  - change (Z.land GNUTLS_CERT_INVALID
              (Z.lor GNUTLS_CERT_INVALID GNUTLS_CERT_REVOKED) =? 0)
      with false.
    rewrite orb_true_r.
    destruct (is_required (verify_requirement state));
      intros H; injection H as <- <- <- <-;
      (split; [exact Hreq|]); (split; [reflexivity|]);
      (split; [split; discriminate|]);
      split; intros Hok; try discriminate;
      first [ eexists; reflexivity | reflexivity ].
  - destruct (session state1) as [s|]; [|discriminate].
    destruct (certificate_verify_peers2 s) as [rcv verify].
    destruct ((rcv <? 0) ||
              negb (Z.land verify
                      (Z.lor GNUTLS_CERT_INVALID GNUTLS_CERT_REVOKED) =? 0)).
    + destruct (is_required (verify_requirement state));
        intros H; injection H as <- <- <- <-;
        (split; [exact Hreq|]); (split; [reflexivity|]);
        (split; [split; discriminate|]);
        split; intros Hok; try discriminate;
        first [ eexists; reflexivity | reflexivity ].
    + intros H; injection H as <- <- <- <-.
      split; [exact Hreq|]. split; [reflexivity|].
      split; [split; reflexivity|].
      split; intros Hok; try discriminate. reflexivity.
Qed.

(** X6. The verified flag is raised exactly when [peer_status] returned OK and
    the engine's own verification returned a code that is not negative with
    neither the invalid nor the revoked bit in its result. *)
Theorem verify_certificate_verified_iff
    (fmt : string -> string -> Z -> string)
    (state state' : exim_gnutls_state_st) (g g' : G.t) (ok : bool)
    (error : option string) :
  Verifier.verify_certificate fmt state g = Some (ok, error, state', g') ->
  peer_cert_verified state' = true <->
  exists state1 g1 s rc verify,
    Verifier.peer_status fmt state g = Some (OK, state1, g1) /\
    session state1 = Some s /\
    certificate_verify_peers2 s = (rc, verify) /\
    0 <= rc /\
    Z.land verify GNUTLS_CERT_INVALID = 0 /\
    Z.land verify GNUTLS_CERT_REVOKED = 0.
Proof.
  unfold Verifier.verify_certificate.
  destruct (Verifier.peer_status fmt state g) as [[[rc state1] g1]|] eqn:Hps;
    [|discriminate].
  destruct (rc =? OK) eqn:Erc; cbn [negb].
  - apply Z.eqb_eq in Erc. subst rc.
    destruct (session state1) as [s|] eqn:Hs; [|discriminate].
    destruct (certificate_verify_peers2 s) as [rcv verify] eqn:Hv.
    destruct (rcv <? 0) eqn:Elt; cbn [orb].
    + apply Z.ltb_lt in Elt.
      destruct (is_required (verify_requirement _));
        intros H; injection H as _ _ <- _; cbn [peer_cert_verified set_peer_cert_verified];
        (split; [discriminate|]);
        intros (st & gg & s' & rc' & v' & Hps' & Hs' & Hv' & Hrc & _);
        injection Hps' as <- <-; rewrite Hs in Hs'; injection Hs' as <-;
        rewrite Hv in Hv'; injection Hv' as <- <-; lia.
    + apply Z.ltb_ge in Elt.
      destruct (Z.land verify
                  (Z.lor GNUTLS_CERT_INVALID GNUTLS_CERT_REVOKED) =? 0)
        eqn:Ebits; cbn [negb].
      * apply land_both_bits in Ebits. destruct Ebits as [Hi Hr].
        intros H; injection H as _ _ <- _.
        split; [|reflexivity]. intros _.
        exists state1, g1, s, rcv, verify. auto 7.
      * destruct (is_required (verify_requirement _));
          intros H; injection H as _ _ <- _;
          (split; [discriminate|]);
          intros (st & gg & s' & rc' & v' & Hps' & Hs' & Hv' & _ & Hi & Hr);
          injection Hps' as <- <-; rewrite Hs in Hs'; injection Hs' as <-;
          rewrite Hv in Hv'; injection Hv' as <- <-;
          assert (Hb : (Z.land verify
                          (Z.lor GNUTLS_CERT_INVALID GNUTLS_CERT_REVOKED) =? 0)
                       = true) by (apply land_both_bits; auto);
          congruence.
  - apply Z.eqb_neq in Erc.
    change (Z.land GNUTLS_CERT_INVALID
              (Z.lor GNUTLS_CERT_INVALID GNUTLS_CERT_REVOKED) =? 0)
      with false.
    rewrite orb_true_r.
    destruct (is_required (verify_requirement _));
      intros H; injection H as _ _ <- _;
      (split; [discriminate|]);
      intros (st & gg & s' & rc' & v' & Hps' & _);
      injection Hps' as Hrc _ _; contradiction.
Qed.

(** ** What is published, and what the fallback takes back *)

(** The globals the plaintext fallback of [tls_getc] leaves, in full. *)
Lemma tls_getc_fallback_globals (junk : list byte)
    (rest : list (Z * list byte)) (s : gnutls_session)
    (state : exim_gnutls_state_st) (g : G.t) :
  session state = Some s ->
  recv_script s = (0, junk) :: rest ->
  xfer_buffer_hwm state <= xfer_buffer_lwm state ->
  exists c,
    RecordIO.tls_getc state g =
      Some (c, set_session None state,
            G.set_smtp_inbuffer (tl (G.smtp_inbuffer g))
              (RecordIO.clear_tls_vars
                 (G.emit (Ev_engine Deinit)
                    (RecordIO.revert_to_smtp
                       (G.set_trace (G.trace g ++ read_events g) g))))).
Proof.
  intros Hs Hscript Hempty. unfold RecordIO.tls_getc.
  assert (Hge : (xfer_buffer_lwm state >=? xfer_buffer_hwm state) = true)
    by (rewrite Z.geb_leb; apply Z.leb_le; lia).
  rewrite Hge, Hs, Hscript. cbn [Z.eqb]. cbv zeta.
  rewrite read_globals.
  generalize (read_events g). intros evs.
  destruct g.
  cbv beta iota zeta delta
      [RecordIO.smtp_getc RecordIO.clear_tls_vars RecordIO.revert_to_smtp tl].
  globals_unfold.
  destruct smtp_inbuffer as [|b pending]; eexists; reflexivity.
Qed.

(** X7. [extract_exim_vars_from_tls_state] publishes seven facts of the
    session; the plaintext fallback of [tls_getc] that follows resets six of
    them to what they are outside TLS, and leaves the seventh, [tls_sni], as
    it was published. *)
Theorem fallback_takes_back_what_was_published (junk : list byte)
    (rest : list (Z * list byte)) (s : gnutls_session)
    (state : exim_gnutls_state_st) (g g1 : G.t) :
  session state = Some s ->
  recv_script s = (0, junk) :: rest ->
  xfer_buffer_hwm state <= xfer_buffer_lwm state ->
  Verifier.extract_exim_vars_from_tls_state state g = Some g1 ->
  (G.tls_active g1, G.tls_bits g1, G.tls_certificate_verified g1,
   G.tls_cipher g1, G.tls_peerdn g1, G.tls_sni g1) =
    (fd_out state, to_int (cipher_key_size s * 8), peer_cert_verified state,
     ciphersuite state, peerdn state, received_sni state) /\
  G.tls_channelbinding_b64 g1 =
    (if fst (channel_binding_b64 s) =? 0
     then Some (snd (channel_binding_b64 s)) else None) /\
  exists c state2 g2,
    RecordIO.tls_getc state g1 = Some (c, state2, g2) /\
    (G.tls_active g2, G.tls_bits g2, G.tls_certificate_verified g2,
     G.tls_cipher g2, G.tls_peerdn g2, G.tls_channelbinding_b64 g2) =
      (-1, 0, false, None, None, None) /\
    G.tls_sni g2 = received_sni state.
Proof.
  intros Hs Hscript Hempty Hx.
  unfold Verifier.extract_exim_vars_from_tls_state in Hx. rewrite Hs in Hx.
  destruct (channel_binding_b64 s) as [rc b64].
  assert (Hg1 : (G.tls_active g1, G.tls_bits g1, G.tls_certificate_verified g1,
                 G.tls_cipher g1, G.tls_peerdn g1, G.tls_sni g1) =
                (fd_out state, to_int (cipher_key_size s * 8),
                 peer_cert_verified state, ciphersuite state, peerdn state,
                 received_sni state) /\
                G.tls_channelbinding_b64 g1 =
                  (if rc =? 0 then Some b64 else None)).
  { injection Hx as <-. destruct g.
    destruct (rc =? 0); cbn [negb]; globals_unfold; split; reflexivity. }
  destruct Hg1 as [Hpub Hcb]. cbn [fst snd].
  split; [exact Hpub|]. split; [exact Hcb|].
  destruct (tls_getc_fallback_globals junk rest s state g1 Hs Hscript Hempty)
    as [c Hc].
  eexists; eexists; eexists. split; [exact Hc|].
  injection Hpub as _ _ _ _ _ Hsni. rewrite <- Hsni.
  clear. destruct g1.
  cbv beta iota zeta delta [RecordIO.clear_tls_vars RecordIO.revert_to_smtp].
  globals_unfold. split; reflexivity.
Qed.

(** ** Handshake orchestrator: further properties *)

Lemma same_input_refl (g : G.t) : same_input g g.
Proof. repeat split. Qed.

Lemma same_input_trans (g1 g2 g3 : G.t) :
  same_input g1 g2 -> same_input g2 g3 -> same_input g1 g3.
Proof.
  unfold same_input. intros (A1 & B1 & C1 & D1) (A2 & B2 & C2 & D2).
  repeat split; congruence.
Qed.

Lemma verifier_wrote_same_input (g g' : G.t) :
  verifier_wrote g g' -> same_input g g'.
Proof.
  unfold verifier_wrote. intros ->. destruct g. repeat split.
Qed.

Lemma after_steps_same_input (n : nat) (seen : bool) (g : G.t) :
  same_input g (after_steps n seen g).
Proof. repeat split. Qed.

Lemma emit_same_input (e : event) (g : G.t) : same_input g (G.emit e g).
Proof. repeat split. Qed.

Lemma arm_receive_timeout_same_input (g : G.t) :
  same_input g (arm_receive_timeout g).
Proof. rewrite arm_receive_timeout_trace. repeat split. Qed.

Lemma server_handshake_failed_same_input (rc : Z) (g : G.t) :
  same_input g (Orchestrator.server_handshake_failed rc g).
Proof.
  unfold Orchestrator.server_handshake_failed, tls_error,
    Orchestrator.fclose.
  match goal with
  | |- context [if ?b then _ else _] => destruct b
  end; repeat split.
Qed.

Lemma identity_cached_refl (st : exim_gnutls_state_st) : identity_cached st st.
Proof. unfold identity_cached. destruct st; reflexivity. Qed.

Lemma peer_status_state (fmt : string -> string -> Z -> string)
    (state state1 : exim_gnutls_state_st) (g g1 : G.t) (rc : Z) :
  Verifier.peer_status fmt state g = Some (rc, state1, g1) ->
  identity_cached state state1 /\ have_set_peerdn state1 = true.
Proof.
  intros H.
  destruct (peer_status_frame fmt state state1 g g1 rc H)
    as [(Hg & _ & -> & _)|(_ & c & p & ->)].
  - split; [apply identity_cached_refl|exact Hg].
  - split; [|reflexivity]. unfold identity_cached. destruct state; reflexivity.
Qed.

(** On a live session, or behind its guard, [peer_status] returns. *)
Lemma peer_status_returns (fmt : string -> string -> Z -> string)
    (state : exim_gnutls_state_st) (g : G.t) :
  session state <> None ->
  exists rc state1 g1,
    Verifier.peer_status fmt state g = Some (rc, state1, g1).
Proof.
  intros Hs. unfold Verifier.peer_status, Verifier.exim_gnutls_peer_err,
    tls_error.
  destruct (have_set_peerdn state); [eexists; eexists; eexists; reflexivity|].
  cbv zeta. state_frame.
  destruct (session state) as [s|]; [|congruence].
  repeat break_inner; eexists; eexists; eexists; reflexivity.
Qed.

Lemma verify_certificate_returns (fmt : string -> string -> Z -> string)
    (state : exim_gnutls_state_st) (g : G.t) :
  session state <> None ->
  exists ok error state' g',
    Verifier.verify_certificate fmt state g = Some (ok, error, state', g').
Proof.
  intros Hs. unfold Verifier.verify_certificate.
  destruct (peer_status_returns fmt state g Hs) as (rc & state1 & g1 & Hps).
  rewrite Hps.
  destruct (peer_status_state fmt state state1 g g1 rc Hps) as [Hid _].
  assert (Hs1 : session state1 = session state)
    by (rewrite Hid; reflexivity).
  rewrite Hs1.
  destruct (session state) as [s|]; [|congruence].
  repeat break_inner; eexists; eexists; eexists; eexists; reflexivity.
Qed.

Lemma extract_globals (state : exim_gnutls_state_st) (g gx : G.t) :
  Verifier.extract_exim_vars_from_tls_state state g = Some gx ->
  receive_pointers gx = receive_pointers g /\
  G.smtp_inbuffer gx = G.smtp_inbuffer g /\
  G.ssl_xfer_buffer_size gx = G.ssl_xfer_buffer_size g /\
  G.smtp_in_open gx = G.smtp_in_open g /\
  G.smtp_out_open gx = G.smtp_out_open g /\
  G.tls_active gx = fd_out state /\
  G.tls_certificate_verified gx = peer_cert_verified state.
Proof.
  unfold Verifier.extract_exim_vars_from_tls_state.
  destruct (session state) as [s|]; [|discriminate].
  destruct (channel_binding_b64 s) as [rc b64].
  intros H. injection H as <-. destruct g.
  destruct (negb (rc =? 0)); unfold receive_pointers; globals_unfold;
    repeat split.
Qed.

(** X8. [tls_server_start] moves the input of the process to TLS exactly when
    it returns OK.  A run that returns OK has set the five receive pointers to
    the TLS functions, published the output descriptor in [tls_active] and the
    verified flag in [tls_certificate_verified], and allocated a transfer
    buffer of [ssl_xfer_buffer_size] bytes, and has kept the pending
    plaintext.  A run that returns anything else leaves the receive pointers,
    [tls_active], the pending plaintext and the buffer size as they were. *)
Theorem tls_server_start_switches_input_iff_ok
    (fmt : string -> string -> Z -> string) (E : Orchestrator.start_env)
    (state_server state' : exim_gnutls_state_st) (g g' : G.t) (rc : Z) :
  Orchestrator.tls_server_start fmt E state_server g = Some (rc, state', g') ->
  (rc = OK ->
   receive_pointers g' = (Tls_fn, Tls_fn, Tls_fn, Tls_fn, Tls_fn) /\
   G.tls_active g' = Orchestrator.fileno_smtp_out E /\
   G.tls_certificate_verified g' = peer_cert_verified state' /\
   xfer_buffer state' =
     repeat "000"%byte (Z.to_nat (G.ssl_xfer_buffer_size g)) /\
   G.smtp_inbuffer g' = G.smtp_inbuffer g) /\
  (rc <> OK -> same_input g g').
Proof.
  unfold Orchestrator.tls_server_start.
  destruct (G.tls_active g >=? 0).
  { unfold tls_error. intros H. injection H as <- <- <-.
    split; [discriminate|]. intros _. repeat split. }
  destruct (negb (Orchestrator.tls_init_rc E =? OK)) eqn:Hinit.
  { intros H. injection H as <- <- <-.
    apply negb_true_iff, Z.eqb_neq in Hinit.
    split; [contradiction|]. intros _. apply same_input_refl. }
  destruct (if Orchestrator.verify_hosts_match E then _ else _)
    as [st0 g0] eqn:Hsel.
  assert (Hin0 : same_input g g0).
  { destruct (Orchestrator.verify_hosts_match E);
      [|destruct (Orchestrator.try_verify_hosts_match E)];
      injection Hsel as _ <-; apply emit_same_input. }
  assert (Hfd0 : forall v w,
            fd_out (set_fd_out v (set_fd_in w st0)) = v) by reflexivity.
  clear Hsel.
  match goal with
  | |- context [arm_receive_timeout ?x] =>
      remember (arm_receive_timeout x) as gb eqn:Hgb
  end.
  assert (Hinb : same_input g0 gb).
  { subst gb.
    eapply same_input_trans; [|apply arm_receive_timeout_same_input].
    destruct (negb (G.tls_on_connect
                      (G.emit (Ev_engine
                                 Handshake_set_post_client_hello_function)
                         g0))); repeat split. }
  clear Hgb.
  state_frame.
  destruct (session st0) as [s|]; [|discriminate].
  destruct (Orchestrator.handshake_loop (handshake_script s) gb)
    as [[[rc0 rest] g1]|] eqn:Hloop; [|discriminate].
  apply handshake_loop_sound in Hloop.
  destruct Hloop as (pre & alarmed & _ & _ & _ & Hg1).
  assert (Hin1 : same_input g (alarm 0 g1)).
  { eapply same_input_trans; [exact Hin0|].
    eapply same_input_trans; [exact Hinb|].
    subst g1. repeat split. }
  clear Hin0 Hinb Hg1.
  remember (alarm 0 g1) as g1' eqn:Hg1'. clear Hg1' g1 g0 gb.
  match goal with
  | |- context [Verifier.verify_certificate fmt ?st _] =>
      remember st as st1 eqn:Hst1
  end.
  assert (Hfd1 : fd_out st1 = Orchestrator.fileno_smtp_out E)
    by (subst st1; reflexivity).
  clear Hst1 Hfd0. rename g1' into g1.
  destruct (negb (rc0 =? GNUTLS_E_SUCCESS)).
  { intros H. injection H as <- <- <-.
    split; [discriminate|]. intros _.
    eapply same_input_trans; [exact Hin1|].
    apply server_handshake_failed_same_input. }
  match goal with
  | |- match ?v with _ => _ end = _ -> _ =>
      destruct v as [[[st2 g2]|[[r st2] g2]]|] eqn:Hver; [| |discriminate]
  end.
  - assert (Hv : same_input g g2 /\ fd_out st2 = fd_out st1).
    { destruct (verify_requirement st1);
        [ injection Hver as <- <-; auto
        | destruct (Verifier.verify_certificate fmt st1 g1)
            as [[[[ok err] stv] gv]|] eqn:Hvc; [|discriminate]..];
        destruct (verify_certificate_frame fmt st1 stv g1 gv ok err Hvc)
          as (rcp & stp & gp & Hps & Hstv & Hgv);
        destruct (peer_status_state fmt st1 stp g1 gp rcp Hps) as [Hid _];
        pose proof (peer_status_globals fmt st1 stp g1 gp rcp Hps) as Hgp;
        (assert (Hfdv : fd_out stv = fd_out st1)
           by (rewrite Hstv, Hid; reflexivity));
        (assert (Hinv : same_input g gv)
           by (eapply same_input_trans; [exact Hin1|];
               eapply same_input_trans;
               apply verifier_wrote_same_input; eassumption));
        destruct ok;
        try (injection Hver as <- <-; auto);
        destruct (verify_requirement stv); try discriminate;
        injection Hver as <- <-; auto. }
    destruct Hv as [Hin2 Hfd2].
    destruct (Verifier.peer_status fmt st2 g2) as [[[rc1 st3] g3]|] eqn:Hps;
      [|discriminate].
    destruct (peer_status_state fmt st2 st3 g2 g3 rc1 Hps) as [Hid _].
    pose proof (peer_status_globals fmt st2 st3 g2 g3 rc1 Hps) as Hg3.
    apply verifier_wrote_same_input in Hg3.
    assert (Hin3 : same_input g g3)
      by (eapply same_input_trans; eassumption).
    destruct (negb (rc1 =? OK)) eqn:Hrc1.
    { intros H. injection H as <- <- <-.
      apply negb_true_iff, Z.eqb_neq in Hrc1.
      split; [contradiction|]. intros _. exact Hin3. }
    destruct (Verifier.extract_exim_vars_from_tls_state st3 g3)
      as [g4|] eqn:Hx; [|discriminate].
    destruct (extract_globals st3 g3 g4 Hx)
      as (_ & Hbuf & Hsize & _ & _ & Hact & Hverified).
    destruct Hin3 as (_ & _ & Hbuf3 & Hsize3).
    intros H. injection H as <- <- <-.
    split; [|intros Hne; exfalso; apply Hne; reflexivity]. intros _.
    split; [reflexivity|].
    split.
    { change (G.tls_active g4 = Orchestrator.fileno_smtp_out E).
      rewrite Hact, Hid. cbn [fd_out set_peerdn set_ciphersuite
                                set_have_set_peerdn].
      congruence. }
    split; [exact Hverified|].
    split.
    { cbn [xfer_buffer set_xfer_buffer]. congruence. }
    change (G.smtp_inbuffer g4 = G.smtp_inbuffer g). congruence.
  - intros H. injection H as <- <- <-.
    destruct (verify_requirement st1); [discriminate| |];
      (destruct (Verifier.verify_certificate fmt st1 g1)
         as [[[[ok err] stv] gv]|] eqn:Hvc; [|discriminate]);
      destruct (verify_certificate_frame fmt st1 stv g1 gv ok err Hvc)
        as (rcp & stp & gp & Hps & Hstv & Hgv);
      pose proof (peer_status_globals fmt st1 stp g1 gp rcp Hps) as Hgp;
      (assert (Hinv : same_input g gv)
         by (eapply same_input_trans; [exact Hin1|];
             eapply same_input_trans;
             apply verifier_wrote_same_input; eassumption));
      destruct ok; try discriminate;
      destruct (verify_requirement stv); try discriminate;
      unfold tls_error in Hver; injection Hver as <- <- <-;
      (split; [discriminate|]); intros _;
      (eapply same_input_trans; [exact Hinv|apply emit_same_input]).
Qed.

(** X9. A second STARTTLS while TLS is active: nothing is initialised, no
    engine call is made, the state block is not touched; the error is logged,
    the client is told 554, and the call returns FAIL. *)
Theorem tls_server_start_already_active
    (fmt : string -> string -> Z -> string) (E : Orchestrator.start_env)
    (state_server : exim_gnutls_state_st) (g : G.t) :
  0 <= G.tls_active g ->
  Orchestrator.tls_server_start fmt E state_server g =
    Some (FAIL, state_server,
          G.set_trace
            (G.trace g ++
             [Ev_tls_error "STARTTLS received after TLS started"
                (Msg_text EmptyString) None;
              Ev_smtp_printf ("554 Already in TLS" ++ Orchestrator.CRLF)]) g).
Proof.
  intros Ha. unfold Orchestrator.tls_server_start.
  assert (Hge : (G.tls_active g >=? 0) = true)
    by (rewrite Z.geb_leb; apply Z.leb_le; exact Ha).
  rewrite Hge. unfold tls_error, G.emit. cbn [G.trace G.set_trace].
  rewrite <- app_assoc. reflexivity.
Qed.

Lemma success_ends_loop (seen : bool) : ~ keeps_looping GNUTLS_E_SUCCESS seen.
Proof. intros [H|[H _]]; discriminate. Qed.

Lemma extract_returns (state : exim_gnutls_state_st) (g : G.t) :
  session state <> None ->
  exists gx, Verifier.extract_exim_vars_from_tls_state state g = Some gx.
Proof.
  intros Hs. unfold Verifier.extract_exim_vars_from_tls_state.
  destruct (session state) as [s|]; [|congruence].
  destruct (channel_binding_b64 s). eexists. reflexivity.
Qed.

(** What [verify_certificate] leaves of the state it was given. *)
Lemma verify_certificate_state (fmt : string -> string -> Z -> string)
    (state state' : exim_gnutls_state_st) (g g' : G.t) (ok : bool)
    (error : option string) :
  Verifier.verify_certificate fmt state g = Some (ok, error, state', g') ->
  session state' = session state /\
  verify_requirement state' = verify_requirement state /\
  fd_out state' = fd_out state /\
  have_set_peerdn state' = true /\
  ok = peer_cert_verified state' ||
       negb (is_required (verify_requirement state)).
Proof.
  intros H.
  destruct (verify_certificate_frame fmt state state' g g' ok error H)
    as (rc & state1 & g1 & Hps & Hst & _).
  destruct (peer_status_state fmt state state1 g g1 rc Hps) as [Hid Hguard].
  assert (Hreq : verify_requirement state1 = verify_requirement state)
    by (rewrite Hid; reflexivity).
  split; [rewrite Hst, Hid; reflexivity|].
  split; [rewrite Hst, Hid; reflexivity|].
  split; [rewrite Hst, Hid; reflexivity|].
  split; [rewrite Hst; exact Hguard|].
  revert H. unfold Verifier.verify_certificate. rewrite Hps.
  state_frame. rewrite Hreq.
  repeat break_inner; intros H; try discriminate;
    injection H as <- _ <- _; reflexivity.
Qed.

(** X10. A server whose client matches [tls_try_verify_hosts] only: once the
    handshake has succeeded the start cannot fail on the certificate.
    Whatever the peer sent and whatever the engine made of it, the call
    returns OK, and the verified flag it publishes is the one the verifier
    left. *)
Theorem tls_server_start_optional_accepts
    (fmt : string -> string -> Z -> string) (E : Orchestrator.start_env)
    (state_server : exim_gnutls_state_st) (g : G.t) (s : gnutls_session)
    (pre : list (Z * bool)) (alarmed : bool) (rest : list (Z * bool)) :
  G.tls_active g < 0 ->
  Orchestrator.tls_init_rc E = OK ->
  Orchestrator.verify_hosts_match E = false ->
  Orchestrator.try_verify_hosts_match E = true ->
  session (Orchestrator.tls_init_state E) = Some s ->
  handshake_script s = pre ++ (GNUTLS_E_SUCCESS, alarmed) :: rest ->
  all_retried false pre ->
  exists state' g',
    Orchestrator.tls_server_start fmt E state_server g =
      Some (OK, state', g') /\
    verify_requirement state' = VERIFY_OPTIONAL /\
    G.tls_certificate_verified g' = peer_cert_verified state' /\
    receive_pointers g' = (Tls_fn, Tls_fn, Tls_fn, Tls_fn, Tls_fn).
Proof.
  intros Hactive Hinit Hverify Htry Hs Hscript Hpre.
  unfold Orchestrator.tls_server_start.
  assert (Ha : (G.tls_active g >=? 0) = false)
    by (rewrite Z.geb_leb; apply Z.leb_gt; lia).
  rewrite Ha, Hinit, Hverify, Htry.
  change (negb (OK =? OK)) with false. cbv iota beta.
  state_frame. rewrite Hs, Hscript, arm_receive_timeout_trace.
  match goal with
  | |- context [Orchestrator.handshake_loop _ ?g0] =>
      rewrite (handshake_loop_complete pre GNUTLS_E_SUCCESS alarmed rest g0
                 Hpre (success_ends_loop _))
  end.
  change (negb (GNUTLS_E_SUCCESS =? GNUTLS_E_SUCCESS)) with false.
  cbv iota beta.
  match goal with
  | |- context [Verifier.verify_certificate fmt ?st ?gg] =>
      remember st as st1 eqn:Hst1; remember gg as g1 eqn:Hg1
  end.
  assert (Hs1 : session st1 <> None) by (subst st1; discriminate).
  assert (Hreq1 : verify_requirement st1 = VERIFY_OPTIONAL)
    by (subst st1; reflexivity).
  clear Hst1 Hg1. rewrite Hreq1.
  destruct (verify_certificate_returns fmt st1 g1 Hs1)
    as (ok & error & stv & gv & Hvc).
  rewrite Hvc.
  destruct (verify_certificate_state fmt st1 stv g1 gv ok error Hvc)
    as (Hsv & Hreqv & _ & Hguard & _).
  rewrite Hreq1 in Hreqv.
  match goal with
  | |- exists _ _, match ?v with _ => _ end = _ /\ _ =>
      replace v with (Some (inl (stv, gv) :
                        exim_gnutls_state_st * G.t +
                        Z * exim_gnutls_state_st * G.t))
        by (destruct ok; [reflexivity|rewrite Hreqv; reflexivity])
  end.
  rewrite (peer_status_guarded fmt stv gv Hguard).
  change (negb (OK =? OK)) with false. cbv iota.
  assert (Hsv' : session stv <> None) by (rewrite Hsv; exact Hs1).
  destruct (extract_returns stv gv Hsv') as [gx Hx]. rewrite Hx.
  destruct (extract_globals stv gv gx Hx) as (_ & _ & _ & _ & _ & _ & Hver).
  eexists; eexists. split; [reflexivity|].
  split; [exact Hreqv|]. split; [exact Hver|reflexivity].
Qed.

(** X11. A server whose client matches [tls_verify_hosts], and a client that
    completes the handshake without sending a certificate: the start returns
    FAIL after the fatal alert, with the reason "not supplied" in the log.
    Unlike after a failed handshake, both SMTP streams are left open and the
    input still comes from the plaintext functions. *)
Theorem tls_server_start_required_without_certificate
    (fmt : string -> string -> Z -> string) (E : Orchestrator.start_env)
    (state_server : exim_gnutls_state_st) (g : G.t) (s : gnutls_session)
    (pre : list (Z * bool)) (alarmed : bool) (rest : list (Z * bool)) :
  G.tls_active g < 0 ->
  Orchestrator.tls_init_rc E = OK ->
  Orchestrator.verify_hosts_match E = true ->
  session (Orchestrator.tls_init_state E) = Some s ->
  have_set_peerdn (Orchestrator.tls_init_state E) = false ->
  no_peer_certificate s ->
  handshake_script s = pre ++ (GNUTLS_E_SUCCESS, alarmed) :: rest ->
  all_retried false pre ->
  exists state' g' tr,
    Orchestrator.tls_server_start fmt E state_server g =
      Some (FAIL, state', g') /\
    G.trace g' =
      tr ++ [Ev_engine Alert_send_bad_certificate;
             Ev_tls_error "certificate verification failed"
               (Msg_text "not supplied") None] /\
    peer_cert_verified state' = false /\
    G.smtp_in_open g' = G.smtp_in_open g /\
    G.smtp_out_open g' = G.smtp_out_open g /\
    same_input g g'.
Proof.
  intros Hactive Hinit Hverify Hs Hguard Hnone Hscript Hpre.
  unfold Orchestrator.tls_server_start.
  assert (Ha : (G.tls_active g >=? 0) = false)
    by (rewrite Z.geb_leb; apply Z.leb_gt; lia).
  rewrite Ha, Hinit, Hverify.
  change (negb (OK =? OK)) with false. cbv iota beta.
  state_frame. rewrite Hs, Hscript, arm_receive_timeout_trace.
  match goal with
  | |- context [Orchestrator.handshake_loop _ ?g0] =>
      rewrite (handshake_loop_complete pre GNUTLS_E_SUCCESS alarmed rest g0
                 Hpre (success_ends_loop _))
  end.
  change (negb (GNUTLS_E_SUCCESS =? GNUTLS_E_SUCCESS)) with false.
  cbv iota beta.
  match goal with
  | |- context [Verifier.verify_certificate fmt ?st ?gg] =>
      remember st as st1 eqn:Hst1; remember gg as g1 eqn:Hg1
  end.
  assert (Hs1 : session st1 = Some (set_handshake_script rest s))
    by (subst st1; reflexivity).
  assert (Hreq1 : verify_requirement st1 = VERIFY_REQUIRED)
    by (subst st1; reflexivity).
  assert (Hguard1 : have_set_peerdn st1 = false)
    by (subst st1; exact Hguard).
  assert (Hopen : G.smtp_in_open g1 = G.smtp_in_open g /\
                  G.smtp_out_open g1 = G.smtp_out_open g /\
                  same_input g g1).
  { subst g1. destruct (negb (G.tls_on_connect _)); repeat split. }
  clear Hst1 Hg1. rewrite Hreq1.
  assert (Hnone1 : no_peer_certificate (set_handshake_script rest s))
    by exact Hnone.
  destruct (peer_status_no_certificate fmt st1 g1 _ Hs1 Hguard1 Hnone1)
    as (rc & c & gp & Hps & Hrc & _).
  specialize (Hrc Hreq1).
  pose proof (peer_status_globals fmt _ _ _ _ _ Hps) as Hgp.
  unfold Verifier.verify_certificate. rewrite Hps.
  assert (Hne : negb (rc =? OK) = true)
    by (destruct Hrc; subst rc; reflexivity).
  rewrite Hne.
  change (Z.land GNUTLS_CERT_INVALID
            (Z.lor GNUTLS_CERT_INVALID GNUTLS_CERT_REVOKED) =? 0)
    with false.
  rewrite orb_true_r. state_frame. rewrite Hreq1.
  cbn [is_required]. unfold tls_error. cbv iota beta.
  state_frame. rewrite Hreq1. cbv iota beta.
  eexists; eexists; exists (G.trace gp).
  split; [reflexivity|].
  destruct Hopen as (Hin & Hout & Hsame).
  split; [unfold G.emit; cbn [G.trace G.set_trace];
          rewrite <- app_assoc; reflexivity|].
  split; [reflexivity|].
  unfold verifier_wrote in Hgp.
  split; [change (G.smtp_in_open gp = G.smtp_in_open g);
          rewrite Hgp; exact Hin|].
  split; [change (G.smtp_out_open gp = G.smtp_out_open g);
          rewrite Hgp; exact Hout|].
  eapply same_input_trans; [exact Hsame|].
  eapply same_input_trans; [apply verifier_wrote_same_input; exact Hgp|].
  repeat split.
Qed.

(** X12. A server whose client matches [tls_verify_hosts] returns OK only with
    a verified certificate: in every run that ends with OK the verified flag
    of the state is set, and that is what [tls_certificate_verified]
    publishes. *)
Theorem tls_server_start_required_ok_is_verified
    (fmt : string -> string -> Z -> string) (E : Orchestrator.start_env)
    (state_server state' : exim_gnutls_state_st) (g g' : G.t) :
  Orchestrator.verify_hosts_match E = true ->
  Orchestrator.tls_server_start fmt E state_server g = Some (OK, state', g') ->
  verify_requirement state' = VERIFY_REQUIRED /\
  peer_cert_verified state' = true /\
  G.tls_certificate_verified g' = true.
Proof.
  intros Hverify. unfold Orchestrator.tls_server_start.
  destruct (G.tls_active g >=? 0); [unfold tls_error; discriminate|].
  destruct (negb (Orchestrator.tls_init_rc E =? OK)) eqn:Hinit.
  { intros H. injection H as Hrc _ _. rewrite Hrc in Hinit. discriminate. }
  rewrite Hverify. cbv iota beta. state_frame.
  destruct (session (Orchestrator.tls_init_state E)) as [s|]; [|discriminate].
  match goal with
  | |- match Orchestrator.handshake_loop ?a ?b with _ => _ end = _ -> _ =>
      destruct (Orchestrator.handshake_loop a b) as [[[rc0 rest] g1]|];
        [|discriminate]
  end.
  destruct (negb (rc0 =? GNUTLS_E_SUCCESS)); [discriminate|].
  match goal with
  | |- context [Verifier.verify_certificate fmt ?st ?gg] =>
      remember st as st1 eqn:Hst1; remember gg as g1' eqn:Hg1
  end.
  assert (Hreq1 : verify_requirement st1 = VERIFY_REQUIRED)
    by (subst st1; reflexivity).
  clear Hst1 Hg1. rewrite Hreq1.
  destruct (Verifier.verify_certificate fmt st1 g1')
    as [[[[ok error] stv] gv]|] eqn:Hvc; [|discriminate].
  destruct (verify_certificate_state fmt st1 stv g1' gv ok error Hvc)
    as (_ & Hreqv & _ & Hguard & Hok).
  rewrite Hreq1 in Hreqv, Hok. cbn [is_required negb] in Hok.
  rewrite orb_false_r in Hok.
  destruct ok.
  - rewrite (peer_status_guarded fmt stv gv Hguard).
    change (negb (OK =? OK)) with false. cbv iota.
    destruct (Verifier.extract_exim_vars_from_tls_state stv gv)
      as [gx|] eqn:Hx; [|discriminate].
    destruct (extract_globals stv gv gx Hx) as (_ & _ & _ & _ & _ & _ & Hver).
    intros H. injection H as <- <-.
    split; [exact Hreqv|]. split; [symmetry; exact Hok|].
    change (G.tls_certificate_verified gx = true). congruence.
  - rewrite Hreqv. unfold tls_error. discriminate.
Qed.

Lemma same_streams_trans (g1 g2 g3 : G.t) :
  same_streams g1 g2 -> same_streams g2 g3 -> same_streams g1 g3.
Proof.
  unfold same_streams. intros (A1 & B1) (A2 & B2). split; congruence.
Qed.

Lemma verifier_wrote_same_streams (g g' : G.t) :
  verifier_wrote g g' -> same_streams g g'.
Proof. unfold verifier_wrote. intros ->. destruct g. split; reflexivity. Qed.

(** What [peer_status] and [verify_certificate] leave alone. *)
Lemma peer_status_untouched (fmt : string -> string -> Z -> string)
    (state state1 : exim_gnutls_state_st) (g g1 : G.t) (rc : Z) :
  Verifier.peer_status fmt state g = Some (rc, state1, g1) ->
  same_input g g1 /\ same_streams g g1 /\
  xfer_buffer state1 = xfer_buffer state /\
  fd_out state1 = fd_out state /\
  verify_requirement state1 = verify_requirement state /\
  peer_cert_verified state1 = peer_cert_verified state.
Proof.
  intros H.
  pose proof (peer_status_globals fmt state state1 g g1 rc H) as Hg.
  destruct (peer_status_state fmt state state1 g g1 rc H) as [Hid _].
  split; [apply verifier_wrote_same_input; exact Hg|].
  split; [apply verifier_wrote_same_streams; exact Hg|].
  repeat split; rewrite Hid; reflexivity.
Qed.

Lemma verify_certificate_untouched (fmt : string -> string -> Z -> string)
    (state state' : exim_gnutls_state_st) (g g' : G.t) (ok : bool)
    (error : option string) :
  Verifier.verify_certificate fmt state g = Some (ok, error, state', g') ->
  same_input g g' /\ same_streams g g' /\
  xfer_buffer state' = xfer_buffer state.
Proof.
  intros H.
  destruct (verify_certificate_frame fmt state state' g g' ok error H)
    as (rc & state1 & g1 & Hps & Hst & Hg).
  destruct (peer_status_untouched fmt state state1 g g1 rc Hps)
    as (Hin & Hstr & Hbuf & _).
  split; [eapply same_input_trans;
          [exact Hin|apply verifier_wrote_same_input; exact Hg]|].
  split; [eapply same_streams_trans;
          [exact Hstr|apply verifier_wrote_same_streams; exact Hg]|].
  rewrite Hst. exact Hbuf.
Qed.

(** X13. The client start never touches the input of the process: in every run
    the receive pointers, the pending plaintext and both SMTP streams are as
    before, and no transfer buffer is allocated.  A run that returns OK has
    published its descriptor in [tls_active]; without a trust store the policy
    is [VERIFY_NONE], and with one the run returns OK only with a verified
    certificate. *)
Theorem tls_client_start_outcome
    (fmt : string -> string -> Z -> string) (E : Orchestrator.start_env)
    (state' : exim_gnutls_state_st) (g g' : G.t) (rc : Z) :
  Orchestrator.tls_client_start fmt E g = Some (rc, state', g') ->
  receive_pointers g' = receive_pointers g /\
  G.smtp_inbuffer g' = G.smtp_inbuffer g /\
  G.smtp_in_open g' = G.smtp_in_open g /\
  G.smtp_out_open g' = G.smtp_out_open g /\
  xfer_buffer state' = xfer_buffer (Orchestrator.tls_init_state E) /\
  (rc = OK ->
   G.tls_active g' = Orchestrator.client_fd E /\
   (Orchestrator.verify_certs E = None ->
    verify_requirement state' = VERIFY_NONE) /\
   (Orchestrator.verify_certs E <> None ->
    verify_requirement state' = VERIFY_REQUIRED /\
    peer_cert_verified state' = true /\
    G.tls_certificate_verified g' = true)).
Proof.
  unfold Orchestrator.tls_client_start.
  destruct (negb (Orchestrator.tls_init_rc E =? OK)) eqn:Hinit.
  { intros H. injection H as <- <- <-.
    apply negb_true_iff, Z.eqb_neq in Hinit.
    repeat (split; [reflexivity|]). contradiction. }
  destruct (match Orchestrator.verify_certs E with
            | Some _ => _ | None => _ end) as [st0 g0] eqn:Hsel.
  assert (H0 : same_input g g0 /\ same_streams g g0 /\
               xfer_buffer st0 = xfer_buffer (Orchestrator.tls_init_state E) /\
               verify_requirement st0 =
                 match Orchestrator.verify_certs E with
                 | Some _ => VERIFY_REQUIRED
                 | None => VERIFY_NONE
                 end).
  { destruct (Orchestrator.verify_certs E); injection Hsel as <- <-;
      repeat split. }
  clear Hsel. state_frame.
  destruct (session st0) as [s|]; [|discriminate].
  match goal with
  | |- match Orchestrator.handshake_loop ?a ?b with _ => _ end = _ -> _ =>
      remember b as gb eqn:Hgb;
      destruct (Orchestrator.handshake_loop a gb) as [[[rc0 rest] g1]|]
        eqn:Hloop; [|discriminate]
  end.
  apply handshake_loop_sound in Hloop.
  destruct Hloop as (pre & alarmed & _ & _ & _ & Hg1).
  match goal with
  | |- context [Verifier.verify_certificate fmt ?st ?gg] =>
      remember st as st1 eqn:Hst1; remember gg as g1' eqn:Hg1'
  end.
  assert (H1 : same_input g g1' /\ same_streams g g1' /\
               xfer_buffer st1 = xfer_buffer (Orchestrator.tls_init_state E) /\
               verify_requirement st1 =
                 match Orchestrator.verify_certs E with
                 | Some _ => VERIFY_REQUIRED
                 | None => VERIFY_NONE
                 end /\
               fd_out st1 = Orchestrator.client_fd E).
  { destruct H0 as ((A & B & C & D) & (S1 & S2) & Hbuf & Hreq).
    subst g1' g1 gb st1. unfold same_input, same_streams, receive_pointers.
    cbn [G.receive_getc G.receive_ungetc G.receive_feof G.receive_ferror
         G.receive_smtp_buffered G.tls_active G.smtp_inbuffer
         G.ssl_xfer_buffer_size G.smtp_in_open G.smtp_out_open
         G.emit G.set_trace G.set_sigalrm_seen alarm after_steps] in *.
    repeat split; assumption. }
  clear H0 Hg1 Hgb Hg1' Hst1 g0 gb g1 st0.
  destruct H1 as (Hin1 & Hstr1 & Hbuf1 & Hreq1 & Hfd1).
  destruct (negb (rc0 =? GNUTLS_E_SUCCESS)).
  { unfold tls_error. intros H.
    destruct (host st1); injection H as <- <- <-;
      destruct Hin1 as (A & B & C & D); destruct Hstr1 as (S1 & S2);
      (split; [exact A|]); (split; [exact C|]);
      (split; [exact S1|]); (split; [exact S2|]);
      (split; [exact Hbuf1|]); discriminate. }
  match goal with
  | |- match ?v with _ => _ end = _ -> _ =>
      destruct v as [[[st2 g2]|[[r st2] g2]]|] eqn:Hver; [| |discriminate]
  end.
  - assert (H2 : same_input g g2 /\ same_streams g g2 /\
                 xfer_buffer st2 = xfer_buffer st1 /\
                 fd_out st2 = fd_out st1 /\
                 verify_requirement st2 = verify_requirement st1 /\
                 (verify_requirement st1 = VERIFY_REQUIRED ->
                  peer_cert_verified st2 = true /\
                  have_set_peerdn st2 = true)).
    { destruct (verify_requirement st1) eqn:Hv1.
      - injection Hver as <- <-.
        split; [assumption|]. split; [assumption|].
        split; [reflexivity|]. split; [reflexivity|].
        split; [exact Hv1|]. discriminate.
      - destruct (Orchestrator.verify_certs E); discriminate.
      - destruct (Verifier.verify_certificate fmt st1 g1')
          as [[[[ok err] stv] gv]|] eqn:Hvc; [|discriminate].
        destruct (verify_certificate_untouched fmt _ _ _ _ _ _ Hvc)
          as (A & B & C).
        destruct (verify_certificate_state fmt _ _ _ _ _ _ Hvc)
          as (_ & Hreqv & Hfdv & Hguard & Hok).
        rewrite Hv1 in Hreqv, Hok. cbn [is_required negb] in Hok.
        rewrite orb_false_r in Hok.
        destruct ok; [|unfold tls_error in Hver;
                       destruct (host stv); discriminate].
        injection Hver as <- <-.
        split; [eapply same_input_trans; eassumption|].
        split; [eapply same_streams_trans; eassumption|].
        repeat split; auto. }
    destruct H2 as (Hin2 & Hstr2 & Hbuf2 & Hfd2 & Hreq2 & Hver2).
    destruct (Verifier.peer_status fmt st2 g2) as [[[rc1 st3] g3]|] eqn:Hps;
      [|discriminate].
    destruct (peer_status_untouched fmt _ _ _ _ _ Hps)
      as (Hin3 & Hstr3 & Hbuf3 & Hfd3 & Hreq3 & Hpcv3).
    pose proof (same_input_trans _ _ _ Hin2 Hin3) as Hin.
    pose proof (same_streams_trans _ _ _ Hstr2 Hstr3) as Hstr.
    destruct (negb (rc1 =? OK)) eqn:Hrc1.
    { intros H. injection H as <- <- <-.
      apply negb_true_iff, Z.eqb_neq in Hrc1.
      destruct Hin as (A & B & C & D); destruct Hstr as (S1 & S2).
      (split; [exact A|]); (split; [exact C|]);
      (split; [exact S1|]); (split; [exact S2|]);
      (split; [congruence|]); contradiction. }
    destruct (Verifier.extract_exim_vars_from_tls_state st3 g3)
      as [g4|] eqn:Hx; [|discriminate].
    destruct (extract_globals st3 g3 g4 Hx)
      as (Hptr & Hbuf & _ & Hi & Ho & Hact & Hverified).
    destruct Hin as (A & B & C & D); destruct Hstr as (S1 & S2).
    intros H. injection H as <- <- <-.
    split; [congruence|]. split; [congruence|].
    split; [congruence|]. split; [congruence|].
    split; [congruence|]. intros _.
    split; [congruence|].
    split.
    + intros Hcas. rewrite Hcas in Hreq1. congruence.
    + intros Hcas.
      assert (Hr : verify_requirement st1 = VERIFY_REQUIRED)
        by (rewrite Hreq1; destruct (Orchestrator.verify_certs E);
            [reflexivity|congruence]).
      destruct (Hver2 Hr) as [Hv _].
      split; [congruence|]. split; congruence.
  - intros H. injection H as <- <- <-.
    destruct (verify_requirement st1) eqn:Hv1; [discriminate| |];
      (destruct (Verifier.verify_certificate fmt st1 g1')
         as [[[[ok err] stv] gv]|] eqn:Hvc; [|discriminate]);
      destruct (verify_certificate_untouched fmt _ _ _ _ _ _ Hvc)
        as ((A' & B' & C' & D') & (S1' & S2') & Hb');
      destruct Hin1 as (A & B & C & D); destruct Hstr1 as (S1 & S2);
      destruct ok; try discriminate;
      unfold tls_error in Hver;
      destruct (host stv); injection Hver as <- <- <-;
      (split; [change (receive_pointers gv = receive_pointers g); congruence|]);
      (split; [change (G.smtp_inbuffer gv = G.smtp_inbuffer g); congruence|]);
      (split; [change (G.smtp_in_open gv = G.smtp_in_open g); congruence|]);
      (split; [change (G.smtp_out_open gv = G.smtp_out_open g); congruence|]);
      (split; [congruence|]); discriminate.
Qed.

(** ** DH parameter cache: further properties *)

Ltac dh_unfold :=
  cbv beta iota zeta delta
    [DH.init_server_dh DH.read_cache DH.regenerate DH.emit
     DH.return_tls_error DH.exim_gnutls_err_check
     EarlyReturn.run EarlyReturn.bind EarlyReturn.ret EarlyReturn.return_
     EarlyReturn.modify tls_error negb fst snd];
  try change (-1 <? 0) with true; cbv beta iota.

Ltac dh_explore := repeat first [progress dh_unfold | break_inner].

Ltac trace_normalise :=
  unfold G.emit; cbn [G.trace G.set_trace]; rewrite <- ?app_assoc;
  cbn [app].

Ltac Z_facts :=
  repeat match goal with
  | H : (_ =? _) = true |- _ => apply Z.eqb_eq in H
  | H : (_ =? _) = false |- _ => apply Z.eqb_neq in H
  | H : (_ <? _) = true |- _ => apply Z.ltb_lt in H
  | H : (_ <? _) = false |- _ => apply Z.ltb_ge in H
  | H : (_ <=? _) = true |- _ => apply Z.leb_le in H
  | H : (_ <=? _) = false |- _ => apply Z.leb_gt in H
  | H : (_ >=? _) = true |- _ => rewrite Z.geb_leb in H
  | H : (_ >=? _) = false |- _ => rewrite Z.geb_leb in H
  end.

(** X14. A cache file that is there, can be read and is accepted by the
    engine: [init_server_dh] returns OK having opened, read, closed and
    imported it, and nothing else; no parameters are generated and no file is
    written. *)
Theorem init_server_dh_uses_cache (E : DH.env) (g : G.t) (fd errno : Z)
    (st_size sz : Z) (data : list byte) :
  let dh_bits := to_uint (DH.sec_param_to_pk_bits E) in
  let filename := DH.cache_filename E dh_bits in
  reaches_open E ->
  DH.Uopen E filename = (fd, errno) -> 0 <= fd ->
  DH.fstat E = Some (true, st_size) ->
  DH.fdopen_ok E = true ->
  DH.malloc_ok E st_size = true ->
  DH.fread E st_size = (sz, data) -> sz <> 0 ->
  DH.dh_params_import_pkcs3 E data = GNUTLS_E_SUCCESS ->
  DH.init_server_dh E g =
    (OK, G.set_trace
           (G.trace g ++
            [Ev_engine Dh_params_init; Ev_sys (Sys_open filename);
             Ev_sys (Sys_close filename);
             Ev_engine Dh_params_import_pkcs3]) g).
Proof.
  intros dh_bits filename (Hinit & Hbits & Hlen) Hopen Hfd Hstat Hfdopen
    Hmalloc Hread Hsz Himport.
  assert (Hb : (dh_bits =? 0) = false) by (apply Z.eqb_neq; exact Hbits).
  assert (Hl : (DH.PATH_MAX E <=? DH.Ustrlen filename) = false)
    by (apply Z.leb_gt; exact Hlen).
  assert (Hge : (fd >=? 0) = true) by (rewrite Z.geb_leb; apply Z.leb_le; lia).
  assert (Hz : (sz =? 0) = false) by (apply Z.eqb_neq; exact Hsz).
  unfold DH.init_server_dh, DH.read_cache.
  fold dh_bits. fold filename.
  rewrite Hinit, Hb, Hl, Hopen, Hge, Hstat, Hfdopen, Hmalloc, Hread, Hz,
    Himport.
  repeat (dh_unfold;
          try change (GNUTLS_E_SUCCESS =? GNUTLS_E_SUCCESS) with true;
          try change (GNUTLS_E_SUCCESS <? 0) with false).
  trace_normalise. reflexivity.
Qed.

(** X15. [init_server_dh] returns OK or DEFER and writes to no global but the
    trace.  It returns DEFER exactly after logging one error, which is the
    last thing it does; a run that returns OK logs none. *)
Theorem init_server_dh_result (E : DH.env) (g : G.t) :
  exists es,
    snd (DH.init_server_dh E g) = G.set_trace (G.trace g ++ es) g /\
    ((fst (DH.init_server_dh E g) = OK /\ filter is_tls_error es = []) \/
     (fst (DH.init_server_dh E g) = DEFER /\
      exists prefix msg,
        filter is_tls_error es = [Ev_tls_error prefix msg None] /\
        last es (Ev_alarm 0) = Ev_tls_error prefix msg None)).
Proof.
  dh_explore; trace_normalise;
    (eexists; split; [reflexivity|]);
    first [ left; split; reflexivity
          | right; split; [reflexivity|];
            eexists; eexists; split; reflexivity ].
Qed.

(** X16. New parameters are generated only when the cache file is absent: in
    every run that adds a step of the regeneration to the trace (temporary
    file, generation, export, write, rename), the file could not be opened and
    the reason was ENOENT.  A cache file that opens, or fails to open for
    another reason, is never replaced. *)
Theorem init_server_dh_regenerates_only_when_absent (E : DH.env) (g : G.t) :
  let filename :=
    DH.cache_filename E (to_uint (DH.sec_param_to_pk_bits E)) in
  exists es,
    snd (DH.init_server_dh E g) = G.set_trace (G.trace g ++ es) g /\
    (existsb is_regeneration es = true ->
     fst (DH.Uopen E filename) < 0 /\
     snd (DH.Uopen E filename) = DH.ENOENT).
Proof.
  cbv zeta.
  dh_explore; trace_normalise;
    (eexists; split; [reflexivity|]);
    cbn [existsb is_regeneration orb];
    intros Hregen; try discriminate;
    Z_facts; unfold GNUTLS_E_SUCCESS in *; split; lia.
Qed.


(** ** Credential resolver: further properties *)

Lemma run_bind {S A : Type} (m : EarlyReturn.M (S := S) A)
    (f : A -> EarlyReturn.M (S := S) Z) (s : S) :
  EarlyReturn.run (EarlyReturn.bind m f) s =
    match m s with
    | (inl a, s') => EarlyReturn.run (f a) s'
    | (inr rc, s') => (rc, s')
    end.
Proof.
  unfold EarlyReturn.run, EarlyReturn.bind.
  destruct (m s) as [[a|rc] s']; reflexivity.
Qed.

(** Once the engine has allocated the new credential set, nothing of the
    old one is read. *)
Lemma allocate_replaces (E : Resolver.env) (old : option credentials)
    (state : exim_gnutls_state_st) (g : G.t) :
  Resolver.certificate_allocate_credentials E = GNUTLS_E_SUCCESS ->
  Resolver.allocate E (set_x509_cred old state, g) =
  Resolver.allocate E (state, g).
Proof.
  intros Halloc. destruct state.
  unfold Resolver.allocate. rewrite Halloc.
  change (GNUTLS_E_SUCCESS =? GNUTLS_E_SUCCESS) with true.
  resolver_unfold.
  repeat first [ progress resolver_unfold | break_inner ]; reflexivity.
Qed.

(** X18. The resolver replaces the credential set, it never adds to the one
    that is there: when the engine allocates the new set, the outcome (return
    code, state and globals) is the same whatever credential set the state
    held before, loaded or not. *)
Theorem tls_expand_session_files_replaces_credentials (E : Resolver.env)
    (old : option credentials) (state : exim_gnutls_state_st) (g : G.t) :
  Resolver.certificate_allocate_credentials E = GNUTLS_E_SUCCESS ->
  Resolver.tls_expand_session_files E (set_x509_cred old state) g =
  Resolver.tls_expand_session_files E state g.
Proof.
  intros Halloc. unfold Resolver.tls_expand_session_files.
  rewrite !run_bind. rewrite (allocate_replaces E old state g Halloc).
  reflexivity.
Qed.

(** X19. What the resolver writes, in every run: of the state, the credential
    set, the SNI trigger, the private key setting and the four expanded
    settings, and nothing else; of the globals, the trace, by at most one line
    of the log.  The SNI trigger is raised when the test before the expansion
    holds and is never lowered.  A run that returns OK has logged nothing;
    FAIL is returned to a client only. *)
Theorem tls_expand_session_files_writes (E : Resolver.env)
    (state : exim_gnutls_state_st) (g : G.t) :
  let '(rc, state', g') := Resolver.tls_expand_session_files E state g in
  resolver_wrote state state' /\
  trigger_sni_changes state' =
    trigger_sni_changes state || sni_selects_certificate state /\
  (exists es, g' = G.set_trace (G.trace g ++ es) g /\
              (List.length es <= 1)%nat /\ (rc = OK -> es = [])) /\
  (rc = OK \/ rc = DEFER \/ (rc = FAIL /\ host state <> None)).
Proof.
  destruct state. unfold resolver_wrote, sni_selects_certificate.
  resolver_unfold.
  repeat first [ progress resolver_unfold | break_inner ];
    (split; [reflexivity|]);
    (split;
     [ repeat match goal with
              | H : Resolver.Ustrstr _ _ = _ |- _ => rewrite H
              end;
       rewrite ?orb_true_r, ?orb_false_r; reflexivity|]);
    (split;
     [ first
         [ exists []; split; [rewrite app_nil_r, set_trace_same; reflexivity|];
           split; [apply Nat.le_0_1|reflexivity]
         | eexists; split; [reflexivity|];
           split; [apply Nat.le_refl|discriminate] ]|]);
    first [ left; reflexivity
          | right; left; reflexivity
          | right; right; split; [reflexivity|discriminate] ].
Qed.

(** X20. What a run of the resolver that returns OK has loaded into the new
    credential set: the key pair named by the expanded certificate and key
    settings when the certificate setting expanded to a name, and nothing
    otherwise; the trust anchors named by the expanded trust setting, or none;
    the CRL named by the expanded CRL setting only together with trust
    anchors; and no DH parameters.  A private key setting that was unset or
    empty has become the certificate setting, expanded as the certificate was.
    *)
Theorem tls_expand_session_files_loads (E : Resolver.env)
    (state : exim_gnutls_state_st) (g : G.t) :
  let '(rc, state', g') := Resolver.tls_expand_session_files E state g in
  rc = OK ->
  (exists c,
     x509_cred state' = Some c /\
     dh_params c = false /\
     key_file c =
       (if Resolver.nonempty (exp_tls_certificate state')
        then Some (Resolver.string_of (exp_tls_certificate state'),
                   Resolver.string_of (exp_tls_privatekey state'))
        else None) /\
     (trust_file c = None \/
      trust_file c = exp_tls_verify_certificates state') /\
     (crl_file c = None \/
      (crl_file c = exp_tls_crl state' /\ trust_file c <> None))) /\
  (if Resolver.nonempty (tls_privatekey state)
   then tls_privatekey state' = tls_privatekey state
   else tls_privatekey state' = tls_certificate state /\
        exp_tls_privatekey state' = exp_tls_certificate state').
Proof.
  destruct state.
  resolver_unfold.
  repeat first [ progress resolver_unfold | break_inner ];
    intros Hrc; try discriminate Hrc;
    cbv beta iota delta
      [Resolver.with_key_file Resolver.with_trust_file Resolver.with_crl_file
       empty_credentials key_file trust_file crl_file dh_params];
    (split;
     [ eexists; split; [reflexivity|]; split; [reflexivity|];
       split; [reflexivity|];
       split;
       [ first [left; reflexivity | right; reflexivity]
       | first [ left; reflexivity
               | right; split; [reflexivity|discriminate] ] ]
     | first [ reflexivity | split; reflexivity ] ]).
Qed.

(** X21. A certificate is mandatory for a server and optional for a client.
    When the certificate setting is unset or expands to nothing, a server's
    resolve logs "no TLS server certificate is specified" and returns DEFER
    with the new credential set still empty; a client's resolve goes on, and
    with no key and no trust store configured it returns OK with an empty
    credential set and has logged nothing. *)
Theorem tls_expand_session_files_without_certificate (E : Resolver.env)
    (state : exim_gnutls_state_st) (g : G.t) :
  Resolver.certificate_allocate_credentials E = GNUTLS_E_SUCCESS ->
  expands_to_nothing E (tls_certificate state) ->
  (host state = None ->
   exists state',
     Resolver.tls_expand_session_files E state g =
       (DEFER, state',
        G.emit (Ev_tls_error "no TLS server certificate is specified"
                  Msg_null None) g) /\
     x509_cred state' = Some empty_credentials) /\
  (host state <> None ->
   tls_privatekey state = None ->
   Resolver.nonempty (tls_verify_certificates state) = false ->
   exists state',
     Resolver.tls_expand_session_files E state g = (OK, state', g) /\
     x509_cred state' = Some empty_credentials).
Proof.
  intros Halloc Hnothing. destruct state. simpl in Hnothing.
  split.
  - intros Hhost. simpl in Hhost. subst.
    match type of Hnothing with
    | expands_to_nothing _ ?c => destruct c as [t|]
    | match ?c with _ => _ end => destruct c as [t|]
    end;
      [destruct Hnothing as [Hx|Hx]|];
      resolver_unfold; rewrite ?Halloc, ?Hx;
      change (GNUTLS_E_SUCCESS =? GNUTLS_E_SUCCESS) with true;
      repeat first [ rewrite Hx | progress resolver_unfold | break_inner ];
      eexists; split; reflexivity.
  - intros Hhost Hkey Htrust. simpl in Hhost, Hkey, Htrust. subst.
    match type of Hhost with ?h <> None => destruct h as [h|] end;
      [|congruence].
    match type of Hnothing with
    | expands_to_nothing _ ?c => destruct c as [t|]
    | match ?c with _ => _ end => destruct c as [t|]
    end;
      [destruct Hnothing as [Hx|Hx]|];
      resolver_unfold; rewrite ?Halloc, ?Hx;
      change (GNUTLS_E_SUCCESS =? GNUTLS_E_SUCCESS) with true;
      repeat first [ rewrite Hx | rewrite Htrust
                   | progress resolver_unfold | break_inner ];
      try discriminate;
      eexists; split; reflexivity.
Qed.

Ltac use_known :=
  match goal with
  | H : ?x = _ |- context [match ?x with _ => _ end] => rewrite H
  end.

(** X22. Resolving twice is resolving once: when a run returns OK, a second
    run on the state and globals it left, with the expander, the file system
    and the engine answering as before, returns OK and leaves that state and
    those globals exactly as they are. *)
Theorem tls_expand_session_files_idempotent (E : Resolver.env)
    (state state1 : exim_gnutls_state_st) (g g1 : G.t) :
  Resolver.tls_expand_session_files E state g = (OK, state1, g1) ->
  Resolver.tls_expand_session_files E state1 g1 = (OK, state1, g1).
Proof.
  remember (Resolver.tls_expand_session_files E state1 g1) as second
    eqn:Hsecond.
  destruct state. resolver_unfold.
  repeat first [ progress resolver_unfold | break_inner ];
    intros H; try discriminate H; injection H as <- <-;
    subst second; resolver_unfold;
    repeat first [ use_known | progress resolver_unfold
                 | break_inner; try congruence ];
    try congruence; reflexivity.
Qed.

(** ** Session set-up and tear-down *)

Ltac statics_unfold :=
  cbv beta iota zeta delta
    [Lifecycle.deref Lifecycle.assign other
     Lifecycle.state_server Lifecycle.state_client
     Lifecycle.current_global_tls_state Lifecycle.dh_server_params
     Lifecycle.exim_gnutls_base_init_done Lifecycle.library_calls
     Lifecycle.set_state_server Lifecycle.set_state_client
     Lifecycle.set_current_global_tls_state Lifecycle.set_dh_server_params
     Lifecycle.set_exim_gnutls_base_init_done Lifecycle.set_library_calls].

(** X23. Closing an active session: the session is deinitialised, the block it
    lived in is reset to its initial value and [tls_active] becomes -1; the
    library itself is shut down, and its guard lowered, exactly when the other
    block holds no session.  Nothing else moves: the other block, the DH
    parameters, the receive pointers and the other published facts are as they
    were. *)
Theorem tls_close_active (shutdown : bool) (st : Lifecycle.statics)
    (g : G.t) (b : Lifecycle.block) (s : gnutls_session) :
  0 <= G.tls_active g ->
  Lifecycle.current_global_tls_state st = Some b ->
  session (Lifecycle.deref b st) = Some s ->
  exists st',
    Lifecycle.tls_close shutdown (st, g) =
      Some (st', G.set_tls_active (-1) (G.emit (Ev_engine Deinit) g)) /\
    Lifecycle.deref b st' = exim_gnutls_state_init /\
    Lifecycle.deref (other b) st' = Lifecycle.deref (other b) st /\
    Lifecycle.exim_gnutls_base_init_done st' =
      (if idle (Lifecycle.deref (other b) st) then false
       else Lifecycle.exim_gnutls_base_init_done st) /\
    Lifecycle.library_calls st' =
      Lifecycle.library_calls st ++
      (if shutdown then [Lifecycle.Bye] else []) ++
      (if idle (Lifecycle.deref (other b) st)
       then [Lifecycle.Global_deinit] else []) /\
    Lifecycle.dh_server_params st' = Lifecycle.dh_server_params st /\
    Lifecycle.current_global_tls_state st' = Some b.
Proof.
  intros Ha Hcur Hs. unfold Lifecycle.tls_close.
  assert (Hlt : (G.tls_active g <? 0) = false) by (apply Z.ltb_ge; exact Ha).
  rewrite Hlt, Hcur, Hs. unfold idle.
  destruct st as [srv cli cur dh done calls].
  cbn [Lifecycle.current_global_tls_state] in Hcur. subst cur.
  destruct b, shutdown; statics_unfold; cbn [session exim_gnutls_state_init];
    statics_unfold;
    match goal with
    | |- context [match session ?x with _ => _ end] => destruct (session x)
    end;
    eexists; (split; [reflexivity|]);
    rewrite ?app_nil_r, <- ?app_assoc; repeat split; reflexivity.
Qed.

(** X24. Where TLS is not active [tls_close] does nothing at all, so that
    closing what has been closed changes nothing, and neither does closing
    after the plaintext fallback of [tls_getc]: the fallback has deinitialised
    the session itself, and the library is then never shut down by
    [tls_close]. *)
Theorem tls_close_inactive (shutdown : bool) :
  (forall s, G.tls_active (snd s) < 0 -> Lifecycle.tls_close shutdown s = Some s) /\
  (forall shutdown' s s',
     Lifecycle.tls_close shutdown' s = Some s' ->
     Lifecycle.tls_close shutdown s' = Some s') /\
  (forall junk rest session_ state g c state' g' st,
     session state = Some session_ ->
     recv_script session_ = (0, junk) :: rest ->
     xfer_buffer_hwm state <= xfer_buffer_lwm state ->
     RecordIO.tls_getc state g = Some (c, state', g') ->
     Lifecycle.tls_close shutdown (st, g') = Some (st, g')).
Proof.
  assert (Hinactive : forall sh s, G.tls_active (snd s) < 0 ->
                        Lifecycle.tls_close sh s = Some s).
  { intros sh [st g] Hlt. unfold Lifecycle.tls_close. cbn [snd] in Hlt.
    apply Z.ltb_lt in Hlt. rewrite Hlt. reflexivity. }
  split; [apply Hinactive|]. split.
  - intros shutdown' [st g] s' H. apply Hinactive.
    unfold Lifecycle.tls_close in H.
    destruct (G.tls_active g <? 0) eqn:Hlt.
    + injection H as <-. apply Z.ltb_lt. exact Hlt.
    + destruct (Lifecycle.current_global_tls_state st) as [b|];
        [|discriminate].
      destruct (session (Lifecycle.deref b st)); [|discriminate].
      injection H as <-. cbn [snd G.tls_active G.set_tls_active]. lia.
  - intros junk rest session_ state g c state' g' st Hs Hscript Hempty Hget.
    apply Hinactive. cbn [snd].
    destruct (tls_getc_fallback_globals junk rest session_ state g
                Hs Hscript Hempty) as [c' Hc].
    rewrite Hc in Hget. injection Hget as _ _ <-.
    destruct g. unfold RecordIO.clear_tls_vars, RecordIO.revert_to_smtp.
    globals_unfold. lia.
Qed.

Lemma trace_extended_refl (g : G.t) : trace_extended g g.
Proof. exists []. rewrite app_nil_r, set_trace_same. reflexivity. Qed.

Lemma trace_extended_trans (g1 g2 g3 : G.t) :
  trace_extended g1 g2 -> trace_extended g2 g3 -> trace_extended g1 g3.
Proof.
  intros [es1 ->] [es2 ->]. exists (es1 ++ es2).
  cbn [G.trace G.set_trace]. rewrite app_assoc. reflexivity.
Qed.

Lemma trace_extended_emit (e : event) (g : G.t) :
  trace_extended g (G.emit e g).
Proof. exists [e]. reflexivity. Qed.

(** [init_server_dh] writes to no global but the trace. *)
Lemma init_server_dh_extends_trace (E : DH.env) (g : G.t) :
  trace_extended g (snd (DH.init_server_dh E g)).
Proof.
  unfold trace_extended.
  dh_explore; trace_normalise; eexists; reflexivity.
Qed.

(** The resolver writes seven fields of the state, and of the globals the
    trace. *)
Lemma tls_expand_session_files_frame (E : Resolver.env)
    (state : exim_gnutls_state_st) (g : G.t) :
  let '(_, state', g') := Resolver.tls_expand_session_files E state g in
  resolver_wrote state state' /\ trace_extended g g'.
Proof.
  destruct state. unfold resolver_wrote, trace_extended.
  resolver_unfold.
  repeat first [ progress resolver_unfold | break_inner ];
    (split; [reflexivity|]);
    first [ exists []; rewrite app_nil_r, set_trace_same; reflexivity
          | eexists; reflexivity ].
Qed.

(** A run of the resolver that returns OK leaves the private key setting as
    it was, or, where it was unset or empty, equal to the certificate
    setting. *)
Lemma tls_expand_session_files_privatekey (E : Resolver.env)
    (state : exim_gnutls_state_st) (g : G.t) :
  let '(rc, state', _) := Resolver.tls_expand_session_files E state g in
  rc = OK ->
  tls_privatekey state' =
    if Resolver.nonempty (tls_privatekey state)
    then tls_privatekey state else tls_certificate state.
Proof.
  destruct state.
  resolver_unfold.
  repeat first [ progress resolver_unfold | break_inner ];
    intros Hrc; try discriminate Hrc; reflexivity.
Qed.

Ltac life_unfold :=
  cbv beta iota zeta delta
    [Lifecycle.tls_set_remaining_x509 Lifecycle.init_server_dh
     Lifecycle.call Lifecycle.state_of Lifecycle.set_state
     Lifecycle.set_statics Lifecycle.on_block
     Lifecycle.exim_gnutls_err_check Lifecycle.return_tls_error
     Lifecycle.global_init_once Lifecycle.new_session Lifecycle.client_sni
     Lifecycle.priorities
     Resolver.expand_check Resolver.log_write
     EarlyReturn.run EarlyReturn.bind EarlyReturn.ret EarlyReturn.return_
     EarlyReturn.modify EarlyReturn.get EarlyReturn.when
     tls_error negb fst snd].

Ltac state_unfold :=
  cbv beta iota zeta delta
    [Resolver.nonempty Resolver.string_of fresh_block
     session x509_cred priority_cache verify_requirement fd_in fd_out
     peer_cert_verified trigger_sni_changes have_set_peerdn host peerdn
     ciphersuite received_sni tls_certificate tls_privatekey tls_sni
     tls_verify_certificates tls_crl tls_require_ciphers exp_tls_certificate
     exp_tls_privatekey exp_tls_sni exp_tls_verify_certificates exp_tls_crl
     exp_tls_require_ciphers xfer_buffer xfer_buffer_lwm xfer_buffer_hwm
     xfer_eof xfer_error
     set_session set_x509_cred set_verify_requirement set_fd_in set_fd_out
     set_peer_cert_verified set_trigger_sni_changes set_have_set_peerdn
     set_peerdn set_ciphersuite set_tls_privatekey set_exp_tls_certificate
     set_exp_tls_privatekey set_exp_tls_verify_certificates set_exp_tls_crl
     set_xfer_buffer set_xfer_buffer_lwm set_xfer_buffer_hwm set_xfer_error
     set_configuration set_priority_cache set_received_sni set_exp_tls_sni
     set_exp_tls_require_ciphers exim_gnutls_state_init].

Ltac life_explore :=
  repeat first [ progress life_unfold | progress statics_unfold
               | progress state_unfold | break_inner ].

Ltac life_unfold_in H :=
  cbv beta iota zeta delta
    [Lifecycle.tls_set_remaining_x509 Lifecycle.init_server_dh
     Lifecycle.call Lifecycle.state_of Lifecycle.set_state
     Lifecycle.set_statics Lifecycle.on_block
     Lifecycle.exim_gnutls_err_check Lifecycle.return_tls_error
     EarlyReturn.run EarlyReturn.bind EarlyReturn.ret EarlyReturn.return_
     EarlyReturn.modify EarlyReturn.get EarlyReturn.when
     tls_error negb fst snd
     Lifecycle.deref Lifecycle.assign
     Lifecycle.state_server Lifecycle.state_client
     Lifecycle.current_global_tls_state Lifecycle.dh_server_params
     Lifecycle.exim_gnutls_base_init_done Lifecycle.library_calls
     Lifecycle.set_state_server Lifecycle.set_state_client
     Lifecycle.set_current_global_tls_state Lifecycle.set_dh_server_params
     Lifecycle.set_exim_gnutls_base_init_done Lifecycle.set_library_calls]
    in H.

Ltac all_unfold_in_all :=
  cbv beta iota zeta delta
    [Lifecycle.deref Lifecycle.assign
     Lifecycle.state_server Lifecycle.state_client
     Lifecycle.current_global_tls_state Lifecycle.dh_server_params
     Lifecycle.exim_gnutls_base_init_done Lifecycle.library_calls
     Lifecycle.set_state_server Lifecycle.set_state_client
     Lifecycle.set_current_global_tls_state Lifecycle.set_dh_server_params
     Lifecycle.set_exim_gnutls_base_init_done Lifecycle.set_library_calls
     fresh_block
     session x509_cred priority_cache verify_requirement fd_in fd_out
     peer_cert_verified trigger_sni_changes have_set_peerdn host peerdn
     ciphersuite received_sni tls_certificate tls_privatekey tls_sni
     tls_verify_certificates tls_crl tls_require_ciphers exp_tls_certificate
     exp_tls_privatekey exp_tls_sni exp_tls_verify_certificates exp_tls_crl
     exp_tls_require_ciphers xfer_buffer xfer_buffer_lwm xfer_buffer_hwm
     xfer_eof xfer_error
     set_session set_x509_cred set_verify_requirement set_fd_in set_fd_out
     set_peer_cert_verified set_trigger_sni_changes set_have_set_peerdn
     set_peerdn set_ciphersuite set_tls_privatekey set_exp_tls_certificate
     set_exp_tls_privatekey set_exp_tls_verify_certificates set_exp_tls_crl
     set_xfer_buffer set_xfer_buffer_lwm set_xfer_buffer_hwm set_xfer_error
     set_configuration set_priority_cache set_received_sni set_exp_tls_sni
     set_exp_tls_require_ciphers exim_gnutls_state_init] in *.

Ltac trace_extended_solve :=
  first
    [ apply trace_extended_refl
    | assumption
    | apply trace_extended_emit
    | eapply trace_extended_trans; [eassumption|apply trace_extended_emit] ].

(** [tls_set_remaining_x509] writes the credential set of the block, the
    DH pointer and the trace; a call that returns OK has made its engine
    calls and, for a server, has put the DH parameters in the credential
    set. *)
Lemma tls_set_remaining_x509_spec (E : Lifecycle.env) (b : Lifecycle.block)
    (st : Lifecycle.statics) (g : G.t) :
  let '(rc, (st', g')) := Lifecycle.tls_set_remaining_x509 E b (st, g) in
  trace_extended g g' /\
  st' =
    Lifecycle.set_library_calls (Lifecycle.library_calls st')
      (Lifecycle.set_dh_server_params (Lifecycle.dh_server_params st')
         (Lifecycle.assign b
            (set_x509_cred (x509_cred (Lifecycle.deref b st'))
               (Lifecycle.deref b st)) st)) /\
  Lifecycle.dh_server_params st' =
    match host (Lifecycle.deref b st) with
    | None =>
        Lifecycle.dh_server_params st ||
        (DH.dh_params_init (Lifecycle.dh E) =? GNUTLS_E_SUCCESS)
    | Some _ => Lifecycle.dh_server_params st
    end /\
  (rc = OK ->
   Lifecycle.library_calls st' =
     Lifecycle.library_calls st ++
     match host (Lifecycle.deref b st) with
     | None => [Lifecycle.Certificate_set_dh_params]
     | Some _ => []
     end ++ [Lifecycle.Credentials_set] /\
   x509_cred (Lifecycle.deref b st') =
     match host (Lifecycle.deref b st) with
     | None => Lifecycle.with_dh_params (x509_cred (Lifecycle.deref b st))
     | Some _ => x509_cred (Lifecycle.deref b st)
     end).
Proof.
  pose proof (init_server_dh_extends_trace (Lifecycle.dh E) g) as Hdh.
  destruct st as [srv cli cur dhp done calls].
  destruct b; life_unfold; statics_unfold;
    repeat first [ progress life_unfold | progress statics_unfold
                 | break_inner ];
    try match goal with
        | H : DH.init_server_dh _ _ = _ |- _ =>
            rewrite H in Hdh; cbn [snd] in Hdh
        end;
    (split; [trace_extended_solve|]);
    (split; [destruct srv, cli; reflexivity|]);
    (split; [reflexivity|]);
    intros Hrc; try discriminate Hrc;
    try (subst; discriminate);
    rewrite <- ?app_assoc; split; reflexivity.
Qed.

(** A server block whose DH parameters are there: the call has no DH work
    to do. *)
Lemma tls_set_remaining_x509_with_dh (E : Lifecycle.env) (b : Lifecycle.block)
    (st : Lifecycle.statics) (g : G.t) :
  host (Lifecycle.deref b st) = None ->
  Lifecycle.dh_server_params st = true ->
  Lifecycle.tls_set_remaining_x509 E b (st, g) =
    (if Lifecycle.credentials_set E =? GNUTLS_E_SUCCESS then OK else DEFER,
     (Lifecycle.set_library_calls
        (Lifecycle.library_calls st ++
         [Lifecycle.Certificate_set_dh_params; Lifecycle.Credentials_set])
        (Lifecycle.assign b
           (set_x509_cred
              (Lifecycle.with_dh_params (x509_cred (Lifecycle.deref b st)))
              (Lifecycle.deref b st)) st),
      if Lifecycle.credentials_set E =? GNUTLS_E_SUCCESS then g
      else G.emit (Ev_tls_error "gnutls_credentials_set"
                     (Msg_gnutls_strerror (Lifecycle.credentials_set E))
                     None) g)).
Proof.
  intros Hhost Hdh.
  destruct st as [srv cli cur dhp done calls].
  cbn [Lifecycle.dh_server_params] in Hdh. subst dhp.
  destruct b; cbn [Lifecycle.deref Lifecycle.state_server
                   Lifecycle.state_client] in Hhost;
    life_unfold; statics_unfold; rewrite Hhost;
    repeat first [ progress life_unfold | progress statics_unfold ];
    destruct (Lifecycle.credentials_set E =? GNUTLS_E_SUCCESS);
    rewrite <- ?app_assoc; reflexivity.
Qed.

(** A client block: the call binds the credential set to the session and
    does nothing else. *)
Lemma tls_set_remaining_x509_client (E : Lifecycle.env) (b : Lifecycle.block)
    (st : Lifecycle.statics) (g : G.t) (h : host_item) :
  host (Lifecycle.deref b st) = Some h ->
  Lifecycle.tls_set_remaining_x509 E b (st, g) =
    (if Lifecycle.credentials_set E =? GNUTLS_E_SUCCESS then OK else FAIL,
     (Lifecycle.set_library_calls
        (Lifecycle.library_calls st ++ [Lifecycle.Credentials_set]) st,
      if Lifecycle.credentials_set E =? GNUTLS_E_SUCCESS then g
      else G.emit (Ev_tls_error "gnutls_credentials_set"
                     (Msg_gnutls_strerror (Lifecycle.credentials_set E))
                     (Some h)) g)).
Proof.
  intros Hhost.
  destruct st as [srv cli cur dhp done calls].
  destruct b; cbn [Lifecycle.deref Lifecycle.state_server
                   Lifecycle.state_client] in Hhost;
    life_unfold; statics_unfold; rewrite Hhost;
    repeat first [ progress life_unfold | progress statics_unfold ];
    destruct (Lifecycle.credentials_set E =? GNUTLS_E_SUCCESS);
    reflexivity.
Qed.

(** X25. The DH parameters are made once in the life of a process, and for a
    server only.  After any call of [tls_set_remaining_x509] for a server in
    which [gnutls_dh_params_init] succeeded, whatever that call returned,
    [dh_server_params] is set, and a later call does not run [init_server_dh]
    again: it adds to the trace nothing but the error of
    [gnutls_credentials_set], if that fails.  For a client the call leaves
    [dh_server_params] and the credential set as they are. *)
Theorem init_server_dh_runs_once (E E' : Lifecycle.env) (b : Lifecycle.block)
    (st : Lifecycle.statics) (g : G.t) :
  let '(rc, (st1, g1)) := Lifecycle.tls_set_remaining_x509 E b (st, g) in
  (host (Lifecycle.deref b st) = None ->
   DH.dh_params_init (Lifecycle.dh E) = GNUTLS_E_SUCCESS ->
   Lifecycle.dh_server_params st1 = true /\
   let '(rc', (st2, g2)) := Lifecycle.tls_set_remaining_x509 E' b (st1, g1) in
   Lifecycle.dh_server_params st2 = true /\
   rc' = (if Lifecycle.credentials_set E' =? GNUTLS_E_SUCCESS
          then OK else DEFER) /\
   g2 = (if Lifecycle.credentials_set E' =? GNUTLS_E_SUCCESS then g1
         else G.emit (Ev_tls_error "gnutls_credentials_set"
                        (Msg_gnutls_strerror (Lifecycle.credentials_set E'))
                        None) g1)) /\
  (host (Lifecycle.deref b st) <> None ->
   Lifecycle.dh_server_params st1 = Lifecycle.dh_server_params st /\
   x509_cred (Lifecycle.deref b st1) = x509_cred (Lifecycle.deref b st) /\
   ~ In Lifecycle.Certificate_set_dh_params
       (skipn (List.length (Lifecycle.library_calls st))
          (Lifecycle.library_calls st1))).
Proof.
  pose proof (tls_set_remaining_x509_spec E b st g) as Hspec.
  destruct (host (Lifecycle.deref b st)) as [h|] eqn:Hhost.
  - rewrite (tls_set_remaining_x509_client E b st g h Hhost) in *.
    split; [discriminate|]. intros _.
    split; [reflexivity|]. split; [destruct b, st; reflexivity|].
    cbn [Lifecycle.library_calls Lifecycle.set_library_calls].
    rewrite skipn_app, Nat.sub_diag, skipn_all. cbn [skipn app].
    intros [H|[]]. discriminate H.
  - destruct (Lifecycle.tls_set_remaining_x509 E b (st, g))
      as [rc [st1 g1]].
    destruct Hspec as (_ & Hst1 & Hdh1 & _).
    split; [|intros H; contradiction].
    intros _ Hinit. rewrite Hinit in Hdh1.
    change (GNUTLS_E_SUCCESS =? GNUTLS_E_SUCCESS) with true in Hdh1.
    rewrite orb_true_r in Hdh1. split; [exact Hdh1|].
    assert (Hhost1 : host (Lifecycle.deref b st1) = None).
    { rewrite Hst1. destruct b, st; exact Hhost. }
    rewrite (tls_set_remaining_x509_with_dh E' b st1 g1 Hhost1 Hdh1).
    split; [destruct b; exact Hdh1|]. split; reflexivity.
Qed.

Lemma trace_extended_tls_sni (g g' : G.t) :
  trace_extended g g' -> G.tls_sni g' = G.tls_sni g.
Proof. intros [es ->]. reflexivity. Qed.

Lemma deref_assign (b : Lifecycle.block) (v : exim_gnutls_state_st)
    (st : Lifecycle.statics) :
  Lifecycle.deref b (Lifecycle.assign b v st) = v /\
  Lifecycle.deref (other b) (Lifecycle.assign b v st) =
    Lifecycle.deref (other b) st.
Proof. destruct b; split; reflexivity. Qed.

(** X26. The callback after the client hello.  It returns 0 or
    [GNUTLS_E_APPLICATION_ERROR_MIN].  When the engine has no server name of
    type DNS to give, nothing is changed.  When it has one, the name is stored
    in the current block and published in [tls_sni], in every run, and the
    other block is left alone; unless the block's SNI trigger is set, that is
    all the callback does, and the handshake is aborted only where the trigger
    is set. *)
Theorem exim_sni_handling_cb_outcomes (E : Lifecycle.env)
    (st st' : Lifecycle.statics) (g g' : G.t) (r : Z) :
  Lifecycle.exim_sni_handling_cb E (st, g) = Some (r, (st', g')) ->
  let '(rc, sni_type, sni_name) := Lifecycle.server_name_get E in
  (r = 0 \/ r = Lifecycle.GNUTLS_E_APPLICATION_ERROR_MIN) /\
  (rc <> GNUTLS_E_SUCCESS \/ sni_type <> Lifecycle.GNUTLS_NAME_DNS ->
   r = 0 /\ st' = st /\ g' = g) /\
  (rc = GNUTLS_E_SUCCESS -> sni_type = Lifecycle.GNUTLS_NAME_DNS ->
   exists b,
     Lifecycle.current_global_tls_state st = Some b /\
     received_sni (Lifecycle.deref b st') = Some sni_name /\
     G.tls_sni g' = Some sni_name /\
     Lifecycle.deref (other b) st' = Lifecycle.deref (other b) st /\
     (trigger_sni_changes (Lifecycle.deref b st) = false ->
      r = 0 /\
      st' = Lifecycle.assign b
              (set_received_sni (Some sni_name) (Lifecycle.deref b st)) st /\
      g' = G.set_tls_sni (Some sni_name) g) /\
     (r = Lifecycle.GNUTLS_E_APPLICATION_ERROR_MIN ->
      trigger_sni_changes (Lifecycle.deref b st) = true)).
Proof.
  unfold Lifecycle.exim_sni_handling_cb. cbn [fst snd].
  destruct (Lifecycle.server_name_get E) as [[rc sni_type] sni_name].
  destruct (rc =? GNUTLS_E_SUCCESS) eqn:Erc; cbn [negb].
  2: { intros H. injection H as <- <- <-. apply Z.eqb_neq in Erc.
       split; [left; reflexivity|]. split; [auto|]. intros; contradiction. }
  apply Z.eqb_eq in Erc.
  destruct (sni_type =? Lifecycle.GNUTLS_NAME_DNS) eqn:Ety; cbn [negb].
  2: { intros H. injection H as <- <- <-. apply Z.eqb_neq in Ety.
       split; [left; reflexivity|]. split; [auto|]. intros; contradiction. }
  apply Z.eqb_eq in Ety.
  destruct (Lifecycle.current_global_tls_state st) as [b|] eqn:Hcur;
    [|discriminate].
  set (st_a := Lifecycle.assign b
                 (set_received_sni (Some sni_name) (Lifecycle.deref b st)) st).
  destruct (deref_assign b (set_received_sni (Some sni_name)
                              (Lifecycle.deref b st)) st) as [Hda Hoa].
  fold st_a in Hda, Hoa. rewrite Hda.
  cbn [received_sni set_received_sni trigger_sni_changes].
  destruct (trigger_sni_changes (Lifecycle.deref b st)) eqn:Htrig;
    cbn [negb].
  2: { intros H. injection H as <- <- <-.
       split; [left; reflexivity|].
       split; [intros [H|H]; contradiction|]. intros _ _.
       exists b. split; [reflexivity|]. rewrite Hda.
       split; [reflexivity|]. split; [reflexivity|].
       split; [exact Hoa|]. split; [auto|].
       intros H; vm_compute in H; discriminate H. }
  pose proof (tls_expand_session_files_frame (Lifecycle.files E)
                (set_received_sni (Some sni_name) (Lifecycle.deref b st))
                (G.set_tls_sni (Some sni_name) g)) as Hframe.
  destruct (Resolver.tls_expand_session_files (Lifecycle.files E)
              (set_received_sni (Some sni_name) (Lifecycle.deref b st))
              (G.set_tls_sni (Some sni_name) g)) as [[rcR stateR] gR].
  destruct Hframe as [HstateR HgR].
  assert (HsniR : received_sni stateR = Some sni_name)
    by (rewrite HstateR; reflexivity).
  assert (HgsniR : G.tls_sni gR = Some sni_name)
    by (rewrite (trace_extended_tls_sni _ _ HgR); reflexivity).
  destruct (deref_assign b stateR st_a) as [Hdb Hob].
  rewrite Hoa in Hob.
  destruct (negb (rcR =? OK)).
  { intros H. injection H as <- <- <-.
    split; [right; reflexivity|].
    split; [intros [H|H]; contradiction|]. intros _ _.
    exists b. split; [reflexivity|]. rewrite Hdb.
    split; [exact HsniR|]. split; [exact HgsniR|].
    split; [exact Hob|]. split; [intros Hf; congruence|intros _; exact Htrig]. }
  pose proof (tls_set_remaining_x509_spec E b
                (Lifecycle.assign b stateR st_a) gR) as Hspec.
  destruct (Lifecycle.tls_set_remaining_x509 E b
              (Lifecycle.assign b stateR st_a, gR)) as [rcX [stX gX]].
  destruct Hspec as (HgX & HstX & _).
  assert (Hfinal : received_sni (Lifecycle.deref b stX) = Some sni_name /\
                   G.tls_sni gX = Some sni_name /\
                   Lifecycle.deref (other b) stX =
                     Lifecycle.deref (other b) st).
  { split; [|split].
    - rewrite HstX. rewrite Hdb. destruct b; exact HsniR.
    - rewrite (trace_extended_tls_sni _ _ HgX). exact HgsniR.
    - rewrite HstX. rewrite <- Hob. destruct b; reflexivity. }
  destruct Hfinal as (F1 & F2 & F3).
  destruct (negb (rcX =? OK)); intros H; injection H as <- <- <-;
    (split; [first [left; reflexivity | right; reflexivity]|]);
    (split; [intros [H|H]; contradiction|]); intros _ _;
    exists b; (split; [reflexivity|]);
    (split; [exact F1|]); (split; [exact F2|]); (split; [exact F3|]);
    (split; [intros Hf; congruence|]);
    first [ intros _; exact Htrig ].
Qed.

(** *** The stages of [tls_init] *)

Lemma global_init_once_inv (E : Lifecycle.env) (h : option host_item)
    (st : Lifecycle.statics) (g : G.t) (r : unit + Z) (s' : Lifecycle.store) :
  Lifecycle.global_init_once E h (st, g) = (r, s') ->
  match r with
  | inl _ =>
      s' =
        (Lifecycle.set_exim_gnutls_base_init_done true
           (Lifecycle.set_library_calls
              (Lifecycle.library_calls st ++
               (if Lifecycle.exim_gnutls_base_init_done st then []
                else [Lifecycle.Global_init])) st), g)
  | inr rc => rc <> OK
  end.
Proof.
  destruct st as [srv cli cur dhp done calls].
  life_unfold; statics_unfold.
  life_explore;
    intros H; injection H as ? ?; subst;
    rewrite ?app_nil_r; first [reflexivity | discriminate].
Qed.

Lemma new_session_inv (E : Lifecycle.env) (b : Lifecycle.block)
    (h : option host_item)
    (certificate privatekey sni cas crl require_ciphers : option string)
    (st : Lifecycle.statics) (g : G.t) (r : unit + Z) (s' : Lifecycle.store) :
  Lifecycle.new_session E b h certificate privatekey sni cas crl
    require_ciphers (st, g) = (r, s') ->
  match r with
  | inl _ =>
      fst (Lifecycle.init E b) = GNUTLS_E_SUCCESS /\
      s' =
        (Lifecycle.set_library_calls
           (Lifecycle.library_calls st ++ [Lifecycle.Init b])
           (Lifecycle.assign b
              (fresh_block (snd (Lifecycle.init E b)) h certificate
                 privatekey sni cas crl require_ciphers) st), g)
  | inr rc => rc <> OK
  end.
Proof.
  destruct st as [srv cli cur dhp done calls]. unfold fresh_block.
  destruct b; life_unfold; statics_unfold;
    life_explore;
    intros H; injection H as ? ?; subst;
    first [ discriminate
          | split; [apply Z.eqb_eq; assumption|reflexivity] ].
Qed.

Lemma client_sni_inv (E : Lifecycle.env) (b : Lifecycle.block)
    (h : option host_item) (st : Lifecycle.statics) (g : G.t)
    (r : unit + Z) (st' : Lifecycle.statics) (g' : G.t) :
  Lifecycle.client_sni E b h (st, g) = (r, (st', g')) ->
  match r with
  | inl _ =>
      g' = g /\
      st' =
        Lifecycle.set_library_calls
          (Lifecycle.library_calls st ++
           server_name_calls h (exp_tls_sni (Lifecycle.deref b st')))
          (Lifecycle.assign b
             (set_exp_tls_sni (exp_tls_sni (Lifecycle.deref b st'))
                (Lifecycle.deref b st)) st)
  | inr rc => rc <> OK
  end.
Proof.
  destruct st as [srv cli cur dhp done calls]. unfold server_name_calls.
  destruct srv, cli.
  destruct b; life_unfold; statics_unfold;
    life_explore;
    intros H; injection H as ? ? ?; subst;
    rewrite ?app_nil_r;
    first [ discriminate | split; reflexivity ].
Qed.

Lemma priorities_inv (E : Lifecycle.env) (b : Lifecycle.block)
    (st : Lifecycle.statics) (g : G.t) (r : Z * Z * string + Z)
    (st' : Lifecycle.statics) (g' : G.t) :
  Lifecycle.priorities E b (st, g) = (r, (st', g')) ->
  match r with
  | inl (rc, errpos, p) =>
      g' = g /\
      (rc, errpos) = Lifecycle.priority_init E p /\
      p = (if Resolver.nonempty (tls_require_ciphers (Lifecycle.deref b st))
           then priority_string
                  (exp_tls_require_ciphers (Lifecycle.deref b st'))
           else Lifecycle.exim_default_gnutls_priority) /\
      (Resolver.nonempty (tls_require_ciphers (Lifecycle.deref b st)) = false ->
       exp_tls_require_ciphers (Lifecycle.deref b st') =
         exp_tls_require_ciphers (Lifecycle.deref b st)) /\
      st' =
        Lifecycle.set_library_calls
          (Lifecycle.library_calls st ++ [Lifecycle.Priority_init p])
          (Lifecycle.assign b
             (set_exp_tls_require_ciphers
                (exp_tls_require_ciphers (Lifecycle.deref b st'))
                (Lifecycle.deref b st)) st)
  | inr rc => rc <> OK
  end.
Proof.
  destruct st as [srv cli cur dhp done calls]. unfold priority_string.
  destruct srv, cli.
  destruct b; life_unfold; statics_unfold;
    life_explore;
    intros H; injection H as ? ? ?; subst;
    first [ discriminate
          | split; [reflexivity|]; split; [symmetry; assumption|];
            split; [reflexivity|];
            split; [intros Hempty; first [reflexivity | discriminate Hempty]|];
            reflexivity ].
Qed.

(** What a [tls_init] that returns OK has done. *)
Lemma tls_init_ok_inv (E : Lifecycle.env) (h : option host_item)
    (certificate privatekey sni cas crl require_ciphers : option string)
    (st st' : Lifecycle.statics) (g g' : G.t) :
  Lifecycle.tls_init E h certificate privatekey sni cas crl require_ciphers
    (st, g) = (OK, (st', g')) ->
  let b := block_of_role h in
  let state' := Lifecycle.deref b st' in
  fst (Lifecycle.init E b) = GNUTLS_E_SUCCESS /\
  setup_wrote
    (fresh_block (snd (Lifecycle.init E b)) h certificate privatekey sni cas
       crl require_ciphers) state' /\
  trace_extended g g' /\
  st' =
    Lifecycle.set_current_global_tls_state (Some b)
      (Lifecycle.set_library_calls (Lifecycle.library_calls st')
         (Lifecycle.set_dh_server_params (Lifecycle.dh_server_params st')
            (Lifecycle.set_exim_gnutls_base_init_done true
               (Lifecycle.assign b state' st)))) /\
  Lifecycle.library_calls st' =
    Lifecycle.library_calls st ++
    tls_init_calls E h (Lifecycle.exim_gnutls_base_init_done st) state' /\
  priority_cache state' =
    Some (priority_string (exp_tls_require_ciphers state')) /\
  (Resolver.nonempty require_ciphers = false ->
   exp_tls_require_ciphers state' = None) /\
  tls_privatekey state' =
    (if Resolver.nonempty privatekey then privatekey else certificate) /\
  (h = None -> forall c, x509_cred state' = Some c -> dh_params c = true).
Proof.
  intros H b. unfold Lifecycle.tls_init in H.
  change (match h with
          | Some _ => Lifecycle.State_client
          | None => Lifecycle.State_server
          end) with b in H.
  (* the library's initialisation *)
  rewrite run_bind in H.
  destruct (Lifecycle.global_init_once E h (st, g)) as [[u|rc] s1] eqn:H1;
    pose proof (global_init_once_inv _ _ _ _ _ _ H1) as I1; cbv beta iota in I1;
    [|injection H as Hrc _; contradiction].
  subst s1. clear H1. cbv beta zeta in H.
  (* the block and its session *)
  rewrite run_bind in H.
  match type of H with
  | context [Lifecycle.new_session ?a ?b ?c ?d ?e ?f ?g ?h ?i ?s] =>
      destruct (Lifecycle.new_session a b c d e f g h i s)
        as [[u2|rc] s2] eqn:H2;
      pose proof (new_session_inv _ _ _ _ _ _ _ _ _ _ _ _ _ H2) as I2;
      cbv beta iota in I2;
      [|injection H as Hrc _; contradiction]
  end.
  destruct I2 as [Hinit I2]. subst s2. clear H2. cbv beta in H.
  match type of H with
  | EarlyReturn.run _ (?s, _) = _ => remember s as st2 eqn:Hst2
  end.
  (* the resolver *)
  rewrite run_bind in H. unfold Lifecycle.on_block at 1 in H.
  cbv beta iota delta [fst snd] in H.
  pose proof (tls_expand_session_files_frame (Lifecycle.files E)
                (Lifecycle.deref b st2) g) as HR.
  pose proof (tls_expand_session_files_privatekey (Lifecycle.files E)
                (Lifecycle.deref b st2) g) as HK.
  destruct (Resolver.tls_expand_session_files (Lifecycle.files E)
              (Lifecycle.deref b st2) g) as [[rcR stateR] gR].
  destruct HR as [HstateR HgR]. cbv beta iota in H.
  rewrite run_bind in H.
  destruct (rcR =? OK) eqn:ErcR;
    cbv beta iota delta [EarlyReturn.return_ EarlyReturn.ret negb] in H;
    [|injection H as Hrc _; subst rcR; discriminate ErcR].
  specialize (HK (proj1 (Z.eqb_eq _ _) ErcR)).
  (* the rest of the credentials *)
  rewrite run_bind in H. cbv beta in H.
  pose proof (tls_set_remaining_x509_spec E b
                (Lifecycle.assign b stateR st2) gR) as HX.
  destruct (Lifecycle.tls_set_remaining_x509 E b
              (Lifecycle.assign b stateR st2, gR)) as [rcX [stX gX]].
  destruct HX as (HgX & HstX & HdhX & HokX). cbv beta iota in H.
  rewrite run_bind in H.
  destruct (rcX =? OK) eqn:ErcX; cbv beta iota in H;
    [|injection H as Hrc _; subst rcX; discriminate ErcX].
  apply Z.eqb_eq in ErcX. specialize (HokX ErcX).
  destruct HokX as [HcallsX HcredX].
  (* the server name *)
  rewrite run_bind in H.
  destruct (Lifecycle.client_sni E b h (stX, gX)) as [[u7|rc] [st7 g7]] eqn:H7;
    pose proof (client_sni_inv _ _ _ _ _ _ _ _ H7) as I7; cbv beta iota in I7;
    [|injection H as Hrc _; contradiction].
  destruct I7 as [-> Hst7]. clear H7.
  (* the priorities *)
  rewrite run_bind in H.
  destruct (Lifecycle.priorities E b (st7, gX)) as [[[[rc8 errpos] p]|rc] [st8 g8]]
    eqn:H8;
    pose proof (priorities_inv _ _ _ _ _ _ _ H8) as I8; cbv beta iota in I8;
    [|injection H as Hrc _; contradiction].
  destruct I8 as (-> & Hpi & Hp & He8 & Hst8). clear H8.
  (* the end of the function *)
  assert (Hend : rc8 = GNUTLS_E_SUCCESS /\
                 st' =
                   Lifecycle.set_current_global_tls_state (Some b)
                     (Lifecycle.set_library_calls
                        ((Lifecycle.library_calls st8 ++
                          [Lifecycle.Priority_set;
                           Lifecycle.Db_set_cache_expiration
                             Lifecycle.ssl_session_timeout]) ++
                         (if Lifecycle.gnutls_compat_mode E
                          then [Lifecycle.Session_enable_compatibility_mode]
                          else []))
                        (Lifecycle.assign b
                           (set_priority_cache (Some p)
                              (Lifecycle.deref b st8)) st8)) /\
                 g' = gX).
  { clear - H. revert H. destruct st8 as [srv cli cur dhp done calls].
    destruct h; cbv delta [b block_of_role]; clear b;
      life_explore; intros H; try discriminate H;
      injection H as <- <-;
      repeat match goal with
             | Hz : (_ =? _) = true |- _ => apply Z.eqb_eq in Hz
             end;
      rewrite ?app_nil_r, <- ?app_assoc;
      repeat split; try assumption; reflexivity. }
  clear H. destruct Hend as (Hrc8 & Hst' & ->).
  (* putting the stages together *)
  set (e8 := exp_tls_require_ciphers (Lifecycle.deref b st8)) in *.
  clearbody e8. subst st8.
  set (e7 := exp_tls_sni (Lifecycle.deref b st7)) in *.
  clearbody e7. subst st7.
  set (cX := x509_cred (Lifecycle.deref b stX)) in *.
  set (callsX := Lifecycle.library_calls stX) in *.
  set (dhX := Lifecycle.dh_server_params stX) in *.
  clearbody cX callsX dhX. subst stX.
  unfold resolver_wrote in HstateR.
  set (a1 := x509_cred stateR) in *.
  set (a2 := trigger_sni_changes stateR) in *.
  set (a3 := tls_privatekey stateR) in *.
  set (a4 := exp_tls_certificate stateR) in *.
  set (a5 := exp_tls_privatekey stateR) in *.
  set (a6 := exp_tls_verify_certificates stateR) in *.
  set (a7 := exp_tls_crl stateR) in *.
  clearbody a1 a2 a3 a4 a5 a6 a7. subst stateR. subst st2 st'.
  destruct st as [srv cli cur dhp done calls].
  assert (Htrace : trace_extended g gX)
    by (eapply trace_extended_trans; eassumption).
  clear HgR HgX HdhX Hpi Hrc8 ErcR ErcX gR.
  destruct h as [h|]; cbv delta [b block_of_role] in *; clear b;
    cbv zeta; all_unfold_in_all; subst callsX cX;
    (assert (Hp' : p = priority_string e8)
       by (rewrite Hp; destruct (Resolver.nonempty require_ciphers);
           [reflexivity|rewrite (He8 eq_refl); reflexivity]));
    (split; [exact Hinit|]);
    (split; [unfold setup_wrote; all_unfold_in_all; reflexivity|]);
    (split; [exact Htrace|]);
    (split; [reflexivity|]);
    (split;
     [ unfold tls_init_calls, block_of_role; all_unfold_in_all;
       rewrite <- !app_assoc; cbn [app]; rewrite Hp'; reflexivity|]);
    (split; [rewrite Hp'; reflexivity|]);
    (split; [exact He8|]);
    (split; [exact HK|]);
    intros Hh c Hc; try discriminate Hh;
    destruct a1; cbn [Lifecycle.with_dh_params] in Hc; [|discriminate Hc];
    injection Hc as <-; reflexivity.
Qed.

(** X27. A [tls_init] that returns OK leaves in the block of its role a
    session that carries nothing over from an earlier one, whatever the block
    held before: the session is the one the engine made, the host and the
    settings are the arguments, but for the private key setting, which is the
    certificate setting where the argument was unset or empty; no policy is
    set, no descriptor, no peer identity, no verified flag and no received
    server name, the guard of [peer_status] is down and the transfer buffer is
    empty.  The block of the other role is untouched,
    [current_global_tls_state] designates the block of the role, the library's
    guard is up, and of the globals only the trace has grown. *)
Theorem tls_init_fresh_state (E : Lifecycle.env) (h : option host_item)
    (certificate privatekey sni cas crl require_ciphers : option string)
    (st st' : Lifecycle.statics) (g g' : G.t) :
  Lifecycle.tls_init E h certificate privatekey sni cas crl require_ciphers
    (st, g) = (OK, (st', g')) ->
  let b := block_of_role h in
  let state' := Lifecycle.deref b st' in
  (fst (Lifecycle.init E b) = GNUTLS_E_SUCCESS /\
   session state' = snd (Lifecycle.init E b)) /\
  (host state' = h /\ tls_certificate state' = certificate /\
   tls_privatekey state' =
     (if Resolver.nonempty privatekey then privatekey else certificate) /\
   tls_sni state' = sni /\ tls_verify_certificates state' = cas /\
   tls_crl state' = crl /\ tls_require_ciphers state' = require_ciphers) /\
  (verify_requirement state' = VERIFY_NONE /\
   fd_in state' = -1 /\ fd_out state' = -1 /\
   peer_cert_verified state' = false /\ have_set_peerdn state' = false /\
   peerdn state' = None /\ ciphersuite state' = None /\
   received_sni state' = None) /\
  (xfer_buffer state' = [] /\ xfer_buffer_lwm state' = 0 /\
   xfer_buffer_hwm state' = 0 /\ xfer_eof state' = 0 /\
   xfer_error state' = 0) /\
  Lifecycle.deref (other b) st' = Lifecycle.deref (other b) st /\
  Lifecycle.current_global_tls_state st' = Some b /\
  Lifecycle.exim_gnutls_base_init_done st' = true /\
  trace_extended g g'.
Proof.
  intros H b state'.
  destruct (tls_init_ok_inv E h certificate privatekey sni cas crl
              require_ciphers st st' g g' H)
    as (Hinit & Hsetup & Htrace & Hst' & _ & _ & _ & Hkey & _).
  fold b in Hinit, Hsetup, Hst', Hkey. fold state' in Hsetup, Hst', Hkey.
  unfold setup_wrote in Hsetup.
  split; [split; [exact Hinit|rewrite Hsetup; reflexivity]|].
  split; [repeat split; try exact Hkey; rewrite Hsetup; reflexivity|].
  split; [repeat split; rewrite Hsetup; reflexivity|].
  split; [repeat split; rewrite Hsetup; reflexivity|].
  split; [rewrite Hst'; destruct b; reflexivity|].
  split; [rewrite Hst'; reflexivity|].
  split; [rewrite Hst'; reflexivity|exact Htrace].
Qed.

(** X28. The engine calls of a [tls_init] that returns OK, in order: the
    library's own initialisation unless its guard was up; the new session; for
    a server the DH parameters put in the credential set; the credential set
    bound to the session; for a client whose [tls_sni] expands to a name, and
    for no one else, that server name; the priority string, which is the
    expansion of [tls_require_ciphers] when that gives a string and "NORMAL"
    when the setting is unset, empty or expands to nothing; the priorities set
    on the session; the cache expiration of 200 seconds; and the compatibility
    mode when it is configured.  The priority cache is that of the string
    used. *)
Theorem tls_init_engine_calls (E : Lifecycle.env) (h : option host_item)
    (certificate privatekey sni cas crl require_ciphers : option string)
    (st st' : Lifecycle.statics) (g g' : G.t) :
  Lifecycle.tls_init E h certificate privatekey sni cas crl require_ciphers
    (st, g) = (OK, (st', g')) ->
  let state' := Lifecycle.deref (block_of_role h) st' in
  Lifecycle.library_calls st' =
    Lifecycle.library_calls st ++
    tls_init_calls E h (Lifecycle.exim_gnutls_base_init_done st) state' /\
  priority_cache state' =
    Some (priority_string (exp_tls_require_ciphers state')) /\
  (Resolver.nonempty require_ciphers = false ->
   priority_string (exp_tls_require_ciphers state') = "NORMAL") /\
  (h = None ->
   forall c, x509_cred state' = Some c -> dh_params c = true).
Proof.
  intros H state'.
  destruct (tls_init_ok_inv E h certificate privatekey sni cas crl
              require_ciphers st st' g g' H)
    as (_ & _ & _ & _ & Hcalls & Hcache & Hnone & _ & Hdh).
  fold state' in Hcalls, Hcache, Hnone, Hdh.
  split; [exact Hcalls|]. split; [exact Hcache|]. split; [|exact Hdh].
  intros Hempty. rewrite (Hnone Hempty). reflexivity.
Qed.

(** ** Randomness helper: the value *)

Lemma uschar_val_range (b : byte) : 0 <= uschar_val b < 256.
Proof.
  unfold uschar_val. pose proof (Byte.to_N_bounded b) as H. lia.
Qed.

(** With room for [n] more bytes in the 32 bits of [r], the loop over
    [smallbuf] never wraps. *)
Lemma accumulate_no_wrap (n : nat) (p : list byte) (r : Z) :
  (n <= List.length p)%nat ->
  0 <= r ->
  (r + 1) * 256 ^ Z.of_nat n <= UINT_MODULUS ->
  Random.accumulate n p r =
    fold_left (fun r b => r * 256 + uschar_val b) (firstn n p) r.
Proof.
  revert p r. induction n as [|n IH]; intros p r Hlen Hr Hroom.
  - reflexivity.
  - destruct p as [|b p]; [simpl in Hlen; lia|].
    cbn [Random.accumulate firstn fold_left hd tl].
    pose proof (uschar_val_range b) as Hb.
    assert (Hpow' : 0 < 256 ^ Z.of_nat n) by (apply Z.pow_pos_nonneg; lia).
    rewrite Nat2Z.inj_succ, Z.pow_succ_r in Hroom by lia.
    assert (Hsmall : (r + 1) * 256 <= UINT_MODULUS) by nia.
    unfold to_uint. rewrite (Z.mod_small (r * 256)) by nia.
    rewrite Z.mod_small by nia.
    apply IH.
    + simpl in Hlen. lia.
    + nia.
    + nia.
Qed.

(** X29. What [vaguely_random_number] returns for [max > 1].  When the entropy
    source fails, it is the answer of the fallback generator, unchanged.  When
    the source delivers the bytes asked for, it is the number those bytes
    spell, most significant byte first, reduced modulo [max]. *)
Theorem vaguely_random_number_value (E : Random.entropy) (max i : Z)
    (smallbuf : list byte) :
  1 < max <= INT_MAX ->
  Random.gnutls_rnd E (Random.needed_len_of max) = (i, smallbuf) ->
  (i < 0 ->
   Random.vaguely_random_number E max =
     (Random.vaguely_random_number_fallback E max,
      [Random.needed_len_of max])) /\
  (0 <= i ->
   Random.needed_len_of max <= Z.of_nat (List.length smallbuf) ->
   Random.vaguely_random_number E max =
     (big_endian (firstn (Z.to_nat (Random.needed_len_of max)) smallbuf)
        mod max,
      [Random.needed_len_of max])).
Proof.
  intros Hm Hrnd.
  destruct (needed_len_of_spec max Hm) as [_ Hn].
  unfold Random.vaguely_random_number.
  assert (Hle : (max <=? 1) = false) by (apply Z.leb_gt; lia).
  rewrite Hle, Hrnd. split.
  - intros Hi. apply Z.ltb_lt in Hi. rewrite Hi. reflexivity.
  - intros Hi Hlen. apply Z.ltb_ge in Hi. rewrite Hi.
    unfold Random.sizeof_r in Hn.
    rewrite accumulate_no_wrap.
    + fold (big_endian (firstn (Z.to_nat (Random.needed_len_of max)) smallbuf)).
      unfold to_uint, UINT_MODULUS, INT_MAX in *.
      rewrite (Z.mod_small max) by lia.
      pose proof (Z.mod_pos_bound
                    (big_endian (firstn (Z.to_nat (Random.needed_len_of max))
                                   smallbuf)) max ltac:(lia)) as Hr.
      unfold to_int, UINT_MODULUS. rewrite Z.mod_small by lia.
      f_equal. lia.
    + lia.
    + lia.
    + rewrite Z2Nat.id by lia. unfold UINT_MODULUS.
      change (2 ^ 32) with (256 ^ 4).
      rewrite Z.mul_1_l. apply Z.pow_le_mono_r; lia.
Qed.

(** * Instances *)

Lemma vaguely_random_number_range_witness :
  Random.vaguely_random_number Sample.entropy 1 = (0, []) /\
  snd (Random.vaguely_random_number Sample.entropy 1000) = [2] /\
  0 <= fst (Random.vaguely_random_number Sample.entropy 1000) < 1000.
Proof.
  destruct (vaguely_random_number_range Sample.entropy 1) as [H1 _].
  destruct (vaguely_random_number_range Sample.entropy 1000) as [_ H2].
  split; [apply H1; lia|].
  destruct (H2 ltac:(unfold INT_MAX; lia)) as (Hreq & _ & _ & Hrange).
  split; [exact Hreq|]. apply Hrange. vm_compute. discriminate.
Defined.

Lemma tls_getc_bytes_then_fallback_witness :
  exists state1 g1 state2 g2,
    RecordIO.tls_getc_n 4 Sample.reader Sample.established =
      Some ([69; 72; 76; 79], state1, g1) /\
    RecordIO.tls_getc state1 g1 = Some (81, state2, g2) /\
    G.receive_getc g2 = Smtp_fn /\ session state2 = None.
Proof.
  destruct (tls_getc_bytes_then_fallback Sample.chunks [] []
              (Sample.session_of (Some [Sample.certificate]) (0, 0) []
                 [(2, ["E"%byte; "H"%byte]); (2, ["L"%byte; "O"%byte]);
                  (0, [])] [])
              Sample.reader Sample.established)
    as (state1 & g1 & c & state2 & g2 & _ & Hn & _ & _ & Hz & Hc & Hfns &
        Hs & _).
  - reflexivity.
  - vm_compute. discriminate.
  - discriminate.
  - repeat constructor; vm_compute; discriminate.
  - vm_compute. discriminate.
  - reflexivity.
  - exists state1, g1, state2, g2.
    injection Hc as Hc _. injection Hfns as Hfns _ _ _ _.
    subst c. auto.
Defined.

Lemma tls_read_no_fallback_witness :
  exists buff state' g',
    RecordIO.tls_read 100
      (Sample.state_of (Sample.session_of None (0, 0) [] [(0, [])] [])
         VERIFY_NONE None None None) Sample.established =
      Some (-1, buff, state', g') /\
    G.receive_getc g' = Tls_fn /\ xfer_error state' = 0.
Proof.
  destruct (tls_read_no_fallback 100 0 [] []
              (Sample.session_of None (0, 0) [] [(0, [])] [])
              (Sample.state_of
                 (Sample.session_of None (0, 0) [] [(0, [])] [])
                 VERIFY_NONE None None None)
              Sample.established eq_refl eq_refl)
    as (r & buff & g' & Hread & _ & Hr & _ & Hfns & Herr).
  rewrite (Hr ltac:(lia)) in Hread.
  exists buff. eexists. exists g'.
  split; [exact Hread|]. split; [|exact Herr].
  injection Hfns as Hfns _ _ _ _. exact Hfns.
Defined.


Lemma verify_certificate_no_peer_certificate_witness :
  (exists state' g',
     Verifier.verify_certificate Sample.string_format
       (Sample.anonymous VERIFY_REQUIRED) Sample.cleartext =
       Some (false, Some "not supplied", state', g') /\
     peer_cert_verified state' = false) /\
  (exists error state' g',
     Verifier.verify_certificate Sample.string_format
       (Sample.anonymous VERIFY_NONE) Sample.cleartext =
       Some (true, error, state', g') /\
     peer_cert_verified state' = false).
Proof.
  split.
  - destruct (verify_certificate_no_peer_certificate Sample.string_format
                (Sample.anonymous VERIFY_REQUIRED) Sample.cleartext
                (Sample.session_of None (-49, 0) [] [] [])
                eq_refl (or_introl eq_refl)) as [Hreq _].
    destruct (Hreq eq_refl eq_refl) as (state' & g' & tr & H & Hv & _).
    exists state', g'. split; assumption.
  - destruct (verify_certificate_no_peer_certificate Sample.string_format
                (Sample.anonymous VERIFY_NONE) Sample.cleartext
                (Sample.session_of None (-49, 0) [] [] [])
                eq_refl (or_introl eq_refl)) as [_ Hnone].
    apply Hnone; [reflexivity|]. vm_compute. reflexivity.
Defined.

Lemma handshake_loop_and_server_failure_witness :
  (exists state' g',
     Orchestrator.tls_server_start Sample.string_format
       (Sample.start_of [(-28, false); (-52, false); (-12, false)])
       exim_gnutls_state_init Sample.cleartext = Some (FAIL, state', g') /\
     G.smtp_in_open g' = false /\ G.smtp_out_open g' = false) /\
  (exists state' g',
     Orchestrator.tls_server_start Sample.string_format
       (Sample.start_of [(-28, false); (-52, true)])
       exim_gnutls_state_init Sample.cleartext = Some (FAIL, state', g') /\
     G.smtp_in_open g' = true /\ G.smtp_out_open g' = true) /\
  (exists state' g',
     Orchestrator.tls_client_start Sample.string_format
       (Scenario.client_of
          (Sample.session_of None (0, 0) [(-28, false); (-52, true)] [] []))
       Sample.cleartext = Some (FAIL, state', g') /\
     G.smtp_in_open g' = true /\ G.smtp_out_open g' = true /\
     G.trace g' =
       [Ev_engine (Dh_set_prime_bits 1024);
        Ev_engine (Certificate_server_set_request "GNUTLS_CERT_REQUIRE");
        Ev_engine (Transport_set_ptr 7 7); Ev_alarm 300;
        Ev_engine Handshake; Ev_engine Handshake; Ev_alarm 0;
        Ev_tls_error "gnutls_handshake" (Msg_text "timed out")
          (Some Sample.remote)]).
Proof.
  destruct (handshake_loop_and_server_failure Sample.string_format)
    as (_ & Hserver & Hclient).
  split; [|split].
  - destruct (Hserver
                (Sample.start_of [(-28, false); (-52, false); (-12, false)])
                exim_gnutls_state_init Sample.cleartext
                (Sample.session_of (Some [Sample.certificate]) (0, 0)
                   [(-28, false); (-52, false); (-12, false)] [] [])
                [(-28, false); (-52, false)] (-12) false [])
      as (state' & g' & tr & Hrun & Hclosed & _).
    + vm_compute. reflexivity.
    + reflexivity.
    + reflexivity.
    + reflexivity.
    + cbn. unfold keeps_looping. auto.
    + unfold keeps_looping. cbn.
      intros [H|[H _]]; discriminate.
    + discriminate.
    + exists state', g'. split; [exact Hrun|].
      destruct (Hclosed eq_refl) as (Hin & Hout & _). split; assumption.
  - destruct (Hserver
                (Sample.start_of [(-28, false); (-52, true)])
                exim_gnutls_state_init Sample.cleartext
                (Sample.session_of (Some [Sample.certificate]) (0, 0)
                   [(-28, false); (-52, true)] [] [])
                [(-28, false)] (-52) true [])
      as (state' & g' & tr & Hrun & _ & Htimeout).
    + vm_compute. reflexivity.
    + reflexivity.
    + reflexivity.
    + reflexivity.
    + cbn. unfold keeps_looping. auto.
    + unfold keeps_looping. cbn.
      intros [H|[_ H]]; discriminate.
    + discriminate.
    + exists state', g'. split; [exact Hrun|].
      destruct (Htimeout eq_refl) as (Hin & Hout & _). split; assumption.
  - destruct (Hclient
                (Scenario.client_of
                   (Sample.session_of None (0, 0)
                      [(-28, false); (-52, true)] [] []))
                Sample.cleartext
                (Sample.session_of None (0, 0) [(-28, false); (-52, true)]
                   [] [])
                [(-28, false)] (-52) true [])
      as (r & state' & g' & Hrun & -> & Hin & Hout & _ & _ & Htrace).
    + reflexivity.
    + reflexivity.
    + reflexivity.
    + cbn. unfold keeps_looping. auto.
    + unfold keeps_looping. cbn.
      intros [H|[_ H]]; discriminate.
    + discriminate.
    + exists state', g'. split; [exact Hrun|].
      split; [exact Hin|]. split; [exact Hout|]. exact Htrace.
Defined.

Lemma peer_status_idempotent_witness :
  exists state1 g1,
    Verifier.peer_status Sample.string_format
      (Sample.revoked VERIFY_OPTIONAL) Sample.cleartext =
      Some (OK, state1, g1) /\
    peerdn state1 = Some "CN=peer.example" /\
    Verifier.peer_status Sample.string_format state1 g1 =
      Some (OK, state1, g1).
Proof.
  destruct (peer_status_idempotent Sample.string_format
              (Sample.revoked VERIFY_OPTIONAL) Sample.cleartext) as [_ H].
  eexists. eexists. split; [reflexivity|]. split; [reflexivity|].
  apply (H OK). reflexivity.
Defined.

Lemma verify_certificate_invalid_or_revoked_witness :
  exists state' g',
    Verifier.verify_certificate Sample.string_format
      (Sample.revoked VERIFY_REQUIRED) Sample.cleartext =
      Some (false, Some "revoked", state', g') /\
    peer_cert_verified state' = false.
Proof.
  eapply (verify_certificate_invalid_or_revoked Sample.string_format
            (Sample.revoked VERIFY_REQUIRED) _ Sample.cleartext _
            (Sample.session_of (Some [Sample.certificate]) (0, 34) [] [] [])
            0 34).
  - reflexivity.
  - reflexivity.
  - reflexivity.
  - left. vm_compute. discriminate.
Defined.


(** A client whose certificate cannot be loaded leaves the resolver with
    FAIL, directory trust store or not. *)
Lemma trust_store_directory_client_fails :
  Resolver.Ustat Sample.resolver "/etc/ssl/certs" =
    Some {| Resolver.st_is_dir := true; Resolver.st_size := 1200 |} /\
  fst (fst (Resolver.tls_expand_session_files Sample.resolver
              (Sample.state_of (Sample.session_of None (0, 0) [] [] [])
                 VERIFY_REQUIRED (Some Sample.remote)
                 (Some "/etc/exim/missing.pem") (Some "/etc/ssl/certs"))
              Sample.cleartext)) = FAIL /\
  FAIL <> DEFER.
Proof.
  split; [reflexivity|]. split; [vm_compute; reflexivity|discriminate].
Qed.

Lemma tls_write_all_or_error_witness :
  (exists state' g',
     RecordIO.tls_write 3 (Sample.writer [1; 1; 1]) Sample.established =
       Some (3, state', g')) /\
  (exists state' g',
     RecordIO.tls_write 3 (Sample.writer [1; 1; 0]) Sample.established =
       Some (-1, state', g')).
Proof.
  split.
  - destruct (tls_write_all_or_error (Sample.writer [1; 1; 1])
                (Sample.session_of (Some [Sample.certificate]) (0, 0) [] []
                   [1; 1; 1])
                [1; 1; 1] [] 3 Sample.established eq_refl)
      as (Hall & _).
    + vm_compute. split; [discriminate|reflexivity].
    + repeat constructor.
    + eexists. eexists. apply Hall; reflexivity.
  - destruct (tls_write_all_or_error (Sample.writer [1; 1; 0])
                (Sample.session_of (Some [Sample.certificate]) (0, 0) [] []
                   [1; 1; 0])
                [1; 1] [] 3 Sample.established eq_refl)
      as (_ & Hfail & _).
    + vm_compute. split; [discriminate|reflexivity].
    + repeat constructor.
    + destruct (Hfail 0) as [g' H].
      * vm_compute. reflexivity.
      * lia.
      * reflexivity.
      * eexists. exists g'. exact H.
Defined.

Lemma Forall_repeat_pos (o : Z) (n : nat) :
  0 < o -> Forall (fun x => 0 < x) (repeat o n).
Proof.
  intros Ho. induction n as [|n IH]; simpl; constructor; assumption.
Qed.

Lemma writer_session (sends : list Z) :
  session (Sample.writer sends) =
  Some (Sample.session_of (Some [Sample.certificate]) (0, 0) [] [] sends).
Proof. reflexivity. Qed.

Lemma writer_send_script (sends : list Z) :
  send_script
    (Sample.session_of (Some [Sample.certificate]) (0, 0) [] [] sends) =
  sends.
Proof. reflexivity. Qed.

(** 2^31 bytes, all of them sent, 16384 at a time: the value returned is
    [INT_MAX], one less than the length. *)
Lemma tls_write_clamps_to_int_max :
  sum_Z Sample.full_records = 2 ^ 31 /\
  exists state' g',
    RecordIO.tls_write (2 ^ 31)
      (Sample.writer (Sample.full_records ++ [0])) Sample.established =
      Some (2147483647, state', g') /\
    2147483647 <> 2 ^ 31.
Proof.
  assert (Hsum : sum_Z Sample.full_records = 2 ^ 31).
  { unfold Sample.full_records. rewrite sum_Z_repeat, Z2Nat.id by lia.
    reflexivity. }
  split; [exact Hsum|].
  eexists. eexists. split; [|discriminate].
  rewrite (tls_write_complete
             (Sample.writer (Sample.full_records ++ [0]))
             (Sample.session_of (Some [Sample.certificate]) (0, 0) [] []
                (Sample.full_records ++ [0]))
             Sample.full_records [0] (2 ^ 31) Sample.established
             (writer_session _) (writer_send_script _)
             (Forall_repeat_pos 16384 (Z.to_nat 131072) ltac:(lia))
             Hsum eq_refl).
  reflexivity.
Qed.

Lemma init_server_dh_absent_or_unreadable_witness :
  fst (DH.init_server_dh (Sample.spool (-1, 2) None (0, []) 0)
         Sample.cleartext) = OK /\
  fst (DH.init_server_dh (Sample.spool (3, 0) (Some (false, 0)) (0, []) 0)
         Sample.cleartext) = DEFER.
Proof.
  split.
  - destruct (init_server_dh_absent_or_unreadable
                (Sample.spool (-1, 2) None (0, []) 0) Sample.cleartext)
      as [Habsent _].
    + vm_compute. repeat split; discriminate.
    + rewrite (Habsent (-1) "%s.a1b2c3d" Sample.pem).
      * reflexivity.
      * reflexivity.
      * lia.
      * vm_compute. repeat split; try discriminate.
        -- exists 4. split; [reflexivity|discriminate].
        -- exists 3. repeat split.
  - destruct (init_server_dh_absent_or_unreadable
                (Sample.spool (3, 0) (Some (false, 0)) (0, []) 0)
                Sample.cleartext)
      as [_ Hbad].
    + vm_compute. repeat split; discriminate.
    + destruct (Hbad 3 0) as (prefix & msg & H).
      * reflexivity.
      * lia.
      * left. reflexivity.
      * rewrite H. reflexivity.
Defined.

(** A cache file that exists and holds nothing: [fread] reads no item, and
    [init_server_dh] returns DEFER without generating anything. *)
Lemma init_server_dh_unreadable_cache_defers :
  fst (DH.init_server_dh (Sample.spool (3, 0) (Some (true, 0)) (0, []) 0)
         Sample.cleartext) = DEFER /\
  DEFER <> OK /\
  ~ In (Ev_engine (Dh_params_generate2 2048))
       (G.trace (snd (DH.init_server_dh
                        (Sample.spool (3, 0) (Some (true, 0)) (0, []) 0)
                        Sample.cleartext))).
Proof.
  split; [vm_compute; reflexivity|]. split; [discriminate|].
  vm_compute. intros H. repeat (destruct H as [H|H]; [discriminate|]).
  exact H.
Qed.

(** A cache file that is read in full and that the engine cannot import:
    [init_server_dh] returns DEFER from the error check that follows the
    import, and the block that regenerates is not reached. *)
Lemma init_server_dh_import_failure :
  DH.init_server_dh (Sample.spool (3, 0) (Some (true, 3)) (1, Sample.pem) (-34))
    Sample.cleartext =
  (DEFER,
   G.set_trace
     [Ev_engine Dh_params_init;
      Ev_sys (Sys_open "/var/spool/exim/gnutls-params-2048");
      Ev_sys (Sys_close "/var/spool/exim/gnutls-params-2048");
      Ev_engine Dh_params_import_pkcs3;
      Ev_tls_error "gnutls_dh_params_import_pkcs3"
        (Msg_gnutls_strerror (-34)) None]
     Sample.cleartext).
Proof. vm_compute. reflexivity. Qed.

(** ** Instances of the further properties *)

Lemma tls_getc_read_error_witness :
  exists state' g',
    RecordIO.tls_getc (Scenario.reading (-10)) Sample.established =
      Some (EOF, state', g') /\
    xfer_error state' = 1 /\
    receive_pointers g' = receive_pointers Sample.established /\
    G.tls_active g' = 5.
Proof.
  eexists. eexists. split.
  - apply (tls_getc_read_error (-10) [] []
             (Sample.session_of (Some [Sample.certificate]) (0, 0) []
                [(-10, [])] [])
             (Scenario.reading (-10)) Sample.established).
    + reflexivity.
    + reflexivity.
    + simpl. lia.
    + lia.
  - repeat split; reflexivity.
Defined.

Lemma fallback_takes_back_what_was_published_witness :
  exists g1 c state2 g2,
    Verifier.extract_exim_vars_from_tls_state (Scenario.reading 0)
      Sample.cleartext = Some g1 /\
    G.tls_bits g1 = 256 /\
    G.tls_channelbinding_b64 g1 = Some "dGxzLXVuaXF1ZQ==" /\
    RecordIO.tls_getc (Scenario.reading 0) g1 = Some (c, state2, g2) /\
    G.tls_bits g2 = 0 /\ G.tls_channelbinding_b64 g2 = None.
Proof.
  destruct (Verifier.extract_exim_vars_from_tls_state (Scenario.reading 0)
              Sample.cleartext) as [g1|] eqn:Hg1; [|discriminate Hg1].
  destruct (fallback_takes_back_what_was_published [] []
              (Sample.session_of (Some [Sample.certificate]) (0, 0) []
                 [(0, [])] [])
              (Scenario.reading 0) Sample.cleartext g1)
    as (Hpub & Hcb & c & state2 & g2 & Hgetc & Hback & _).
  - reflexivity.
  - reflexivity.
  - simpl. lia.
  - exact Hg1.
  - exists g1, c, state2, g2.
    injection Hpub as _ Hbits _ _ _ _.
    injection Hback as _ Hbits2 _ _ _ Hcb2.
    repeat split; assumption.
Defined.

Lemma peer_status_cipher_label_witness :
  exists rc state1 g1,
    Verifier.peer_status Sample.string_format
      (Sample.state_of Scenario.spaced VERIFY_OPTIONAL None
         (Some "/etc/exim/server.pem") None)
      Sample.cleartext = Some (rc, state1, g1) /\
    ciphersuite state1 = Some "TLS-1.0:RSA_ARCFOUR_SHA1:128" /\
    G.tls_cipher g1 = Some "TLS-1.0:RSA_ARCFOUR_SHA1:128".
Proof.
  destruct (Verifier.peer_status Sample.string_format
              (Sample.state_of Scenario.spaced VERIFY_OPTIONAL None
                 (Some "/etc/exim/server.pem") None)
              Sample.cleartext)
    as [[[rc state1] g1]|] eqn:Hrun; [|discriminate Hrun].
  destruct (peer_status_cipher_label Sample.string_format
              (Sample.state_of Scenario.spaced VERIFY_OPTIONAL None
                 (Some "/etc/exim/server.pem") None)
              state1 Sample.cleartext g1 Scenario.spaced rc
              eq_refl eq_refl Hrun)
    as (label & Hstate & Hglobal & Hlabel & _).
  assert (Hl : label = "TLS-1.0:RSA_ARCFOUR_SHA1:128").
  { rewrite <- (string_of_list_ascii_of_string label), Hlabel.
    reflexivity. }
  subst label. exists rc, state1, g1. repeat split; assumption.
Defined.

Lemma peer_status_lenient_witness :
  exists rc state1 g1,
    Verifier.peer_status Sample.string_format
      (Sample.anonymous VERIFY_OPTIONAL) Sample.cleartext =
      Some (rc, state1, g1) /\
    rc = OK /\ filter is_tls_error (G.trace g1) = [].
Proof.
  destruct (Verifier.peer_status Sample.string_format
              (Sample.anonymous VERIFY_OPTIONAL) Sample.cleartext)
    as [[[rc state1] g1]|] eqn:Hrun; [|discriminate Hrun].
  destruct (peer_status_lenient Sample.string_format
              (Sample.anonymous VERIFY_OPTIONAL) state1 Sample.cleartext g1 rc)
    as [_ [Hok|(_ & s & cert0 & chain & sz & Hs & Hpeers & _)]].
  - discriminate.
  - exact Hrun.
  - exists rc, state1, g1. split; [reflexivity|]. split; [exact Hok|].
    vm_compute in Hrun. injection Hrun as _ _ <-. reflexivity.
  - exfalso. injection Hs as <-. discriminate Hpeers.
Defined.

Lemma peer_status_records_leaf_dn_witness :
  exists state1 g1,
    Verifier.peer_status Sample.string_format
      (Scenario.trusted VERIFY_REQUIRED) Sample.cleartext =
      Some (OK, state1, g1) /\
    peerdn state1 = Some "CN=peer.example" /\
    have_set_peerdn state1 = true /\
    filter is_tls_error (G.trace g1) = [].
Proof.
  destruct (peer_status_records_leaf_dn Sample.string_format
              (Scenario.trusted VERIFY_REQUIRED) Sample.cleartext
              Scenario.chained Sample.certificate [Sample.pem] 16
              "CN=peer.example")
    as (state1 & g1 & Hrun & Hdn & Hset & _); try reflexivity.
  exists state1, g1. split; [exact Hrun|]. split; [exact Hdn|].
  split; [exact Hset|].
  vm_compute in Hrun. injection Hrun as _ <-. reflexivity.
Defined.

Lemma verify_certificate_decision_witness :
  exists state' g' tr,
    Verifier.verify_certificate Sample.string_format
      (Sample.revoked VERIFY_REQUIRED) Sample.cleartext =
      Some (false, Some "revoked", state', g') /\
    verify_requirement state' = VERIFY_REQUIRED /\
    peer_cert_verified state' = false /\
    G.trace g' = tr ++ [Ev_engine Alert_send_bad_certificate].
Proof.
  destruct (Verifier.verify_certificate Sample.string_format
              (Sample.revoked VERIFY_REQUIRED) Sample.cleartext)
    as [[[[ok error] state'] g']|] eqn:Hrun; [|discriminate Hrun].
  assert (Hok : ok = false /\ error = Some "revoked").
  { vm_compute in Hrun. injection Hrun as Hok Herror _ _.
    split; symmetry; assumption. }
  destruct Hok as [-> ->].
  destruct (verify_certificate_decision Sample.string_format
              (Sample.revoked VERIFY_REQUIRED) state' Sample.cleartext g'
              false (Some "revoked") Hrun)
    as (Hreq & Hdecision & _ & Halert & _).
  destruct (Halert eq_refl) as [tr Htr].
  exists state', g', tr. split; [reflexivity|].
  split; [exact Hreq|]. split; [|exact Htr].
  change (false = peer_cert_verified state' || false) in Hdecision.
  destruct (peer_cert_verified state'); [discriminate Hdecision|reflexivity].
Defined.

Lemma verify_certificate_verified_iff_witness :
  exists state' g',
    Verifier.verify_certificate Sample.string_format
      (Scenario.trusted VERIFY_REQUIRED) Sample.cleartext =
      Some (true, None, state', g') /\
    (peer_cert_verified state' = true <->
     exists state1 g1 s rc verify,
       Verifier.peer_status Sample.string_format
         (Scenario.trusted VERIFY_REQUIRED) Sample.cleartext =
         Some (OK, state1, g1) /\
       session state1 = Some s /\
       certificate_verify_peers2 s = (rc, verify) /\
       0 <= rc /\
       Z.land verify GNUTLS_CERT_INVALID = 0 /\
       Z.land verify GNUTLS_CERT_REVOKED = 0).
Proof.
  destruct (Verifier.verify_certificate Sample.string_format
              (Scenario.trusted VERIFY_REQUIRED) Sample.cleartext)
    as [[[[ok error] state'] g']|] eqn:Hrun; [|discriminate Hrun].
  assert (Hok : ok = true /\ error = None).
  { vm_compute in Hrun. injection Hrun as Hok Herror _ _.
    split; symmetry; assumption. }
  destruct Hok as [-> ->].
  exists state', g'. split; [reflexivity|].
  exact (verify_certificate_verified_iff Sample.string_format
           (Scenario.trusted VERIFY_REQUIRED) state' Sample.cleartext g'
           true None Hrun).
Defined.

Lemma tls_server_start_already_active_witness :
  exists g',
    Orchestrator.tls_server_start Sample.string_format (Sample.start_of [])
      Sample.reader Sample.established = Some (FAIL, Sample.reader, g') /\
    List.length (G.trace g') = 2%nat /\ G.tls_active g' = 5.
Proof.
  eexists. split.
  - apply (tls_server_start_already_active Sample.string_format
             (Sample.start_of []) Sample.reader Sample.established).
    simpl. lia.
  - split; reflexivity.
Defined.

Lemma tls_server_start_switches_input_iff_ok_witness :
  exists state' g',
    Orchestrator.tls_server_start Sample.string_format
      (Sample.start_of Scenario.handshake) exim_gnutls_state_init
      Sample.cleartext = Some (OK, state', g') /\
    receive_pointers g' = (Tls_fn, Tls_fn, Tls_fn, Tls_fn, Tls_fn) /\
    G.tls_active g' = 1 /\
    List.length (xfer_buffer state') = 4096%nat.
Proof.
  destruct (Orchestrator.tls_server_start Sample.string_format
              (Sample.start_of Scenario.handshake) exim_gnutls_state_init
              Sample.cleartext)
    as [[[rc state'] g']|] eqn:Hrun; [|discriminate Hrun].
  assert (Hrc : rc = OK).
  { vm_compute in Hrun. injection Hrun as Hrc _ _. symmetry. exact Hrc. }
  subst rc.
  destruct (tls_server_start_switches_input_iff_ok Sample.string_format
              (Sample.start_of Scenario.handshake) exim_gnutls_state_init
              state' Sample.cleartext g' OK Hrun) as [Hok _].
  destruct (Hok eq_refl) as (Hfns & Hactive & _ & Hbuffer & _).
  exists state', g'. split; [reflexivity|]. split; [exact Hfns|].
  split; [exact Hactive|]. rewrite Hbuffer. apply repeat_length.
Defined.

Lemma tls_server_start_optional_accepts_witness :
  exists state' g',
    Orchestrator.tls_server_start Sample.string_format
      (Sample.start_of Scenario.handshake) exim_gnutls_state_init
      Sample.cleartext = Some (OK, state', g') /\
    verify_requirement state' = VERIFY_OPTIONAL /\
    G.tls_certificate_verified g' = peer_cert_verified state'.
Proof.
  destruct (tls_server_start_optional_accepts Sample.string_format
              (Sample.start_of Scenario.handshake) exim_gnutls_state_init
              Sample.cleartext
              (Sample.session_of (Some [Sample.certificate]) (0, 0)
                 Scenario.handshake [] [])
              [(GNUTLS_E_AGAIN, false)] false [])
    as (state' & g' & Hrun & Hreq & Hverified & _).
  - reflexivity.
  - reflexivity.
  - reflexivity.
  - reflexivity.
  - reflexivity.
  - reflexivity.
  - split; [left; reflexivity|exact I].
  - exists state', g'. repeat split; assumption.
Defined.

Lemma tls_server_start_required_without_certificate_witness :
  exists state' g',
    Orchestrator.tls_server_start Sample.string_format
      (Scenario.server_of
         (Sample.session_of None (-49, 0) Scenario.handshake [] []) true)
      exim_gnutls_state_init Sample.cleartext = Some (FAIL, state', g') /\
    peer_cert_verified state' = false /\
    G.smtp_in_open g' = true /\ G.smtp_out_open g' = true /\
    G.receive_getc g' = Smtp_fn.
Proof.
  destruct (tls_server_start_required_without_certificate
              Sample.string_format
              (Scenario.server_of
                 (Sample.session_of None (-49, 0) Scenario.handshake [] [])
                 true)
              exim_gnutls_state_init Sample.cleartext
              (Sample.session_of None (-49, 0) Scenario.handshake [] [])
              [(GNUTLS_E_AGAIN, false)] false [])
    as (state' & g' & tr & Hrun & _ & Hverified & Hin & Hout & Hinput).
  - reflexivity.
  - reflexivity.
  - reflexivity.
  - reflexivity.
  - reflexivity.
  - left. reflexivity.
  - reflexivity.
  - split; [left; reflexivity|exact I].
  - exists state', g'. split; [exact Hrun|]. split; [exact Hverified|].
    split; [exact Hin|]. split; [exact Hout|].
    destruct Hinput as [Hfns _]. injection Hfns as Hgetc _ _ _ _.
    exact Hgetc.
Defined.

Lemma tls_server_start_required_ok_is_verified_witness :
  exists state' g',
    Orchestrator.tls_server_start Sample.string_format
      (Scenario.server_of
         (Sample.session_of (Some [Sample.certificate]) (0, 0)
            Scenario.handshake [] []) true)
      exim_gnutls_state_init Sample.cleartext = Some (OK, state', g') /\
    verify_requirement state' = VERIFY_REQUIRED /\
    peer_cert_verified state' = true /\
    G.tls_certificate_verified g' = true.
Proof.
  destruct (Orchestrator.tls_server_start Sample.string_format
              (Scenario.server_of
                 (Sample.session_of (Some [Sample.certificate]) (0, 0)
                    Scenario.handshake [] []) true)
              exim_gnutls_state_init Sample.cleartext)
    as [[[rc state'] g']|] eqn:Hrun; [|discriminate Hrun].
  assert (Hrc : rc = OK).
  { vm_compute in Hrun. injection Hrun as Hrc _ _. symmetry. exact Hrc. }
  subst rc. exists state', g'. split; [reflexivity|].
  apply (tls_server_start_required_ok_is_verified Sample.string_format
           (Scenario.server_of
              (Sample.session_of (Some [Sample.certificate]) (0, 0)
                 Scenario.handshake [] []) true)
           exim_gnutls_state_init state' Sample.cleartext g').
  - reflexivity.
  - exact Hrun.
Defined.

Lemma tls_client_start_outcome_witness :
  exists state' g',
    Orchestrator.tls_client_start Sample.string_format
      (Scenario.client_of
         (Sample.session_of (Some [Sample.certificate]) (0, 0)
            Scenario.handshake [] []))
      Sample.cleartext = Some (OK, state', g') /\
    receive_pointers g' = receive_pointers Sample.cleartext /\
    G.tls_active g' = 7 /\
    verify_requirement state' = VERIFY_REQUIRED /\
    peer_cert_verified state' = true.
Proof.
  destruct (Orchestrator.tls_client_start Sample.string_format
              (Scenario.client_of
                 (Sample.session_of (Some [Sample.certificate]) (0, 0)
                    Scenario.handshake [] []))
              Sample.cleartext)
    as [[[rc state'] g']|] eqn:Hrun; [|discriminate Hrun].
  assert (Hrc : rc = OK).
  { vm_compute in Hrun. injection Hrun as Hrc _ _. symmetry. exact Hrc. }
  subst rc.
  destruct (tls_client_start_outcome Sample.string_format
              (Scenario.client_of
                 (Sample.session_of (Some [Sample.certificate]) (0, 0)
                    Scenario.handshake [] []))
              state' Sample.cleartext g' OK Hrun)
    as (Hfns & _ & _ & _ & _ & Hok).
  destruct (Hok eq_refl) as (Hactive & _ & Hstore).
  destruct (Hstore ltac:(discriminate)) as (Hreq & Hverified & _).
  exists state', g'. repeat split; assumption.
Defined.

Lemma init_server_dh_uses_cache_witness :
  DH.init_server_dh Scenario.cached Sample.cleartext =
    (OK, G.set_trace
           [Ev_engine Dh_params_init;
            Ev_sys (Sys_open "/var/spool/exim/gnutls-params-2048");
            Ev_sys (Sys_close "/var/spool/exim/gnutls-params-2048");
            Ev_engine Dh_params_import_pkcs3] Sample.cleartext).
Proof.
  apply (init_server_dh_uses_cache Scenario.cached Sample.cleartext 3 0 3 3
           Sample.pem).
  - repeat split; vm_compute; try reflexivity; discriminate.
  - reflexivity.
  - vm_compute. discriminate.
  - reflexivity.
  - reflexivity.
  - reflexivity.
  - reflexivity.
  - discriminate.
  - reflexivity.
Defined.

Lemma tls_expand_session_files_replaces_credentials_witness :
  Resolver.tls_expand_session_files Sample.resolver
    (set_x509_cred (Some Scenario.loaded)
       (Scenario.configured (Some "/etc/exim/server.pem") None))
    Sample.cleartext =
  Resolver.tls_expand_session_files Sample.resolver
    (Scenario.configured (Some "/etc/exim/server.pem") None)
    Sample.cleartext.
Proof.
  apply (tls_expand_session_files_replaces_credentials Sample.resolver
           (Some Scenario.loaded)
           (Scenario.configured (Some "/etc/exim/server.pem") None)
           Sample.cleartext).
  reflexivity.
Defined.

Lemma tls_expand_session_files_loads_witness :
  exists state' c,
    Resolver.tls_expand_session_files Sample.resolver
      (Scenario.configured (Some "/etc/exim/server.pem")
         (Some "/etc/ssl/ca.pem"))
      Sample.cleartext = (OK, state', Sample.cleartext) /\
    x509_cred state' = Some c /\
    dh_params c = false /\
    key_file c = Some ("/etc/exim/server.pem", "/etc/exim/server.pem") /\
    tls_privatekey state' = Some "/etc/exim/server.pem".
Proof.
  pose proof (tls_expand_session_files_loads Sample.resolver
                (Scenario.configured (Some "/etc/exim/server.pem")
                   (Some "/etc/ssl/ca.pem"))
                Sample.cleartext) as Hloads.
  destruct (Resolver.tls_expand_session_files Sample.resolver
              (Scenario.configured (Some "/etc/exim/server.pem")
                 (Some "/etc/ssl/ca.pem"))
              Sample.cleartext)
    as [[rc state'] g'] eqn:Hrun.
  assert (Hrc : rc = OK /\ g' = Sample.cleartext /\
                exp_tls_certificate state' = Some "/etc/exim/server.pem" /\
                exp_tls_privatekey state' = Some "/etc/exim/server.pem").
  { vm_compute in Hrun. injection Hrun as <- <- <-.
    repeat split; reflexivity. }
  destruct Hrc as (-> & -> & Hcert & Hkey).
  destruct (Hloads eq_refl) as [(c & Hcred & Hdh & Hfile & _) Hprivate].
  exists state', c. split; [reflexivity|]. split; [exact Hcred|].
  split; [exact Hdh|]. split.
  - rewrite Hfile, Hcert, Hkey. reflexivity.
  - destruct Hprivate as [Hprivate _]. exact Hprivate.
Defined.

Lemma tls_expand_session_files_without_certificate_witness :
  exists state',
    Resolver.tls_expand_session_files Sample.resolver
      (Scenario.configured None None) Sample.cleartext =
      (DEFER, state',
       G.emit (Ev_tls_error "no TLS server certificate is specified"
                 Msg_null None) Sample.cleartext) /\
    x509_cred state' = Some empty_credentials.
Proof.
  destruct (tls_expand_session_files_without_certificate Sample.resolver
              (Scenario.configured None None) Sample.cleartext)
    as [Hserver _].
  - reflexivity.
  - exact I.
  - apply Hserver. reflexivity.
Defined.

Lemma tls_expand_session_files_idempotent_witness :
  exists state1,
    Resolver.tls_expand_session_files Sample.resolver
      (Scenario.configured (Some "/etc/exim/server.pem")
         (Some "/etc/ssl/ca.pem"))
      Sample.cleartext = (OK, state1, Sample.cleartext) /\
    Resolver.tls_expand_session_files Sample.resolver state1
      Sample.cleartext = (OK, state1, Sample.cleartext).
Proof.
  destruct (Resolver.tls_expand_session_files Sample.resolver
              (Scenario.configured (Some "/etc/exim/server.pem")
                 (Some "/etc/ssl/ca.pem"))
              Sample.cleartext)
    as [[rc state1] g1] eqn:Hrun.
  assert (Hrc : rc = OK /\ g1 = Sample.cleartext).
  { vm_compute in Hrun. injection Hrun as <- _ <-. split; reflexivity. }
  destruct Hrc as [-> ->].
  exists state1. split; [reflexivity|].
  exact (tls_expand_session_files_idempotent Sample.resolver
           (Scenario.configured (Some "/etc/exim/server.pem")
              (Some "/etc/ssl/ca.pem"))
           state1 Sample.cleartext Sample.cleartext Hrun).
Defined.

Lemma tls_close_active_witness :
  exists st',
    Lifecycle.tls_close true
      (Scenario.serving Sample.reader, Sample.established) =
      Some (st', G.set_tls_active (-1)
                   (G.emit (Ev_engine Deinit) Sample.established)) /\
    Lifecycle.state_server st' = exim_gnutls_state_init /\
    Lifecycle.exim_gnutls_base_init_done st' = false /\
    Lifecycle.library_calls st' = [Lifecycle.Bye; Lifecycle.Global_deinit].
Proof.
  destruct (tls_close_active true (Scenario.serving Sample.reader)
              Sample.established Lifecycle.State_server
              (Sample.session_of (Some [Sample.certificate]) (0, 0) []
                 [(2, ["E"%byte; "H"%byte]); (2, ["L"%byte; "O"%byte]);
                  (0, [])] []))
    as (st' & Hrun & Hblock & _ & Hguard & Hcalls & _).
  - simpl. lia.
  - reflexivity.
  - reflexivity.
  - exists st'. repeat split; assumption.
Defined.

Lemma init_server_dh_runs_once_witness :
  exists st1 g1 st2,
    Lifecycle.tls_set_remaining_x509
      (Scenario.library false (0, 1, "mail.example"))
      Lifecycle.State_server (Scenario.untouched, Sample.cleartext) =
      (OK, (st1, g1)) /\
    Lifecycle.dh_server_params st1 = true /\
    Lifecycle.tls_set_remaining_x509
      (Scenario.library false (0, 1, "mail.example"))
      Lifecycle.State_server (st1, g1) = (OK, (st2, g1)).
Proof.
  pose proof (init_server_dh_runs_once
                (Scenario.library false (0, 1, "mail.example"))
                (Scenario.library false (0, 1, "mail.example"))
                Lifecycle.State_server Scenario.untouched Sample.cleartext)
    as Honce.
  destruct (Lifecycle.tls_set_remaining_x509
              (Scenario.library false (0, 1, "mail.example"))
              Lifecycle.State_server (Scenario.untouched, Sample.cleartext))
    as [rc [st1 g1]] eqn:Hrun.
  assert (Hrc : rc = OK).
  { vm_compute in Hrun. injection Hrun as <- _ _. reflexivity. }
  subst rc.
  destruct Honce as [Hserver _].
  destruct (Hserver eq_refl eq_refl) as [Hset Hagain].
  destruct (Lifecycle.tls_set_remaining_x509
              (Scenario.library false (0, 1, "mail.example"))
              Lifecycle.State_server (st1, g1))
    as [rc' [st2 g2]] eqn:Hrun'.
  destruct Hagain as (_ & -> & ->).
  exists st1, g1, st2. split; [reflexivity|]. split; [exact Hset|].
  exact Hrun'.
Defined.

Lemma exim_sni_handling_cb_outcomes_witness :
  exists st' g',
    Lifecycle.exim_sni_handling_cb
      (Scenario.library false (0, 1, "mail.example"))
      (Scenario.serving
         (set_trigger_sni_changes true
            (Scenario.configured (Some "/etc/exim/server.pem") None)),
       Sample.cleartext) = Some (0, (st', g')) /\
    received_sni (Lifecycle.state_server st') = Some "mail.example" /\
    G.tls_sni g' = Some "mail.example" /\
    Lifecycle.state_client st' = exim_gnutls_state_init.
Proof.
  destruct (Lifecycle.exim_sni_handling_cb
              (Scenario.library false (0, 1, "mail.example"))
              (Scenario.serving
                 (set_trigger_sni_changes true
                    (Scenario.configured (Some "/etc/exim/server.pem") None)),
               Sample.cleartext))
    as [[r [st' g']]|] eqn:Hrun; [|discriminate Hrun].
  assert (Hr : r = 0).
  { vm_compute in Hrun. injection Hrun as <- _ _. reflexivity. }
  subst r.
  destruct (exim_sni_handling_cb_outcomes
              (Scenario.library false (0, 1, "mail.example"))
              (Scenario.serving
                 (set_trigger_sni_changes true
                    (Scenario.configured (Some "/etc/exim/server.pem") None)))
              st' Sample.cleartext g' 0 Hrun)
    as (_ & _ & Hname).
  destruct (Hname eq_refl eq_refl) as (b & Hb & Hsni & Hpublished & Hother & _).
  injection Hb as <-.
  exists st', g'. split; [reflexivity|]. repeat split; assumption.
Defined.

Lemma tls_init_fresh_state_witness :
  exists st' g',
    Lifecycle.tls_init (Scenario.library true (0, 1, "mail.example")) None
      (Some "/etc/exim/server.pem") None None (Some "/etc/ssl/ca.pem") None
      None
      (Scenario.serving
         (set_peerdn (Some "CN=earlier.example") Sample.reader),
       Sample.cleartext) = (OK, (st', g')) /\
    session (Lifecycle.state_server st') = Some Scenario.chained /\
    tls_privatekey (Lifecycle.state_server st') =
      Some "/etc/exim/server.pem" /\
    peerdn (Lifecycle.state_server st') = None /\
    xfer_buffer (Lifecycle.state_server st') = [] /\
    Lifecycle.current_global_tls_state st' = Some Lifecycle.State_server.
Proof.
  destruct (Lifecycle.tls_init (Scenario.library true (0, 1, "mail.example"))
              None (Some "/etc/exim/server.pem") None None
              (Some "/etc/ssl/ca.pem") None None
              (Scenario.serving
                 (set_peerdn (Some "CN=earlier.example") Sample.reader),
               Sample.cleartext))
    as [rc [st' g']] eqn:Hrun.
  assert (Hrc : rc = OK).
  { vm_compute in Hrun. injection Hrun as <- _ _. reflexivity. }
  subst rc.
  destruct (tls_init_fresh_state (Scenario.library true (0, 1, "mail.example"))
              None (Some "/etc/exim/server.pem") None None
              (Some "/etc/ssl/ca.pem") None None
              (Scenario.serving
                 (set_peerdn (Some "CN=earlier.example") Sample.reader))
              st' Sample.cleartext g' Hrun)
    as ((_ & Hsession) & (_ & _ & Hkey & _) &
        (_ & _ & _ & _ & _ & Hdn & _) & (Hbuffer & _) & _ & Hcurrent & _).
  exists st', g'. split; [reflexivity|]. repeat split; assumption.
Defined.

Lemma tls_init_engine_calls_witness :
  exists st' g',
    Lifecycle.tls_init (Scenario.library false (0, 1, "mail.example"))
      (Some Sample.remote) None None (Some "mx.example") None None
      (Some "SECURE256") (Scenario.untouched, Sample.cleartext) =
      (OK, (st', g')) /\
    Lifecycle.library_calls st' =
      [Lifecycle.Global_init; Lifecycle.Init Lifecycle.State_client;
       Lifecycle.Credentials_set; Lifecycle.Server_name_set "mx.example";
       Lifecycle.Priority_init "SECURE256"; Lifecycle.Priority_set;
       Lifecycle.Db_set_cache_expiration 200] /\
    priority_cache (Lifecycle.state_client st') = Some "SECURE256".
Proof.
  destruct (Lifecycle.tls_init (Scenario.library false (0, 1, "mail.example"))
              (Some Sample.remote) None None (Some "mx.example") None None
              (Some "SECURE256") (Scenario.untouched, Sample.cleartext))
    as [rc [st' g']] eqn:Hrun.
  assert (Hrc : rc = OK /\
                exp_tls_sni (Lifecycle.state_client st') =
                  Some "mx.example" /\
                exp_tls_require_ciphers (Lifecycle.state_client st') =
                  Some "SECURE256").
  { vm_compute in Hrun. injection Hrun as <- <- _. repeat split; reflexivity. }
  destruct Hrc as (-> & Hsni & Hciphers).
  destruct (tls_init_engine_calls
              (Scenario.library false (0, 1, "mail.example"))
              (Some Sample.remote) None None (Some "mx.example") None None
              (Some "SECURE256") Scenario.untouched st' Sample.cleartext g'
              Hrun)
    as (Hcalls & Hcache & _).
  change (Lifecycle.deref (block_of_role (Some Sample.remote)) st')
    with (Lifecycle.state_client st') in Hcalls, Hcache.
  unfold tls_init_calls in Hcalls.
  rewrite Hsni, Hciphers in Hcalls. rewrite Hciphers in Hcache.
  exists st', g'. split; [reflexivity|]. split; assumption.
Defined.

Lemma vaguely_random_number_value_witness :
  Random.vaguely_random_number Sample.entropy 1000 = (65535 mod 1000, [2]).
Proof.
  destruct (vaguely_random_number_value Sample.entropy 1000 0
              ["255"%byte; "255"%byte]) as [_ Hdelivered].
  - unfold INT_MAX. lia.
  - reflexivity.
  - apply Hdelivered; [lia|]. vm_compute. discriminate.
Defined.

Lemma init_server_dh_regenerates_only_when_absent_witness :
  exists es,
    snd (DH.init_server_dh Scenario.absent Sample.cleartext) =
      G.set_trace es Sample.cleartext /\
    existsb is_regeneration es = true /\
    DH.Uopen Scenario.absent "/var/spool/exim/gnutls-params-2048" =
      (-1, DH.ENOENT).
Proof.
  destruct (init_server_dh_regenerates_only_when_absent Scenario.absent
              Sample.cleartext) as (es & Hrun & Habsent).
  assert (Hes : existsb is_regeneration es = true).
  { apply (f_equal G.trace) in Hrun. vm_compute in Hrun. subst es.
    reflexivity. }
  exists es. split; [exact Hrun|]. split; [exact Hes|].
  destruct (Habsent Hes) as [_ Herrno]. reflexivity.
Defined.


Lemma tls_close_inactive_witness :
  Lifecycle.tls_close true (Scenario.untouched, Sample.cleartext) =
    Some (Scenario.untouched, Sample.cleartext) /\
  exists c state' g',
    RecordIO.tls_getc (Scenario.reading 0) Sample.established =
      Some (c, state', g') /\
    Lifecycle.tls_close true (Scenario.serving state', g') =
      Some (Scenario.serving state', g').
Proof.
  destruct (tls_close_inactive true) as (Hinactive & _ & Hfallback).
  split.
  - apply (Hinactive (Scenario.untouched, Sample.cleartext)). reflexivity.
  - destruct (RecordIO.tls_getc (Scenario.reading 0) Sample.established)
      as [[[c state'] g']|] eqn:Hrun; [|discriminate Hrun].
    exists c, state', g'. split; [reflexivity|].
    apply (Hfallback [] []
             (Sample.session_of (Some [Sample.certificate]) (0, 0) []
                [(0, [])] [])
             (Scenario.reading 0) Sample.established c state' g').
    + reflexivity.
    + reflexivity.
    + simpl. lia.
    + exact Hrun.
Defined.
